(** * Attendance backend: the request handlers and their remote store

    A shallow embedding of the Express handlers of the attendance backend
    (student registration with photo and QR code, attendance check-in) in
    the revisions kept in the repository:

    - [IndexJs]      src/index.js
    - [Part000]      src/unnamed/part_000
    - [Part001]      src/unnamed/part_001, first document (ES module); its
                     POST /api/student is the text of src/index.js
    - [Part001Cjs]   src/unnamed/part_001, second document (CommonJS):
                     ADMIN_SECRET, requireAdmin, uploadToStorage,
                     POST /api/create-student and POST /api/attendance
    - [Part002]      src/unnamed/part_002

    JavaScript values are a small inductive type with [undefined].  The
    remote services (Supabase tables and buckets, the QR encoder, the
    clock) are an explicit state [Store.t] threaded through every handler,
    together with a [Store.remote] that says how the services answer the
    calls of one request.  [req.body] is taken as parsed (an object whose
    absent fields read [undefined]) and query parameters as absent or
    text. *)

From Stdlib Require Import ZArith List String Ascii Bool Lia DecimalString.
Import ListNotations.
Local Open Scope string_scope.
Local Open Scope Z_scope.

(** ** JavaScript values *)

Module JS.

(** JSON values plus [undefined] (a field absent from [req.body]).  JSON
    numbers are kept as integers: the handlers only test them for truth. *)
#[local] Unset Elimination Schemes.
Inductive value : Type :=
| VUndef
| VNull
| VBool (b : bool)
| VNum (n : Z)
| VStr (s : string)
| VArr (items : list value)
| VObj (fields : list (string * value)).
#[local] Set Elimination Schemes.

(** [!!v] *)
Definition truthy (v : value) : bool :=
  match v with
  | VUndef | VNull => false
  | VBool b => b
  | VNum n => negb (n =? 0)
  | VStr s => negb (s =? "")%string
  | VArr _ | VObj _ => true
  end.

(** [!v] *)
Definition falsy (v : value) : bool := negb (truthy v).

(** A value read from [process.env] or from a parsed query string: absent or
    a string. *)
Definition of_env (o : option string) : value :=
  match o with
  | Some s => VStr s
  | None => VUndef
  end.

(** [a === b] for values that came out of JSON.parse, a query string or the
    environment: arrays and objects are fresh references, never identical
    to anything else. *)
Definition strict_eq (a b : value) : bool :=
  match a, b with
  | VUndef, VUndef => true
  | VNull, VNull => true
  | VBool x, VBool y => Bool.eqb x y
  | VNum x, VNum y => (x =? y)
  | VStr x, VStr y => (x =? y)%string
  | _, _ => false
  end.

(** [a !== b] *)
Definition strict_ne (a b : value) : bool := negb (strict_eq a b).

(** [a || b] *)
Definition or_else (a b : value) : value := if truthy a then a else b.

(** Destructuring default, [{ x = d } = obj]: only [undefined] takes it. *)
Definition default_to (v d : value) : value :=
  match v with
  | VUndef => d
  | _ => v
  end.

(** Structural equality of two values, the comparison the record store makes
    between a column and a filter operand. *)
Fixpoint value_eqb (a b : value) {struct a} : bool :=
  match a, b with
  | VUndef, VUndef => true
  | VNull, VNull => true
  | VBool x, VBool y => Bool.eqb x y
  | VNum x, VNum y => (x =? y)
  | VStr x, VStr y => (x =? y)%string
  | VArr xs, VArr ys =>
      (fix go (xs ys : list value) {struct xs} : bool :=
         match xs, ys with
         | [], [] => true
         | x :: xs', y :: ys' => value_eqb x y && go xs' ys'
         | _, _ => false
         end) xs ys
  | VObj xs, VObj ys =>
      (fix go (xs ys : list (string * value)) {struct xs} : bool :=
         match xs, ys with
         | [], [] => true
         | (k, x) :: xs', (k', y) :: ys' =>
             (k =? k')%string && value_eqb x y && go xs' ys'
         | _, _ => false
         end) xs ys
  | _, _ => false
  end.

(** Object literal helpers. [obj_set] is what a later key of an object
    literal or a key after a spread does: it overwrites in place when the
    key exists and appends otherwise. *)
Fixpoint obj_set (k : string) (v : value) (o : list (string * value))
  : list (string * value) :=
  match o with
  | [] => [(k, v)]
  | (k', v') :: o' =>
      if (k =? k')%string then (k, v) :: o' else (k', v') :: obj_set k v o'
  end.

Fixpoint obj_get (k : string) (o : list (string * value)) : value :=
  match o with
  | [] => VUndef
  | (k', v) :: o' => if (k =? k')%string then v else obj_get k o'
  end.

(** [v.k] on a value *)
Definition get (k : string) (v : value) : value :=
  match v with
  | VObj o => obj_get k o
  | _ => VUndef
  end.

(** *** Strings *)

Definition dquote : string := String "034"%char EmptyString.
Definition newline : string := String "010"%char EmptyString.

Definition hex_digit_upper (n : nat) : ascii :=
  match n with
  | 0 => "0" | 1 => "1" | 2 => "2" | 3 => "3" | 4 => "4" | 5 => "5"
  | 6 => "6" | 7 => "7" | 8 => "8" | 9 => "9" | 10 => "A" | 11 => "B"
  | 12 => "C" | 13 => "D" | 14 => "E" | _ => "F"
  end%char%nat.

Definition hex_digit_lower (n : nat) : ascii :=
  match n with
  | 0 => "0" | 1 => "1" | 2 => "2" | 3 => "3" | 4 => "4" | 5 => "5"
  | 6 => "6" | 7 => "7" | 8 => "8" | 9 => "9" | 10 => "a" | 11 => "b"
  | 12 => "c" | 13 => "d" | 14 => "e" | _ => "f"
  end%char%nat.

Definition in_range (lo hi : nat) (c : ascii) : bool :=
  let n := nat_of_ascii c in (Nat.leb lo n && Nat.leb n hi)%bool.

(** The characters [encodeURIComponent] leaves alone:
    A-Z a-z 0-9 - _ . ! ~ * ' ( ) *)
Definition uri_unreserved (c : ascii) : bool :=
  (in_range 65 90 c || in_range 97 122 c || in_range 48 57 c
   || existsb (Ascii.eqb c)
        ["-"; "_"; "."; "!"; "~"; "*"; "'"; "("; ")"]%char)%bool.

Definition percent_byte (c : ascii) : string :=
  let n := nat_of_ascii c in
  String "%" (String (hex_digit_upper (n / 16))
                     (String (hex_digit_upper (n mod 16)) EmptyString)).

(** [encodeURIComponent(s)] on the UTF-8 bytes of [s]: every byte that is
    not an unreserved character becomes [%XX]. *)
Fixpoint encodeURIComponent (s : string) : string :=
  match s with
  | EmptyString => EmptyString
  | String c s' =>
      if uri_unreserved c then String c (encodeURIComponent s')
      else (percent_byte c ++ encodeURIComponent s')%string
  end.

Definition json_escape_char (c : ascii) : string :=
  let n := nat_of_ascii c in
  if Nat.eqb n 34 then String "\" dquote
  else if Nat.eqb n 92 then "\\"
  else if Nat.eqb n 8 then "\b"
  else if Nat.eqb n 12 then "\f"
  else if Nat.eqb n 10 then "\n"
  else if Nat.eqb n 13 then "\r"
  else if Nat.eqb n 9 then "\t"
  else if Nat.ltb n 32 then
    ("\u00" ++ String (hex_digit_lower (n / 16))
                 (String (hex_digit_lower (n mod 16)) EmptyString))%string
  else String c EmptyString.

Fixpoint json_escape (s : string) : string :=
  match s with
  | EmptyString => EmptyString
  | String c s' => (json_escape_char c ++ json_escape s')%string
  end.

(** [JSON.stringify(s)] for a string [s] *)
Definition json_quote (s : string) : string :=
  (dquote ++ json_escape s ++ dquote)%string.

(** [s.replace(/\/$/, '')]: one trailing slash is removed. *)
Fixpoint strip_trailing_slash (s : string) : string :=
  match s with
  | EmptyString => EmptyString
  | String c EmptyString => if Ascii.eqb c "/" then EmptyString else s
  | String c s' => String c (strip_trailing_slash s')
  end.

(** [String(v)], the conversion a template literal applies. *)
Fixpoint to_string (v : value) : string :=
  match v with
  | VUndef => "undefined"
  | VNull => "null"
  | VBool true => "true"
  | VBool false => "false"
  | VNum n => NilZero.string_of_int (Z.to_int n)
  | VStr s => s
  | VArr items =>
      (fix join (l : list value) : string :=
         match l with
         | [] => ""
         | [x] => match x with VUndef | VNull => "" | _ => to_string x end
         | x :: l' =>
             (match x with VUndef | VNull => "" | _ => to_string x end
              ++ "," ++ join l')%string
         end) items
  | VObj _ => "[object Object]"
  end.

(** [JSON.stringify(v)] of a value inside an object or array: a field whose
    value is [undefined] is left out, an [undefined] item is [null]. *)
Fixpoint stringify (v : value) : string :=
  match v with
  | VUndef | VNull => "null"
  | VBool true => "true"
  | VBool false => "false"
  | VNum n => NilZero.string_of_int (Z.to_int n)
  | VStr s => json_quote s
  | VArr items =>
      ("[" ++
       (fix go (l : list value) : string :=
          match l with
          | [] => ""
          | [x] => stringify x
          | x :: l' => (stringify x ++ "," ++ go l')%string
          end) items
       ++ "]")%string
  | VObj fields =>
      ("{" ++
       (fix go (first : bool) (l : list (string * value)) : string :=
          match l with
          | [] => ""
          | (k, x) :: l' =>
              match x with
              | VUndef => go first l'
              | _ => ((if first then "" else ",") ++ json_quote k ++ ":"
                      ++ stringify x ++ go false l')%string
              end
          end) true fields
       ++ "}")%string
  end.

(** [s.split(sep)] for a one-character separator: the pieces between the
    separators, at least one. *)
Fixpoint split (sep : ascii) (s : string) : list string :=
  match s with
  | EmptyString => [EmptyString]
  | String c s' =>
      if Ascii.eqb c sep then EmptyString :: split sep s'
      else match split sep s' with
           | [] => [String c EmptyString]
           | piece :: pieces => String c piece :: pieces
           end
  end.

End JS.

(** ** The remote services

    The managed database ("record store"), the object storage ("blob store"),
    the QR encoder and the clock are outside the program.  [Store.t] is the
    state they hold; [Store.remote] is how they answer the calls of one
    request (which calls fail and with what message, the identifier and the
    timestamp the database gives to a new row, the readings of the server
    clock).  Every call is appended to [calls], so that "no insert is
    attempted" is a statement about the state. *)

Module Store.
Import JS.

(** [{ data, error }] *)
Inductive result (A : Type) : Type :=
| Data (data : A)
| Error (message : string).
Arguments Data {A} data.
Arguments Error {A} message.

(** A row is the JavaScript object the store returns for it. *)
Definition row : Type := list (string * value).

Inductive table : Type := Students | Attendance.

Definition table_name (t : table) : string :=
  match t with
  | Students => "students"
  | Attendance => "attendance"
  end.

Inductive filter : Type :=
| Eq (column : string) (operand : value)
| Gte (column : string) (operand : value)
| Lte (column : string) (operand : value).

Inductive ec_level : Type := EcDefault | EcH.

(** What is uploaded: the bytes of a received file, a fetched body, or the
    PNG the QR encoder makes of a text. *)
Inductive blob : Type :=
| FileBuffer (bytes : string)
| QrPng (text : string) (level : ec_level).

Inductive call : Type :=
| TableInsert (t : table) (fields : row)
| TableSelect (t : table) (columns : string) (filters : list filter)
              (limit : option nat)
| TableUpdate (t : table) (fields : row) (filters : list filter)
| StorageUpload (bucket path : string) (content : blob) (contentType : value)
| QRCodeToBuffer (text : string) (level : ec_level)
| Fetch (url : string).

Record object : Type := {
  o_bucket : string;
  o_path : string;
  o_content : blob;
  o_contentType : value
}.

Record t : Type := {
  students : list row;
  attendance : list row;
  objects : list object;
  calls : list call          (* oldest first *)
}.

Record remote : Type := {
  error_of : call -> option string;  (* the error a call comes back with *)
  new_id : string;                   (* id the database gives a new row *)
  db_now : string;                   (* created_at default, ISO 8601 *)
  now_iso : string;                  (* new Date().toISOString() *)
  start_of_day_iso : string;         (* local 00:00:00.000, toISOString() *)
  end_of_day_iso : string;           (* local 23:59:59.999, toISOString() *)
  now_locale : string;               (* new Date().toLocaleString() *)
  fetched : string                   (* body of a fetched URL *)
}.

Definition empty : t :=
  {| students := []; attendance := []; objects := []; calls := [] |}.

Definition log (c : call) (st : t) : t :=
  {| students := students st; attendance := attendance st;
     objects := objects st; calls := calls st ++ [c] |}.

Definition rows_of (tb : table) (st : t) : list row :=
  match tb with
  | Students => students st
  | Attendance => attendance st
  end.

Definition with_rows (tb : table) (rows : list row) (st : t) : t :=
  match tb with
  | Students =>
      {| students := rows; attendance := attendance st;
         objects := objects st; calls := calls st |}
  | Attendance =>
      {| students := students st; attendance := rows;
         objects := objects st; calls := calls st |}
  end.

(** JSON.stringify drops a field whose value is [undefined]; the column
    then takes its default, NULL. *)
Definition to_column (kv : string * value) : string * value :=
  match snd kv with
  | VUndef => (fst kv, VNull)
  | _ => kv
  end.

(** Columns the database fills in on insert. *)
Definition defaults (r : remote) (tb : table) : row :=
  match tb with
  | Students => [("photo_url", VNull); ("qr_code_url", VNull)]
  | Attendance => [("created_at", VStr (db_now r))]
  end.

Definition new_row (r : remote) (tb : table) (fields : row) : row :=
  ("id", VStr (new_id r)) :: map to_column fields ++ defaults r tb.

(** Order of two column values: timestamps and dates are ISO 8601 text in
    one format, whose alphabetical order is the order in time. *)
Definition value_leb (a b : value) : bool :=
  match a, b with
  | VStr x, VStr y => (x <=? y)%string
  | _, _ => false
  end.

Definition matches (f : filter) (rw : row) : bool :=
  match f with
  | Eq c v => value_eqb (obj_get c rw) v
  | Gte c v => value_leb v (obj_get c rw)
  | Lte c v => value_leb (obj_get c rw) v
  end.

Definition matches_all (fs : list filter) (rw : row) : bool :=
  forallb (fun f => matches f rw) fs.

Definition take (limit : option nat) (rows : list row) : list row :=
  match limit with
  | Some n => firstn n rows
  | None => rows
  end.

(** [supabase.from(tb).insert([fields]).select().single()] *)
Definition insert (r : remote) (tb : table) (fields : row) (st : t)
  : result row * t :=
  let c := TableInsert tb fields in
  match error_of r c with
  | Some msg => (Error msg, log c st)
  | None =>
      let rw := new_row r tb fields in
      (Data rw, log c (with_rows tb (rows_of tb st ++ [rw]) st))
  end.

(** [supabase.from(tb).select(columns).filter...().limit(n)] *)
Definition select (r : remote) (tb : table) (columns : string)
    (fs : list filter) (limit : option nat) (st : t)
  : result (list row) * t :=
  let c := TableSelect tb columns fs limit in
  match error_of r c with
  | Some msg => (Error msg, log c st)
  | None => (Data (take limit (List.filter (matches_all fs) (rows_of tb st))),
             log c st)
  end.

Definition set_fields (fields : row) (rw : row) : row :=
  fold_left (fun acc kv => obj_set (fst kv) (snd kv) acc) fields rw.

(** [supabase.from(tb).update(fields).filter...()]; no caller looks at the
    result. *)
Definition update (r : remote) (tb : table) (fields : row)
    (fs : list filter) (st : t) : t :=
  let c := TableUpdate tb fields fs in
  match error_of r c with
  | Some _ => log c st
  | None =>
      log c (with_rows tb
               (map (fun rw => if matches_all fs rw
                               then set_fields (map to_column fields) rw
                               else rw)
                    (rows_of tb st)) st)
  end.

Definition same_object (bucket path : string) (o : object) : bool :=
  ((o_bucket o =? bucket)%string && (o_path o =? path)%string)%bool.

(** [supabase.storage.from(bucket).upload(path, content,
    { contentType, upsert: true })]: the error, if any. *)
Definition upload (r : remote) (bucket path : string) (content : blob)
    (contentType : value) (st : t) : option string * t :=
  let c := StorageUpload bucket path content contentType in
  match error_of r c with
  | Some msg => (Some msg, log c st)
  | None =>
      let o := {| o_bucket := bucket; o_path := path;
                  o_content := content; o_contentType := contentType |} in
      let others :=
        List.filter (fun x => negb (same_object bucket path x)) (objects st) in
      (None,
       log c {| students := students st; attendance := attendance st;
                objects := others ++ [o]; calls := calls st |})
  end.

(** [QRCode.toBuffer(text, options)]; [Error] is a rejected promise. *)
Definition toBuffer (r : remote) (text : string) (level : ec_level) (st : t)
  : result blob * t :=
  let c := QRCodeToBuffer text level in
  match error_of r c with
  | Some msg => (Error msg, log c st)
  | None => (Data (QrPng text level), log c st)
  end.

(** [supabase.storage.from(bucket).getPublicUrl(path).data.publicUrl] *)
Definition getPublicUrl (supabase_url bucket path : string) : string :=
  supabase_url ++ "/storage/v1/object/public/" ++ bucket ++ "/" ++ path.

(** The calls a handler added to the log. *)
Definition made (before after : t) : list call :=
  skipn (List.length (calls before)) (calls after).

(** [.single()]: the one row of the result; a result of no row or of
    several rows is an error. *)
Definition single (rows : result (list row)) : result row :=
  match rows with
  | Error message => Error message
  | Data [rw] => Data rw
  | Data _ => Error "JSON object requested, multiple (or no) rows returned"
  end.

(** [supabase.from(tb).select(columns).filter...().single()] *)
Definition select_single (r : remote) (tb : table) (columns : string)
    (fs : list filter) (st : t) : result row * t :=
  let '(rows, st') := select r tb columns fs None st in
  (single rows, st').

End Store.

(** ** Requests and responses *)

Module Http.
Import JS.

Inductive payload : Type :=
| Json (v : value)      (* res.json(v) *)
| Send (text : string). (* res.send(text): an HTML page *)

Record response : Type := {
  status : Z;
  body : payload
}.

(** [res.status(code).json(v)] *)
Definition json (code : Z) (v : value) : response :=
  {| status := code; body := Json v |}.

(** [res.status(code).send(text)] *)
Definition send (code : Z) (text : string) : response :=
  {| status := code; body := Send text |}.

(** [{ ok: false, error }] *)
Definition failure (code : Z) (error : string) : response :=
  json code (VObj [("ok", VBool false); ("error", VStr error)]).

(** [req.file] as multer's memory storage leaves it *)
Record file : Type := {
  buffer : string;
  mimetype : string
}.

(** [req.body] and [req.file] of POST /api/student *)
Record student_form : Type := {
  name : value;
  username : value;
  email : value;
  matric_number : value;
  photo : option file
}.

(** [req.body] of POST /api/attendance; a field that is absent is
    [VUndef]. *)
Record attendance_body : Type := {
  student_id : value;
  lecturer : value;
  course : value;
  admin_pin : value
}.

(** [req.query] of GET /api/attendance/mark *)
Record mark_query : Type := {
  q_student_id : option string;
  q_pin : option string
}.

(** [process.env] *)
Record environment : Type := {
  env_SUPABASE_URL : option string;
  env_SUPABASE_KEY : option string;
  env_FRONTEND_URL : option string;
  env_ADMIN_PIN : option string
}.

(** The module-level constants a running server holds. *)
Record config : Type := {
  SUPABASE_URL : string;
  SUPABASE_KEY : string;
  FRONTEND_URL : string;
  ADMIN_PIN : value
}.

(** [createClient(url, key)] of the Supabase client library, which is not
    part of the repository: [Some message] when the call throws (the
    library refuses a value that is not a URL), [None] when it returns a
    client.  An exception at the top level of a server file ends the
    process with code 1. *)
Definition client_library : Type := string -> string -> option string.

(** What the top-level code of a server file ends in: [process.exit(code)]
    or an uncaught exception, or [app.listen] with the constants it
    computed. *)
Inductive process : Type :=
| Exited (code : Z)
| Listening (cfg : config).

Definition PHOTO_BUCKET : string := "student-photos".
Definition QR_BUCKET : string := "qr-codes".

(** The two pages of GET /api/attendance/mark, as the template literals
    spell them. *)
Definition confirm_form (student_id : string) : string :=
  String.concat newline
    [ "";
      "        <h3>Confirm attendance</h3>";
      "        <p>Student ID: <strong>" ++ student_id ++ "</strong></p>";
      "        <form method=" ++ dquote ++ "GET" ++ dquote ++ " action="
        ++ dquote ++ "/api/attendance/mark" ++ dquote ++ ">";
      "          <input type=" ++ dquote ++ "hidden" ++ dquote ++ " name="
        ++ dquote ++ "student_id" ++ dquote ++ " value=" ++ dquote
        ++ student_id ++ dquote ++ " />";
      "          PIN: <input name=" ++ dquote ++ "pin" ++ dquote ++ " type="
        ++ dquote ++ "password" ++ dquote ++ " />";
      "          <button type=" ++ dquote ++ "submit" ++ dquote
        ++ ">Submit</button>";
      "        </form>";
      "      " ].

Definition recorded_page (student_id time : string) : string :=
  String.concat newline
    [ "";
      "      <h2>Attendance recorded</h2>";
      "      <p>Student ID: " ++ student_id ++ "</p>";
      "      <p>Time: " ++ time ++ "</p>";
      "    " ].

(** A request reaches a handler only while the process listens. *)
Definition serve {Req : Type}
    (handler : config -> Store.remote -> Req -> Store.t -> response * Store.t)
    (p : process) (r : Store.remote) (req : Req) (st : Store.t)
  : option (response * Store.t) :=
  match p with
  | Exited _ => None
  | Listening cfg => Some (handler cfg r req st)
  end.

(** [data?.publicUrl || null] *)
Definition getFileUrl (cfg : config) (bucket path : string) : value :=
  or_else (VStr (Store.getPublicUrl (SUPABASE_URL cfg) bucket path)) VNull.

End Http.

(** ** src/index.js *)

Module IndexJs.
Import JS Http.

(** Lines 15-29 and 180-181: the constants, the two configuration checks,
    [createClient], then [app.listen]. *)
Definition startup (createClient : client_library) (e : environment)
  : process :=
  let supabase_url := of_env (env_SUPABASE_URL e) in
  let supabase_key := of_env (env_SUPABASE_KEY e) in
  let frontend_url :=
    strip_trailing_slash
      (to_string (or_else (of_env (env_FRONTEND_URL e)) (VStr ""))) in
  let admin_pin := of_env (env_ADMIN_PIN e) in
  if (falsy supabase_url || falsy supabase_key)%bool then Exited 1
  else if falsy (VStr frontend_url) then Exited 1
  else
    match createClient (to_string supabase_url) (to_string supabase_key) with
    | Some _ => Exited 1
    | None =>
        Listening {| SUPABASE_URL := to_string supabase_url;
                     SUPABASE_KEY := to_string supabase_key;
                     FRONTEND_URL := frontend_url;
                     ADMIN_PIN := admin_pin |}
    end.

(** [err.message || String(err)] of the catch clause *)
Definition caught (message : string) : string :=
  if (message =? "")%string then "Error" else message.

(** POST /api/student, lines 44-97 *)
Definition post_api_student (cfg : config) (r : Store.remote)
    (req : student_form) (st : Store.t) : response * Store.t :=
  if (falsy (name req) || falsy (username req) || falsy (email req)
      || falsy (matric_number req))%bool
  then (failure 400 "Missing required fields", st)
  else
    let '(inserted, st1) :=
      Store.insert r Store.Students
        [("name", name req); ("username", username req);
         ("email", email req); ("matric_number", matric_number req)] st in
    match inserted with
    | Store.Error message => (failure 500 message, st1)
    | Store.Data student =>
        let id := to_string (obj_get "id" student) in
        let '(photo_url, st2) :=
          match photo req with
          | Some f =>
              let photoPath := "photo_" ++ id ++ ".png" in
              let '(uploadErr, st') :=
                Store.upload r PHOTO_BUCKET photoPath
                  (Store.FileBuffer (buffer f)) (VStr (mimetype f)) st1 in
              match uploadErr with
              | None => (getFileUrl cfg PHOTO_BUCKET photoPath, st')
              | Some _ => (VNull, st')
              end
          | None => (VNull, st1)
          end in
        let scanUrl :=
          FRONTEND_URL cfg ++ "/scan?id=" ++ encodeURIComponent id in
        let '(encoded, st3) := Store.toBuffer r scanUrl Store.EcH st2 in
        match encoded with
        | Store.Error message => (failure 500 (caught message), st3)
        | Store.Data qrBuffer =>
            let qrPath := "qr_" ++ id ++ ".png" in
            let '(qrUploadErr, st4) :=
              Store.upload r QR_BUCKET qrPath qrBuffer (VStr "image/png")
                st3 in
            match qrUploadErr with
            | Some _ => (failure 500 "Failed to upload QR code", st4)
            | None =>
                let qr_code_url := getFileUrl cfg QR_BUCKET qrPath in
                let st5 :=
                  Store.update r Store.Students
                    [("photo_url", photo_url); ("qr_code_url", qr_code_url)]
                    [Store.Eq "id" (obj_get "id" student)] st4 in
                (json 200
                   (VObj [("ok", VBool true);
                          ("student",
                           VObj (obj_set "scanUrl" (VStr scanUrl)
                                   (obj_set "qr_code_url" qr_code_url
                                      (obj_set "photo_url" photo_url
                                         student))))]),
                 st5)
            end
        end
    end.

(** POST /api/attendance, lines 112-134 *)
Definition post_api_attendance (cfg : config) (r : Store.remote)
    (req : attendance_body) (st : Store.t) : response * Store.t :=
  let lecturer := default_to (lecturer req) (VStr "Unknown") in
  let course := default_to (course req) (VStr "Unknown") in
  if falsy (student_id req) then (failure 400 "Missing student_id", st)
  else if (falsy (ADMIN_PIN cfg) || falsy (admin_pin req)
           || strict_ne (admin_pin req) (ADMIN_PIN cfg))%bool
  then (failure 403 "Forbidden: invalid admin pin", st)
  else
    let '(inserted, st1) :=
      Store.insert r Store.Attendance
        [("student_id", student_id req); ("lecturer", lecturer);
         ("course", course)] st in
    match inserted with
    | Store.Error message => (failure 500 message, st1)
    | Store.Data data =>
        (json 200 (VObj [("ok", VBool true); ("attendance", VObj data)]),
         st1)
    end.

(** GET /api/attendance/mark, lines 139-178 *)
Definition get_api_attendance_mark (cfg : config) (r : Store.remote)
    (req : mark_query) (st : Store.t) : response * Store.t :=
  let student_id := of_env (q_student_id req) in
  let pin := of_env (q_pin req) in
  if falsy student_id then (send 400 "<p>Missing student_id in query</p>", st)
  else if (falsy pin || strict_ne pin (ADMIN_PIN cfg))%bool
  then (send 200 (confirm_form (to_string student_id)), st)
  else
    let '(inserted, st1) :=
      Store.insert r Store.Attendance
        [("student_id", student_id);
         ("lecturer", VStr "external-scanner");
         ("course", VStr "Unknown")] st in
    match inserted with
    | Store.Error _ => (send 500 "Failed to record attendance", st1)
    | Store.Data _ =>
        (send 200 (recorded_page (to_string student_id) (Store.now_locale r)),
         st1)
    end.

(** GET /api/health, line 41 *)
Definition get_api_health : response :=
  json 200 (VObj [("ok", VBool true)]).

(** GET /api/student/:id, lines 100-109 *)
Definition get_api_student (cfg : config) (r : Store.remote) (id : string)
    (st : Store.t) : response * Store.t :=
  let '(found, st1) :=
    Store.select_single r Store.Students "*" [Store.Eq "id" (VStr id)] st in
  match found with
  | Store.Error _ => (failure 404 "Student not found", st1)
  | Store.Data data =>
      (json 200 (VObj [("ok", VBool true); ("student", VObj data)]), st1)
  end.

End IndexJs.

(** ** src/unnamed/part_000 *)

Module Part000.
Import JS Http.

(** Lines 14-24 and 180-183: one check over the four values,
    [createClient], then [app.listen]. *)
Definition startup (createClient : client_library) (e : environment)
  : process :=
  let supabase_url := of_env (env_SUPABASE_URL e) in
  let supabase_key := of_env (env_SUPABASE_KEY e) in
  let frontend_url :=
    strip_trailing_slash
      (to_string (or_else (of_env (env_FRONTEND_URL e)) (VStr ""))) in
  let admin_pin := of_env (env_ADMIN_PIN e) in
  if (falsy supabase_url || falsy supabase_key
      || falsy (VStr frontend_url) || falsy admin_pin)%bool
  then Exited 1
  else
    match createClient (to_string supabase_url) (to_string supabase_key) with
    | Some _ => Exited 1
    | None =>
        Listening {| SUPABASE_URL := to_string supabase_url;
                     SUPABASE_KEY := to_string supabase_key;
                     FRONTEND_URL := frontend_url;
                     ADMIN_PIN := admin_pin |}
    end.

(** POST /api/student, lines 44-101: neither upload result is looked at. *)
Definition post_api_student (cfg : config) (r : Store.remote)
    (req : student_form) (st : Store.t) : response * Store.t :=
  if (falsy (name req) || falsy (username req) || falsy (email req)
      || falsy (matric_number req))%bool
  then (failure 400 "Missing required fields", st)
  else
    let '(inserted, st1) :=
      Store.insert r Store.Students
        [("name", name req); ("username", username req);
         ("email", email req); ("matric_number", matric_number req)] st in
    match inserted with
    | Store.Error message => (failure 500 message, st1)
    | Store.Data student =>
        let id := to_string (obj_get "id" student) in
        let '(photo_url, st2) :=
          match photo req with
          | Some f =>
              let photoPath := "photo_" ++ id ++ ".png" in
              let '(_, st') :=
                Store.upload r PHOTO_BUCKET photoPath
                  (Store.FileBuffer (buffer f)) (VStr (mimetype f)) st1 in
              (getFileUrl cfg PHOTO_BUCKET photoPath, st')
          | None => (VNull, st1)
          end in
        let scanUrl := FRONTEND_URL cfg ++ "/scan?id=" ++ id in
        let '(encoded, st3) := Store.toBuffer r scanUrl Store.EcDefault st2 in
        match encoded with
        | Store.Error _ => (failure 500 "Registration failed", st3)
        | Store.Data qrBuffer =>
            let qrPath := "qr_" ++ id ++ ".png" in
            let '(_, st4) :=
              Store.upload r QR_BUCKET qrPath qrBuffer (VStr "image/png")
                st3 in
            let qr_code_url := getFileUrl cfg QR_BUCKET qrPath in
            let st5 :=
              Store.update r Store.Students
                [("photo_url", photo_url); ("qr_code_url", qr_code_url)]
                [Store.Eq "id" (obj_get "id" student)] st4 in
            (json 200
               (VObj [("ok", VBool true);
                      ("student",
                       VObj (obj_set "qr_code_url" qr_code_url
                               (obj_set "photo_url" photo_url student)))]),
             st5)
        end
    end.

(** POST /api/attendance, lines 119-177: lecturer and course are required,
    the duplicate check is per student, course, lecturer and local day. *)
Definition post_api_attendance (cfg : config) (r : Store.remote)
    (req : attendance_body) (st : Store.t) : response * Store.t :=
  if (falsy (student_id req) || falsy (lecturer req)
      || falsy (course req))%bool
  then (failure 400 "Missing required fields", st)
  else if strict_ne (admin_pin req) (ADMIN_PIN cfg)
  then (failure 403 "Invalid admin PIN", st)
  else
    let '(checked, st1) :=
      Store.select r Store.Attendance "id"
        [Store.Eq "student_id" (student_id req);
         Store.Eq "course" (course req);
         Store.Eq "lecturer" (lecturer req);
         Store.Gte "created_at" (VStr (Store.start_of_day_iso r));
         Store.Lte "created_at" (VStr (Store.end_of_day_iso r))]
        (Some 1%nat) st in
    match checked with
    | Store.Error message => (failure 500 message, st1)
    | Store.Data existing =>
        if (0 <? List.length existing)%nat
        then (failure 200 "Attendance already taken for this course today",
              st1)
        else
          let '(inserted, st2) :=
            Store.insert r Store.Attendance
              [("student_id", student_id req); ("lecturer", lecturer req);
               ("course", course req)] st1 in
          match inserted with
          | Store.Error message => (failure 500 message, st2)
          | Store.Data data =>
              (json 200
                 (VObj [("ok", VBool true); ("attendance", VObj data)]),
               st2)
          end
    end.

(** GET /api/student/:id, lines 105-115 *)
Definition get_api_student (cfg : config) (r : Store.remote) (id : string)
    (st : Store.t) : response * Store.t :=
  let '(found, st1) :=
    Store.select_single r Store.Students "*" [Store.Eq "id" (VStr id)] st in
  match found with
  | Store.Error _ => (failure 404 "Student not found", st1)
  | Store.Data data =>
      (json 200 (VObj [("ok", VBool true); ("student", VObj data)]), st1)
  end.

End Part000.

(** ** src/unnamed/part_001, first document *)

Module Part001.
Import JS Http.

(** Lines 14-28 and 195-196: the text of src/index.js. *)
Definition startup (createClient : client_library) (e : environment)
  : process :=
  let supabase_url := of_env (env_SUPABASE_URL e) in
  let supabase_key := of_env (env_SUPABASE_KEY e) in
  let frontend_url :=
    strip_trailing_slash
      (to_string (or_else (of_env (env_FRONTEND_URL e)) (VStr ""))) in
  let admin_pin := of_env (env_ADMIN_PIN e) in
  if (falsy supabase_url || falsy supabase_key)%bool then Exited 1
  else if falsy (VStr frontend_url) then Exited 1
  else
    match createClient (to_string supabase_url) (to_string supabase_key) with
    | Some _ => Exited 1
    | None =>
        Listening {| SUPABASE_URL := to_string supabase_url;
                     SUPABASE_KEY := to_string supabase_key;
                     FRONTEND_URL := frontend_url;
                     ADMIN_PIN := admin_pin |}
    end.

(** [new Date().toISOString().slice(0, 10)] *)
Definition today (r : Store.remote) : string :=
  substring 0 10 (Store.now_iso r).

(** POST /api/attendance, lines 106-141: once per student and day. *)
Definition post_api_attendance (cfg : config) (r : Store.remote)
    (req : attendance_body) (st : Store.t) : response * Store.t :=
  let lecturer := default_to (lecturer req) (VStr "Unknown") in
  let course := default_to (course req) (VStr "Unknown") in
  if falsy (student_id req) then (failure 400 "Missing student_id", st)
  else if (falsy (ADMIN_PIN cfg) || falsy (admin_pin req)
           || strict_ne (admin_pin req) (ADMIN_PIN cfg))%bool
  then (failure 403 "Forbidden: invalid admin pin", st)
  else
    let '(checked, st1) :=
      Store.select r Store.Attendance "*"
        [Store.Eq "student_id" (student_id req);
         Store.Gte "created_at" (VStr (today r))]
        (Some 1%nat) st in
    match checked with
    | Store.Error message => (failure 500 message, st1)
    | Store.Data existing =>
        if (0 <? List.length existing)%nat
        then (failure 200 "Attendance already taken today", st1)
        else
          let '(inserted, st2) :=
            Store.insert r Store.Attendance
              [("student_id", student_id req); ("lecturer", lecturer);
               ("course", course)] st1 in
          match inserted with
          | Store.Error message => (failure 500 message, st2)
          | Store.Data data =>
              (json 200
                 (VObj [("ok", VBool true); ("attendance", VObj data)]),
               st2)
          end
    end.

(** GET /api/attendance/mark, lines 145-192 *)
Definition get_api_attendance_mark (cfg : config) (r : Store.remote)
    (req : mark_query) (st : Store.t) : response * Store.t :=
  let student_id := of_env (q_student_id req) in
  let pin := of_env (q_pin req) in
  if falsy student_id then (send 400 "<p>Missing student_id in query</p>", st)
  else if (falsy pin || strict_ne pin (ADMIN_PIN cfg))%bool
  then (send 200 (confirm_form (to_string student_id)), st)
  else
    let '(checked, st1) :=
      Store.select r Store.Attendance "*"
        [Store.Eq "student_id" student_id;
         Store.Gte "created_at" (VStr (today r))]
        (Some 1%nat) st in
    match checked with
    | Store.Error _ => (send 500 "Error checking attendance", st1)
    | Store.Data existing =>
        if (0 <? List.length existing)%nat
        then (send 200 "<h2>Attendance already taken today</h2>", st1)
        else
          let '(inserted, st2) :=
            Store.insert r Store.Attendance
              [("student_id", student_id);
               ("lecturer", VStr "external-scanner");
               ("course", VStr "Unknown")] st1 in
          match inserted with
          | Store.Error _ => (send 500 "Failed to record attendance", st2)
          | Store.Data _ =>
              (send 200
                 (recorded_page (to_string student_id) (Store.now_locale r)),
               st2)
          end
    end.

End Part001.

(** ** src/unnamed/part_001, second document (CommonJS) *)

Module Part001Cjs.
Import JS Http.

(** Line 218: [process.env.ADMIN_SECRET || 'myattendancesecret2025'] *)
Definition ADMIN_SECRET (env_ADMIN_SECRET : option string) : value :=
  or_else (of_env env_ADMIN_SECRET) (VStr "myattendancesecret2025").

(** What the middleware and the handler read of a request:
    [req.headers['x-admin-secret']] and three fields of [req.body]. *)
Record request : Type := {
  x_admin_secret : option string;
  admin_secret : value;
  student_id : value;
  scanned_by : value
}.

(** Lines 228-232; [None] is [next()]. *)
Definition requireAdmin (secret_cfg : value) (req : request)
  : option response :=
  let secret :=
    or_else (or_else (of_env (x_admin_secret req)) (admin_secret req))
            (VStr "") in
  if strict_ne secret secret_cfg
  then Some (failure 401 "Unauthorized")
  else None.

Definition today (r : Store.remote) : string :=
  substring 0 10 (Store.now_iso r).

(** [err.message || err] of the catch clause *)
Definition caught (message : string) : value :=
  or_else (VStr message) (VObj [("message", VStr message)]).

(** The handler of POST /api/attendance, lines 286-314 *)
Definition record_attendance (r : Store.remote) (req : request)
    (st : Store.t) : response * Store.t :=
  if falsy (student_id req) then (failure 400 "Missing student_id", st)
  else
    let '(checked, st1) :=
      Store.select r Store.Attendance "id"
        [Store.Eq "student_id" (student_id req);
         Store.Eq "date" (VStr (today r))]
        (Some 1%nat) st in
    let existing :=            (* [data] is null when the query failed *)
      match checked with
      | Store.Data rows => Some rows
      | Store.Error _ => None
      end in
    if match existing with
       | Some rows => negb (Nat.eqb (List.length rows) 0)
       | None => false
       end
    then (json 200 (VObj [("ok", VBool true);
                          ("message", VStr "Already recorded")]), st1)
    else
      let '(inserted, st2) :=
        Store.insert r Store.Attendance
          [("student_id", student_id req); ("date", VStr (today r));
           ("status", VStr "Present"); ("scanned_by", scanned_by req)]
          st1 in
      match inserted with
      | Store.Error message =>
          (json 500 (VObj [("ok", VBool false); ("error", caught message)]),
           st2)
      | Store.Data data =>
          (json 200 (VObj [("ok", VBool true); ("data", VObj data)]), st2)
      end.

(** [app.post('/api/attendance', requireAdmin, handler)] *)
Definition post_api_attendance (secret_cfg : value) (r : Store.remote)
    (req : request) (st : Store.t) : response * Store.t :=
  match requireAdmin secret_cfg req with
  | Some res => (res, st)
  | None => record_attendance r req st
  end.

(** [uploadToStorage(bucket, path, buffer, contentType)], lines 221-226:
    [Error] is the thrown upload error, [Data] the public URL. *)
Definition uploadToStorage (supabase_url : string) (r : Store.remote)
    (bucket path : string) (content : Store.blob) (contentType : string)
    (st : Store.t) : Store.result string * Store.t :=
  let '(error, st1) :=
    Store.upload r bucket path content (VStr contentType) st in
  match error with
  | Some message => (Store.Error message, st1)
  | None => (Store.Data (Store.getPublicUrl supabase_url bucket path), st1)
  end.

(** [(file.mimetype.split('/')[1] || 'jpg').split('+')[0]], line 259 *)
Definition photo_ext (mimetype : string) : string :=
  let subtype :=
    match nth_error (split "/" mimetype) 1 with
    | Some s => if (s =? "")%string then "jpg" else s
    | None => "jpg"
    end in
  hd "" (split "+" subtype).

(** [req.body] and [req.files.photo] of POST /api/create-student; the
    file's [buffer] is express-fileupload's [data]. *)
Record create_form : Type := {
  name : value;
  username : value;
  matric_number : value;
  email : value;
  photo : option file
}.

(** [fetch(url)] then [arrayBuffer()]; [Error] is a rejected promise. *)
Definition fetch (r : Store.remote) (url : string) (st : Store.t)
  : Store.result string * Store.t :=
  let c := Store.Fetch url in
  match Store.error_of r c with
  | Some message => (Store.Error message, Store.log c st)
  | None => (Store.Data (Store.fetched r), Store.log c st)
  end.

(** The catch clause, lines 279-282 *)
Definition thrown (message : string) : response :=
  json 500 (VObj [("ok", VBool false); ("error", caught message)]).

(** POST /api/create-student, lines 240-283 *)
Definition create_student (supabase_url : string) (r : Store.remote)
    (req : create_form) (st : Store.t) : response * Store.t :=
  if (falsy (name req) || falsy (username req)
      || falsy (matric_number req) || falsy (email req))%bool
  then (failure 400 "Missing fields", st)
  else
    let '(inserted, st1) :=
      Store.insert r Store.Students
        [("name", name req); ("username", username req);
         ("matric_number", matric_number req); ("email", email req)] st in
    match inserted with
    | Store.Error message => (thrown message, st1)
    | Store.Data created =>
        let studentId := obj_get "id" created in
        (* steps 3 to 5, reached with the photo URL *)
        let generate_qr (photoUrl : value) (st2 : Store.t) :=
          let qrPayload := "attendance://" ++ to_string studentId in
          let qrApiUrl :=
            "https://api.qrserver.com/v1/create-qr-code/?size=400x400&data="
            ++ encodeURIComponent qrPayload in
          let '(qrResp, st3) := fetch r qrApiUrl st2 in
          match qrResp with
          | Store.Error message => (thrown message, st3)
          | Store.Data qrBuffer =>
              let qrPath := "qr-codes/" ++ to_string studentId ++ ".png" in
              let '(uploaded, st4) :=
                uploadToStorage supabase_url r "qr-codes" qrPath
                  (Store.FileBuffer qrBuffer) "image/png" st3 in
              match uploaded with
              | Store.Error message => (thrown message, st4)
              | Store.Data qrUrl =>
                  let st5 :=
                    Store.update r Store.Students
                      [("qr_code_url", VStr qrUrl)]
                      [Store.Eq "id" studentId] st4 in
                  (json 200
                     (VObj [("ok", VBool true);
                            ("student",
                             VObj (obj_set "qr_code_url" (VStr qrUrl)
                                     (obj_set "photo_url" photoUrl
                                        created)))]),
                   st5)
              end
          end in
        match photo req with
        | Some f =>
            let ext := photo_ext (mimetype f) in
            let photoPath :=
              "student-photos/" ++ to_string studentId ++ "." ++ ext in
            let '(uploaded, st') :=
              uploadToStorage supabase_url r "student-photos" photoPath
                (Store.FileBuffer (buffer f)) (mimetype f) st1 in
            match uploaded with
            | Store.Error message => (thrown message, st')
            | Store.Data photoUrl =>
                generate_qr (VStr photoUrl)
                  (Store.update r Store.Students
                     [("photo_url", VStr photoUrl)]
                     [Store.Eq "id" studentId] st')
            end
        | None => generate_qr VNull st1
        end
    end.

(** The catch-all of lines 318-320 *)
Definition not_found : response := failure 404 "Route not found".

End Part001Cjs.

(** ** src/unnamed/part_002 *)

Module Part002.
Import JS Http.

(** Lines 15-23 and 135-136: only the store's URL and key are read and
    checked, then [createClient] and [app.listen]; the file has no
    FRONTEND_URL and no ADMIN_PIN. *)
Definition startup (createClient : client_library) (e : environment)
  : process :=
  let supabase_url := of_env (env_SUPABASE_URL e) in
  let supabase_key := of_env (env_SUPABASE_KEY e) in
  if (falsy supabase_url || falsy supabase_key)%bool then Exited 1
  else
    match createClient (to_string supabase_url) (to_string supabase_key) with
    | Some _ => Exited 1
    | None =>
        Listening {| SUPABASE_URL := to_string supabase_url;
                     SUPABASE_KEY := to_string supabase_key;
                     FRONTEND_URL := "";
                     ADMIN_PIN := VUndef |}
    end.

(** POST /api/student, lines 41-92: the QR code holds
    [JSON.stringify({ id: student.id })]; the result of its upload is not
    looked at. *)
Definition post_api_student (cfg : config) (r : Store.remote)
    (req : student_form) (st : Store.t) : response * Store.t :=
  if (falsy (name req) || falsy (username req) || falsy (email req)
      || falsy (matric_number req))%bool
  then (failure 400
          "Missing required fields: name, username, email, matric_number",
        st)
  else
    let '(inserted, st1) :=
      Store.insert r Store.Students
        [("name", name req); ("username", username req);
         ("email", email req); ("matric_number", matric_number req)] st in
    match inserted with
    | Store.Error message => (failure 500 message, st1)
    | Store.Data student =>
        let id := to_string (obj_get "id" student) in
        let '(photo_url, st2) :=
          match photo req with
          | Some f =>
              let photoPath := "photo_" ++ id ++ ".png" in
              let '(uploadErr, st') :=
                Store.upload r PHOTO_BUCKET photoPath
                  (Store.FileBuffer (buffer f)) (VStr (mimetype f)) st1 in
              match uploadErr with
              | None => (getFileUrl cfg PHOTO_BUCKET photoPath, st')
              | Some _ => (VNull, st')
              end
          | None => (VNull, st1)
          end in
        let qrPayload := stringify (VObj [("id", obj_get "id" student)]) in
        let '(encoded, st3) :=
          Store.toBuffer r qrPayload Store.EcDefault st2 in
        match encoded with
        | Store.Error message => (failure 500 message, st3)
        | Store.Data qrBuffer =>
            let qrPath := "qr_" ++ id ++ ".png" in
            let '(_, st4) :=
              Store.upload r QR_BUCKET qrPath qrBuffer (VStr "image/png")
                st3 in
            let qr_code_url := getFileUrl cfg QR_BUCKET qrPath in
            let st5 :=
              Store.update r Store.Students
                [("photo_url", photo_url); ("qr_code_url", qr_code_url)]
                [Store.Eq "id" (obj_get "id" student)] st4 in
            (json 200
               (VObj [("ok", VBool true);
                      ("student",
                       VObj (obj_set "qr_code_url" qr_code_url
                               (obj_set "photo_url" photo_url student)))]),
             st5)
        end
    end.

(** POST /api/attendance, lines 117-132: no credential is read. *)
Definition post_api_attendance (r : Store.remote) (req : attendance_body)
    (st : Store.t) : response * Store.t :=
  let lecturer := default_to (lecturer req) (VStr "Unknown") in
  let course := default_to (course req) (VStr "Unknown") in
  if falsy (student_id req) then (failure 400 "Missing student_id", st)
  else
    let '(inserted, st1) :=
      Store.insert r Store.Attendance
        [("student_id", student_id req); ("lecturer", lecturer);
         ("course", course)] st in
    match inserted with
    | Store.Error message => (failure 500 message, st1)
    | Store.Data data =>
        (json 200 (VObj [("ok", VBool true); ("attendance", VObj data)]),
         st1)
    end.

(** GET /api/student, lines 95-103: the whole table. *)
Definition get_api_students (cfg : config) (r : Store.remote) (st : Store.t)
  : response * Store.t :=
  let '(listed, st1) := Store.select r Store.Students "*" [] None st in
  match listed with
  | Store.Error message => (failure 500 message, st1)
  | Store.Data data =>
      (json 200 (VObj [("ok", VBool true);
                       ("students", VArr (map VObj data))]), st1)
  end.

(** GET /api/student/:id, lines 106-114 *)
Definition get_api_student (cfg : config) (r : Store.remote) (id : string)
    (st : Store.t) : response * Store.t :=
  let '(found, st1) :=
    Store.select_single r Store.Students "*" [Store.Eq "id" (VStr id)] st in
  match found with
  | Store.Error _ => (failure 404 "Student not found", st1)
  | Store.Data data =>
      (json 200 (VObj [("ok", VBool true); ("student", VObj data)]), st1)
  end.

End Part002.

(** ** Vocabulary of the statements *)

Module Props.
Import JS Http.

Definition is_photo_upload (c : Store.call) : bool :=
  match c with
  | Store.StorageUpload bucket _ _ _ => (bucket =? PHOTO_BUCKET)%string
  | _ => false
  end.

Definition is_qr_upload (c : Store.call) : bool :=
  match c with
  | Store.StorageUpload bucket _ _ _ => (bucket =? QR_BUCKET)%string
  | _ => false
  end.

Definition is_student_insert (c : Store.call) : bool :=
  match c with
  | Store.TableInsert Store.Students _ => true
  | _ => false
  end.

(** The credential a request of the CommonJS revision supplies:
    [req.headers['x-admin-secret'] || req.body.admin_secret || ''] *)
Definition supplied_secret (req : Part001Cjs.request) : value :=
  or_else (or_else (of_env (Part001Cjs.x_admin_secret req))
                   (Part001Cjs.admin_secret req))
          (VStr "").

Definition with_pin (pin : value) (req : attendance_body) : attendance_body :=
  {| student_id := student_id req; lecturer := lecturer req;
     course := course req; admin_pin := pin |}.

(** [accepts pin supplied]: the request passes the credential test
    [!ADMIN_PIN || !admin_pin || admin_pin !== ADMIN_PIN] of src/index.js
    and part_001. *)
Definition accepts (pin supplied : value) : bool :=
  negb (falsy pin || falsy supplied || strict_ne supplied pin).

Definition with_lecturer (v : value) (req : attendance_body)
  : attendance_body :=
  {| student_id := student_id req; lecturer := v;
     course := course req; admin_pin := admin_pin req |}.

Definition with_course (v : value) (req : attendance_body)
  : attendance_body :=
  {| student_id := student_id req; lecturer := lecturer req;
     course := v; admin_pin := admin_pin req |}.

(** The row a check-in without lecturer and course leaves in the table. *)
Definition unknown_row (r : Store.remote) (sid : value) : Store.row :=
  Store.new_row r Store.Attendance
    [("student_id", sid); ("lecturer", VStr "Unknown");
     ("course", VStr "Unknown")].

(** The query of part_001's check, as the handler builds it. *)
Definition today_check (r : Store.remote) (sid : value) : Store.call :=
  Store.TableSelect Store.Attendance "*"
    [Store.Eq "student_id" sid;
     Store.Gte "created_at" (VStr (Part001.today r))] (Some 1%nat).

(** [row] records student [sid] on the UTC day the server clock shows. *)
Definition recorded_on_today (r : Store.remote) (sid : value)
    (rw : Store.row) : Prop :=
  obj_get "student_id" rw = sid
  /\ exists ts, obj_get "created_at" rw = VStr ts
                /\ substring 0 10 ts = Part001.today r.

(** The check of the CommonJS revision: a row of the student whose [date]
    column is today's date. *)
Definition date_check (r : Store.remote) (sid : value) : Store.call :=
  Store.TableSelect Store.Attendance "id"
    [Store.Eq "student_id" sid;
     Store.Eq "date" (VStr (Part001Cjs.today r))] (Some 1%nat).

(** The POST body that carries what the scanner endpoint stores. *)
Definition as_post (sid pin : string) : attendance_body :=
  {| student_id := VStr sid; lecturer := VStr "external-scanner";
     course := VStr "Unknown"; admin_pin := VStr pin |}.

Definition scanner_row (r : Store.remote) (sid : string) : Store.row :=
  Store.new_row r Store.Attendance
    [("student_id", VStr sid); ("lecturer", VStr "external-scanner");
     ("course", VStr "Unknown")].

Definition is_page (res : response) : Prop :=
  exists html, body res = Send html.

Definition is_qr_encode (c : Store.call) : bool :=
  match c with
  | Store.QRCodeToBuffer _ _ => true
  | _ => false
  end.

(** The services answer every call picked by [p] without error. *)
Definition answers (r : Store.remote) (p : Store.call -> bool) : Prop :=
  forall c, p c = true -> Store.error_of r c = None.

(** The services answer every call picked by [p] with an error. *)
Definition refuses (r : Store.remote) (p : Store.call -> bool) : Prop :=
  forall c, p c = true -> exists message, Store.error_of r c = Some message.

(** The four required fields of a registration are all there (and not
    empty): the test [!name || !username || !email || !matric_number]
    is false. *)
Definition complete (req : student_form) : bool :=
  (truthy (name req) && truthy (username req) && truthy (email req)
   && truthy (matric_number req))%bool.

(** [student] of a JSON answer *)
Definition student_of (res : response) : value :=
  match body res with
  | Json v => get "student" v
  | Send _ => VUndef
  end.

(** The texts handed to the QR encoder, in order. *)
Fixpoint encoded (cs : list Store.call) : list string :=
  match cs with
  | [] => []
  | Store.QRCodeToBuffer text _ :: cs' => text :: encoded cs'
  | _ :: cs' => encoded cs'
  end.

(** What was sent to the QR bucket, in order. *)
Fixpoint qr_uploads (cs : list Store.call) : list Store.blob :=
  match cs with
  | [] => []
  | Store.StorageUpload bucket _ content _ :: cs' =>
      if (bucket =? QR_BUCKET)%string then content :: qr_uploads cs'
      else qr_uploads cs'
  | _ :: cs' => qr_uploads cs'
  end.

(** A configuration value that is not set, or set to the empty text. *)
Definition absent (o : option string) : Prop :=
  o = None \/ o = Some "".

(** FRONTEND_URL is also lost when it is a lone slash, which the constant's
    initialiser strips. *)
Definition frontend_absent (o : option string) : Prop :=
  absent o \/ o = Some "/".

(** The services answer every call of the request. *)
Definition all_answer (r : Store.remote) : Prop :=
  forall c, Store.error_of r c = None.

(** [rw] stops a check-in of student [sid] in part_001: it is a row of the
    student whose [created_at] is not before today's date. *)
Definition blocks (r : Store.remote) (sid : value) (rw : Store.row) : Prop :=
  obj_get "student_id" rw = sid
  /\ exists ts, obj_get "created_at" rw = VStr ts
                /\ (Part001.today r <=? ts)%string = true.

(** The fields a check-in of src/index.js, part_001 and part_002 inserts. *)
Definition check_in_fields (req : attendance_body) : Store.row :=
  [("student_id", student_id req);
   ("lecturer", default_to (lecturer req) (VStr "Unknown"));
   ("course", default_to (course req) (VStr "Unknown"))].

(** The existence query of part_000. *)
Definition course_check (r : Store.remote) (req : attendance_body)
  : Store.call :=
  Store.TableSelect Store.Attendance "id"
    [Store.Eq "student_id" (student_id req);
     Store.Eq "course" (course req);
     Store.Eq "lecturer" (lecturer req);
     Store.Gte "created_at" (VStr (Store.start_of_day_iso r));
     Store.Lte "created_at" (VStr (Store.end_of_day_iso r))] (Some 1%nat).

(** [rw] stops a check-in in part_000: same student, course and lecturer,
    created between the start and the end of the local day. *)
Definition blocks_course (r : Store.remote) (req : attendance_body)
    (rw : Store.row) : Prop :=
  obj_get "student_id" rw = student_id req
  /\ obj_get "course" rw = course req
  /\ obj_get "lecturer" rw = lecturer req
  /\ exists ts, obj_get "created_at" rw = VStr ts
                /\ (Store.start_of_day_iso r <=? ts)%string = true
                /\ (ts <=? Store.end_of_day_iso r)%string = true.

(** A handler's effect on the store keeps every table and bucket and adds
    at most one attendance row at the end. *)
Definition appends_at_most_one (st st' : Store.t) : Prop :=
  Store.students st' = Store.students st
  /\ Store.objects st' = Store.objects st
  /\ exists added, Store.attendance st' = (Store.attendance st ++ added)%list
                   /\ (List.length added <= 1)%nat.

(** The fields a check-in of the CommonJS revision inserts. *)
Definition present_fields (r : Store.remote) (req : Part001Cjs.request)
  : Store.row :=
  [("student_id", Part001Cjs.student_id req);
   ("date", VStr (Part001Cjs.today r));
   ("status", VStr "Present");
   ("scanned_by", Part001Cjs.scanned_by req)].

(** [rw] is a row of student [sid] dated today (CommonJS revision). *)
Definition recorded_date (r : Store.remote) (sid : value) (rw : Store.row)
  : Prop :=
  obj_get "student_id" rw = sid
  /\ obj_get "date" rw = VStr (Part001Cjs.today r).

(** The fields POST /api/student inserts. *)
Definition student_fields (req : student_form) : Store.row :=
  [("name", name req); ("username", username req);
   ("email", email req); ("matric_number", matric_number req)].

(** The fields POST /api/create-student inserts. *)
Definition create_fields (req : Part001Cjs.create_form) : Store.row :=
  [("name", Part001Cjs.name req); ("username", Part001Cjs.username req);
   ("matric_number", Part001Cjs.matric_number req);
   ("email", Part001Cjs.email req)].

Definition is_update (c : Store.call) : bool :=
  match c with
  | Store.TableUpdate _ _ _ => true
  | _ => false
  end.

Definition is_fetch (c : Store.call) : bool :=
  match c with
  | Store.Fetch _ => true
  | _ => false
  end.

Definition is_upload (c : Store.call) : bool :=
  match c with
  | Store.StorageUpload _ _ _ _ => true
  | _ => false
  end.

(** The value of a hexadecimal digit. *)
Definition hex_value (c : ascii) : option nat :=
  let n := nat_of_ascii c in
  if in_range 48 57 c then Some (n - 48)%nat
  else if in_range 65 70 c then Some (n - 55)%nat
  else if in_range 97 102 c then Some (n - 87)%nat
  else None.

(** Percent-decoding, byte by byte: what a reader of the scan URL applies
    to the [id] parameter.  A percent sign that is not followed by two
    hexadecimal digits is kept. *)
Fixpoint percent_decode (s : string) : string :=
  match s with
  | EmptyString => EmptyString
  | String c rest =>
      match rest with
      | String h (String l rest') =>
          if Ascii.eqb c "%" then
            match hex_value h, hex_value l with
            | Some x, Some y =>
                String (ascii_of_nat (16 * x + y)) (percent_decode rest')
            | _, _ => String c (percent_decode rest)
            end
          else String c (percent_decode rest)
      | _ => String c (percent_decode rest)
      end
  end.

(** Reading a JSON string literal after its opening quote: the text up to
    the closing quote with the escapes undone, and what follows the
    literal.  It is what a reader of part_002's QR payload applies to the
    [id] field. *)
Definition read_more (c : ascii) (r : option (string * string))
  : option (string * string) :=
  match r with
  | Some (text, rest) => Some (String c text, rest)
  | None => None
  end.

Definition simple_escape (c : ascii) : option ascii :=
  if Ascii.eqb c "034" then Some "034"%char
  else if Ascii.eqb c "\" then Some "\"%char
  else if Ascii.eqb c "/" then Some "/"%char
  else if Ascii.eqb c "b" then Some "008"%char
  else if Ascii.eqb c "f" then Some "012"%char
  else if Ascii.eqb c "n" then Some "010"%char
  else if Ascii.eqb c "r" then Some "013"%char
  else if Ascii.eqb c "t" then Some "009"%char
  else None.

Definition unicode_escape (a b h l : ascii) : option ascii :=
  match hex_value a, hex_value b, hex_value h, hex_value l with
  | Some 0%nat, Some 0%nat, Some x, Some y =>
      Some (ascii_of_nat (16 * x + y))
  | _, _, _, _ => None
  end.

Fixpoint json_read (s : string) : option (string * string) :=
  match s with
  | EmptyString => None
  | String c rest =>
      if Ascii.eqb c "034" then Some (EmptyString, rest)
      else if Ascii.eqb c "\" then
        match rest with
        | String x rest' =>
            if Ascii.eqb x "u" then
              match rest' with
              | String a (String b (String h (String l rest''))) =>
                  match unicode_escape a b h l with
                  | Some ch => read_more ch (json_read rest'')
                  | None => None
                  end
              | _ => None
              end
            else
              match simple_escape x with
              | Some ch => read_more ch (json_read rest')
              | None => None
              end
        | EmptyString => None
        end
      else read_more c (json_read rest)
  end.

(** The characters an encoded URI component is made of: letters, digits,
    the marks [encodeURIComponent] leaves alone and the percent sign. *)
Definition component_characters : list ascii :=
  list_ascii_of_string
    "ABCDEFGHIJKLMNOPQRSTUVWXYZabcdefghijklmnopqrstuvwxyz0123456789-_.!~*'()%".

(** The double quote character, as a text. *)
Definition quote_mark : string := String "034"%char EmptyString.

(** The client library throws on the store URL and key the environment
    sets. *)
Definition library_rejects (createClient : client_library)
    (e : environment) : Prop :=
  exists url key,
    env_SUPABASE_URL e = Some url /\ env_SUPABASE_KEY e = Some key
    /\ createClient url key <> None.

End Props.

(** ** Sample data *)

Module Sample.
Import JS Http.

Definition cfg : config :=
  {| SUPABASE_URL := "https://db.example.org";
     SUPABASE_KEY := "service-key";
     FRONTEND_URL := "https://app.example.org";
     ADMIN_PIN := VStr "4711" |}.

Definition env : environment :=
  {| env_SUPABASE_URL := Some "https://db.example.org";
     env_SUPABASE_KEY := Some "service-key";
     env_FRONTEND_URL := Some "https://app.example.org/";
     env_ADMIN_PIN := Some "4711" |}.

(** The same environment without ADMIN_PIN. *)
Definition env_no_pin : environment :=
  {| env_SUPABASE_URL := Some "https://db.example.org";
     env_SUPABASE_KEY := Some "service-key";
     env_FRONTEND_URL := Some "https://app.example.org/";
     env_ADMIN_PIN := None |}.

(** Services that answer every call. *)
Definition remote : Store.remote :=
  {| Store.error_of := fun _ => None;
     Store.new_id := "7f3a";
     Store.db_now := "2025-03-04T09:15:00.000Z";
     Store.now_iso := "2025-03-04T09:15:00.000Z";
     Store.start_of_day_iso := "2025-03-04T00:00:00.000Z";
     Store.end_of_day_iso := "2025-03-04T23:59:59.999Z";
     Store.now_locale := "3/4/2025, 9:15:00 AM";
     Store.fetched := "" |}.

(** Services on which the calls picked by [p] fail with [message]. *)
Definition failing (p : Store.call -> bool) (message : string)
  : Store.remote :=
  {| Store.error_of := fun c => if p c then Some message else None;
     Store.new_id := "7f3a";
     Store.db_now := "2025-03-04T09:15:00.000Z";
     Store.now_iso := "2025-03-04T09:15:00.000Z";
     Store.start_of_day_iso := "2025-03-04T00:00:00.000Z";
     Store.end_of_day_iso := "2025-03-04T23:59:59.999Z";
     Store.now_locale := "3/4/2025, 9:15:00 AM";
     Store.fetched := "" |}.

(** The student of the spec's example. *)
Definition amy : student_form :=
  {| name := VStr "Amy Lin"; username := VStr "amyl";
     email := VStr "a@x.edu"; matric_number := VStr "M123";
     photo := None |}.

Definition amy_with_photo : student_form :=
  {| name := VStr "Amy Lin"; username := VStr "amyl";
     email := VStr "a@x.edu"; matric_number := VStr "M123";
     photo := Some {| buffer := "PNG"; mimetype := "image/png" |} |}.

(** An attendance table in which student s-1 was recorded earlier on
    2025-03-04. *)
Definition recorded_today : Store.t :=
  {| Store.students := [];
     Store.attendance :=
       [[("id", VStr "a-1"); ("student_id", VStr "s-1");
         ("lecturer", VStr "Dr. Okoro"); ("course", VStr "CS101");
         ("created_at", VStr "2025-03-04T08:00:00.000Z")]];
     Store.objects := [];
     Store.calls := [] |}.

Definition check_in (pin : value) : attendance_body :=
  {| student_id := VStr "s-1"; lecturer := VStr "Dr. Okoro";
     course := VStr "CS101"; admin_pin := pin |}.

(** A client library that takes an https address and throws on anything
    else. *)
Definition createClient : client_library :=
  fun url _ =>
    if prefix "https://" url then None
    else Some "Invalid supabaseUrl: Must be a valid HTTP or HTTPS URL.".

(** Services that answer every call and give the new row the identifier
    [id]. *)
Definition remote_with_id (id : string) : Store.remote :=
  {| Store.error_of := fun _ => None;
     Store.new_id := id;
     Store.db_now := "2025-03-04T09:15:00.000Z";
     Store.now_iso := "2025-03-04T09:15:00.000Z";
     Store.start_of_day_iso := "2025-03-04T00:00:00.000Z";
     Store.end_of_day_iso := "2025-03-04T23:59:59.999Z";
     Store.now_locale := "3/4/2025, 9:15:00 AM";
     Store.fetched := "" |}.

End Sample.

(** ** Properties *)

Module Facts.
Import JS Http.

(** *** Values and strings *)

Lemma value_eqb_refl : forall v : value, value_eqb v v = true.
Proof.
  fix IH 1.
  intros [ | | b | n | s | items | fields]; simpl.
  - reflexivity.
  - reflexivity.
  - apply Bool.eqb_reflx.
  - apply Z.eqb_refl.
  - apply String.eqb_refl.
  - induction items as [ | x xs IHxs]; [reflexivity | ].
    rewrite (IH x), IHxs. reflexivity.
  - induction fields as [ | [k x] xs IHxs]; [reflexivity | ].
    rewrite String.eqb_refl, (IH x), IHxs. reflexivity.
Qed.

Lemma ascii_compare_refl (c : ascii) : Ascii.compare c c = Eq.
Proof. unfold Ascii.compare. apply N.compare_refl. Qed.

(** A prefix of a text sorts before the text: a timestamp is never earlier
    than the date it starts with. *)
Lemma substring_leb (n : nat) (s : string) :
  (substring 0 n s <=? s)%string = true.
Proof.
  unfold String.leb.
  revert n; induction s as [ | c s IHs]; intros [ | n]; simpl; try reflexivity.
  rewrite ascii_compare_refl. apply IHs.
Qed.

Lemma strip_trailing_slash_empty (s : string) :
  strip_trailing_slash s = "" <-> s = "" \/ s = "/".
Proof.
  split.
  - destruct s as [ | c [ | c' s']]; simpl; intros H.
    + now left.
    + destruct (Ascii.eqb_spec c "/"); [subst; now right | discriminate].
    + discriminate.
  - intros [-> | ->]; reflexivity.
Qed.

(** *** The call log *)

Lemma made_app (st : Store.t) (cs : list Store.call) (st' : Store.t) :
  Store.calls st' = (Store.calls st ++ cs)%list -> Store.made st st' = cs.
Proof.
  unfold Store.made. intros ->.
  rewrite skipn_app, skipn_all, Nat.sub_diag. reflexivity.
Qed.

Lemma truthy_falsy (v : value) : truthy v = true -> falsy v = false.
Proof. unfold falsy. now intros ->. Qed.

Lemma falsy_truthy (v : value) : truthy v = false -> falsy v = true.
Proof. unfold falsy. now intros ->. Qed.

End Facts.

(** ** POST /api/attendance: validation and the admin credential *)

Module Attendance.
Import JS Http Props Facts.

Lemma index_startup_config (createClient : client_library)
    (e : environment) (cfg : config) :
  IndexJs.startup createClient e = Listening cfg ->
  ADMIN_PIN cfg = of_env (env_ADMIN_PIN e).
Proof.
  unfold IndexJs.startup.
  destruct (falsy (of_env (env_SUPABASE_URL e))
            || falsy (of_env (env_SUPABASE_KEY e)))%bool; [discriminate | ].
  destruct (falsy _); [discriminate | ].
  destruct (createClient _ _); [discriminate | ].
  intros [= <-]. reflexivity.
Qed.

Lemma part001_startup_config (createClient : client_library)
    (e : environment) (cfg : config) :
  Part001.startup createClient e = Listening cfg ->
  ADMIN_PIN cfg = of_env (env_ADMIN_PIN e).
Proof. exact (index_startup_config createClient e cfg). Qed.

(** The credential test of src/index.js and part_001 lets a request through
    only when the supplied value is identical to ADMIN_PIN. *)
Lemma pin_gate (pin supplied : value) :
  strict_eq supplied pin = false ->
  (falsy pin || falsy supplied || strict_ne supplied pin)%bool = true.
Proof.
  unfold strict_ne. intros ->. simpl. apply Bool.orb_true_r.
Qed.

(** C10. POST /api/attendance tests [student_id] before the admin pin: a
    request without a student identifier is answered 400 "Missing
    student_id" whatever credential it carries and whatever ADMIN_PIN is,
    and reaches nothing behind the check (src/index.js and part_001). *)
Theorem missing_student_id_comes_first
    (cfg : config) (r : Store.remote) (req : attendance_body) (st : Store.t) :
  truthy (student_id req) = false ->
  IndexJs.post_api_attendance cfg r req st
    = (failure 400 "Missing student_id", st)
  /\ Part001.post_api_attendance cfg r req st
    = (failure 400 "Missing student_id", st).
Proof.
  intros H. apply falsy_truthy in H.
  unfold IndexJs.post_api_attendance, Part001.post_api_attendance.
  rewrite H. split; reflexivity.
Qed.

Lemma missing_student_id_comes_first_witness :
  let req pin := {| student_id := VUndef; lecturer := VStr "Dr. Okoro";
                    course := VStr "CS101"; admin_pin := pin |} in
  (IndexJs.post_api_attendance Sample.cfg Sample.remote (req (VStr "4711"))
     Store.empty = (failure 400 "Missing student_id", Store.empty)
   /\ Part001.post_api_attendance Sample.cfg Sample.remote (req (VStr "4711"))
     Store.empty = (failure 400 "Missing student_id", Store.empty))
  /\ (IndexJs.post_api_attendance Sample.cfg Sample.remote (req (VStr "0000"))
     Store.empty = (failure 400 "Missing student_id", Store.empty)
   /\ Part001.post_api_attendance Sample.cfg Sample.remote (req VUndef)
     Store.empty = (failure 400 "Missing student_id", Store.empty)).
Proof.
  intros req. split.
  - apply (missing_student_id_comes_first Sample.cfg Sample.remote
             (req (VStr "4711")) Store.empty).
    reflexivity.
  - split.
    + apply (missing_student_id_comes_first Sample.cfg Sample.remote
               (req (VStr "0000")) Store.empty).
      reflexivity.
    + apply (missing_student_id_comes_first Sample.cfg Sample.remote
               (req VUndef) Store.empty).
      reflexivity.
Defined.

(** C9. When ADMIN_PIN is not set, the server of src/index.js (and of
    part_001) still starts, and every POST /api/attendance that carries a
    student identifier is answered 403 and leaves the store untouched: no
    supplied pin is accepted. *)
Theorem absent_pin_fails_closed
    (createClient : client_library)
    (e : environment) (cfg : config) (r : Store.remote)
    (req : attendance_body) (st : Store.t) :
  env_ADMIN_PIN e = None ->
  truthy (student_id req) = true ->
  (IndexJs.startup createClient e = Listening cfg ->
   IndexJs.post_api_attendance cfg r req st
     = (failure 403 "Forbidden: invalid admin pin", st))
  /\ (Part001.startup createClient e = Listening cfg ->
      Part001.post_api_attendance cfg r req st
        = (failure 403 "Forbidden: invalid admin pin", st)).
Proof.
  intros Hpin Hid. apply truthy_falsy in Hid.
  split; intros Hstart.
  - apply index_startup_config in Hstart. rewrite Hpin in Hstart.
    unfold IndexJs.post_api_attendance. rewrite Hid, Hstart. reflexivity.
  - apply part001_startup_config in Hstart. rewrite Hpin in Hstart.
    unfold Part001.post_api_attendance. rewrite Hid, Hstart. reflexivity.
Qed.

Lemma absent_pin_fails_closed_witness :
  let cfg := {| SUPABASE_URL := "https://db.example.org";
                SUPABASE_KEY := "service-key";
                FRONTEND_URL := "https://app.example.org";
                ADMIN_PIN := VUndef |} in
  IndexJs.startup Sample.createClient Sample.env_no_pin = Listening cfg
  /\ IndexJs.post_api_attendance cfg Sample.remote
       (Sample.check_in (VStr "4711")) Store.empty
     = (failure 403 "Forbidden: invalid admin pin", Store.empty)
  /\ Part001.post_api_attendance cfg Sample.remote
       (Sample.check_in VUndef) Store.empty
     = (failure 403 "Forbidden: invalid admin pin", Store.empty).
Proof.
  intros cfg. split; [reflexivity | split].
  - apply (absent_pin_fails_closed Sample.createClient Sample.env_no_pin cfg
             Sample.remote (Sample.check_in (VStr "4711")) Store.empty);
      reflexivity.
  - apply (absent_pin_fails_closed Sample.createClient Sample.env_no_pin cfg
             Sample.remote (Sample.check_in VUndef) Store.empty);
      reflexivity.
Defined.

(** C2, as the code has it.  In src/index.js and part_001 a request that
    carries a student identifier and a credential that is not identical to
    ADMIN_PIN is answered 403 and the store is untouched.  In the CommonJS
    revision the middleware answers 401 "Unauthorized" instead, before the
    handler runs.  part_002 reads no credential: what it answers and
    stores does not depend on [admin_pin]. *)
Theorem wrong_credential_refused :
  (forall cfg r req st,
      truthy (student_id req) = true ->
      strict_eq (admin_pin req) (ADMIN_PIN cfg) = false ->
      IndexJs.post_api_attendance cfg r req st
        = (failure 403 "Forbidden: invalid admin pin", st)
      /\ Part001.post_api_attendance cfg r req st
        = (failure 403 "Forbidden: invalid admin pin", st))
  /\ (forall secret r req st,
         strict_eq (supplied_secret req) secret = false ->
         Part001Cjs.post_api_attendance secret r req st
           = (failure 401 "Unauthorized", st))
  /\ (forall r req st pin,
         Part002.post_api_attendance r (with_pin pin req) st
           = Part002.post_api_attendance r req st).
Proof.
  split; [ | split].
  - intros cfg r req st Hid Hpin.
    apply truthy_falsy in Hid. apply pin_gate in Hpin.
    unfold IndexJs.post_api_attendance, Part001.post_api_attendance.
    rewrite Hid, Hpin. split; reflexivity.
  - intros secret r req st Hne.
    unfold Part001Cjs.post_api_attendance, Part001Cjs.requireAdmin.
    fold (supplied_secret req). unfold strict_ne. rewrite Hne. reflexivity.
  - intros r req st pin. reflexivity.
Qed.

Lemma wrong_credential_refused_witness :
  (IndexJs.post_api_attendance Sample.cfg Sample.remote
     (Sample.check_in (VStr "0000")) Store.empty
   = (failure 403 "Forbidden: invalid admin pin", Store.empty)
   /\ Part001.post_api_attendance Sample.cfg Sample.remote
        (Sample.check_in (VStr "0000")) Store.empty
      = (failure 403 "Forbidden: invalid admin pin", Store.empty))
  /\ Part001Cjs.post_api_attendance (Part001Cjs.ADMIN_SECRET None)
       Sample.remote
       {| Part001Cjs.x_admin_secret := Some "guess";
          Part001Cjs.admin_secret := VUndef;
          Part001Cjs.student_id := VStr "s-1";
          Part001Cjs.scanned_by := VStr "gate-1" |} Store.empty
     = (failure 401 "Unauthorized", Store.empty).
Proof.
  split.
  - apply (proj1 wrong_credential_refused Sample.cfg Sample.remote
             (Sample.check_in (VStr "0000")) Store.empty);
      reflexivity.
  - apply (proj1 (proj2 wrong_credential_refused)).
    reflexivity.
Defined.

(** C2, as stated, fails: part_002 answers 200 and stores the record
    although the request carries a credential that matches no configured
    secret, and the CommonJS revision answers 401, not 403. *)
Lemma wrong_credential_counterexample :
  let '(res, st') :=
    Part002.post_api_attendance Sample.remote
      (Sample.check_in (VStr "0000")) Store.empty in
  status res = 200
  /\ status res <> 403
  /\ List.length (Store.attendance st') = 1%nat
  /\ Store.attendance st' <> Store.attendance Store.empty
  /\ status (fst (Part001Cjs.post_api_attendance
                    (Part001Cjs.ADMIN_SECRET None) Sample.remote
                    {| Part001Cjs.x_admin_secret := Some "guess";
                       Part001Cjs.admin_secret := VUndef;
                       Part001Cjs.student_id := VStr "s-1";
                       Part001Cjs.scanned_by := VStr "gate-1" |}
                    Store.empty)) = 401.
Proof.
  cbv. repeat split; discriminate.
Qed.

Lemma accepts_gate (pin supplied : value) :
  accepts pin supplied = true ->
  (falsy pin || falsy supplied || strict_ne supplied pin)%bool = false.
Proof. unfold accepts. now destruct (_ || _ || _)%bool. Qed.

(** C7, as stated, fails on part_000: with the right pin and a student
    identifier, a request without [lecturer] is rejected with 400 and no
    row is stored. *)
Lemma lecturer_and_course_counterexample :
  let '(res, st') :=
    Part000.post_api_attendance Sample.cfg Sample.remote
      {| student_id := VStr "s-1"; lecturer := VUndef;
         course := VStr "CS101"; admin_pin := VStr "4711" |} Store.empty in
  status res = 400 /\ Store.attendance st' = [] /\ Store.calls st' = [].
Proof. cbv. repeat split. Qed.

End Attendance.

(** ** The same-day duplicate check *)

Module Duplicates.
Import JS Http Props Facts Attendance.

Lemma filter_finds {A : Type} (f : A -> bool) (x : A) (l : list A) :
  In x l -> f x = true -> exists y l', List.filter f l = y :: l'.
Proof.
  induction l as [ | a l IHl]; simpl; [tauto | ].
  intros [-> | Hin] Hf.
  - rewrite Hf. eauto.
  - destruct (f a); eauto.
Qed.

Lemma today_check_matches (r : Store.remote) (sid : value) (rw : Store.row) :
  recorded_on_today r sid rw ->
  Store.matches_all
    [Store.Eq "student_id" sid;
     Store.Gte "created_at" (VStr (Part001.today r))] rw = true.
Proof.
  intros [Hsid [ts [Hts Hday]]]. simpl.
  rewrite Hsid, Hts, value_eqb_refl. simpl.
  rewrite <- Hday, substring_leb. reflexivity.
Qed.

Lemma today_check_finds (r : Store.remote) (sid : value) (st : Store.t)
    (rw : Store.row) :
  Store.error_of r (today_check r sid) = None ->
  In rw (Store.attendance st) ->
  recorded_on_today r sid rw ->
  exists found,
    Store.select r Store.Attendance "*"
      [Store.Eq "student_id" sid;
       Store.Gte "created_at" (VStr (Part001.today r))] (Some 1%nat) st
    = (Store.Data [found], Store.log (today_check r sid) st).
Proof.
  intros Hok Hin Hrec.
  unfold Store.select. fold (today_check r sid). rewrite Hok.
  destruct (filter_finds _ rw _ Hin (today_check_matches r sid rw Hrec))
    as [y [l' Hfound]].
  simpl Store.rows_of. rewrite Hfound. exists y. reflexivity.
Qed.

(** C1, as the code has it.  In part_001, when the pin is accepted, the
    existence query succeeds and the student has a row of today, the
    answer is 200 with [{ok:false, error:"Attendance already taken
    today"}] and the only call made is that query: nothing is inserted.
    The CommonJS revision answers the same situation with 200 and
    [{ok:true, message:"Already recorded"}], again inserting nothing.
    src/index.js makes no such check: an accepted request whose insert
    succeeds is answered [{ok:true, attendance}] and adds a row whatever
    the table already holds. *)
Theorem duplicate_is_not_an_error :
  (forall cfg r req st rw,
      truthy (student_id req) = true ->
      accepts (ADMIN_PIN cfg) (admin_pin req) = true ->
      Store.error_of r (today_check r (student_id req)) = None ->
      In rw (Store.attendance st) ->
      recorded_on_today r (student_id req) rw ->
      Part001.post_api_attendance cfg r req st
        = (failure 200 "Attendance already taken today",
           Store.log (today_check r (student_id req)) st))
  /\ (forall secret r req st rw,
         truthy (Part001Cjs.student_id req) = true ->
         strict_eq (supplied_secret req) secret = true ->
         Store.error_of r (date_check r (Part001Cjs.student_id req)) = None ->
         In rw (Store.attendance st) ->
         obj_get "student_id" rw = Part001Cjs.student_id req ->
         obj_get "date" rw = VStr (Part001Cjs.today r) ->
         Part001Cjs.post_api_attendance secret r req st
           = (json 200 (VObj [("ok", VBool true);
                              ("message", VStr "Already recorded")]),
              Store.log (date_check r (Part001Cjs.student_id req)) st))
  /\ (forall cfg r req st,
         truthy (student_id req) = true ->
         accepts (ADMIN_PIN cfg) (admin_pin req) = true ->
         let fields :=
           [("student_id", student_id req);
            ("lecturer", default_to (lecturer req) (VStr "Unknown"));
            ("course", default_to (course req) (VStr "Unknown"))] in
         Store.error_of r (Store.TableInsert Store.Attendance fields) = None ->
         exists st',
           IndexJs.post_api_attendance cfg r req st
           = (json 200
                (VObj [("ok", VBool true);
                       ("attendance",
                        VObj (Store.new_row r Store.Attendance fields))]),
              st')
           /\ Store.attendance st'
              = (Store.attendance st
                 ++ [Store.new_row r Store.Attendance fields])%list).
Proof.
  split; [ | split].
  - intros cfg r req st rw Hid Hpin Hok Hin Hrec.
    apply truthy_falsy in Hid. apply accepts_gate in Hpin.
    unfold Part001.post_api_attendance. rewrite Hid, Hpin.
    destruct (today_check_finds r _ st rw Hok Hin Hrec) as [found ->].
    reflexivity.
  - intros secret r req st rw Hid Hsecret Hok Hin Hsid Hdate.
    apply truthy_falsy in Hid.
    unfold Part001Cjs.post_api_attendance, Part001Cjs.requireAdmin.
    fold (supplied_secret req). unfold strict_ne. rewrite Hsecret. simpl.
    unfold Part001Cjs.record_attendance, Store.select. rewrite Hid.
    fold (date_check r (Part001Cjs.student_id req)). rewrite Hok.
    assert (Hm : Store.matches_all
                   [Store.Eq "student_id" (Part001Cjs.student_id req);
                    Store.Eq "date" (VStr (Part001Cjs.today r))] rw = true).
    { simpl. rewrite Hsid, Hdate, !value_eqb_refl. reflexivity. }
    destruct (filter_finds _ rw _ Hin Hm) as [y [l' Hfound]].
    simpl Store.rows_of. rewrite Hfound. reflexivity.
  - intros cfg r req st Hid Hpin fields Hins.
    apply truthy_falsy in Hid. apply accepts_gate in Hpin.
    unfold IndexJs.post_api_attendance, Store.insert.
    rewrite Hid, Hpin. fold fields. rewrite Hins.
    eexists. split; reflexivity.
Qed.

Lemma duplicate_is_not_an_error_witness :
  Part001.post_api_attendance Sample.cfg Sample.remote
    (Sample.check_in (VStr "4711")) Sample.recorded_today
  = (failure 200 "Attendance already taken today",
     Store.log (today_check Sample.remote (VStr "s-1"))
       Sample.recorded_today)
  /\ Part001Cjs.post_api_attendance (VStr "myattendancesecret2025")
       Sample.remote
       {| Part001Cjs.x_admin_secret := Some "myattendancesecret2025";
          Part001Cjs.admin_secret := VUndef;
          Part001Cjs.student_id := VStr "s-1";
          Part001Cjs.scanned_by := VStr "gate-1" |}
       {| Store.students := [];
          Store.attendance :=
            [[("id", VStr "a-1"); ("student_id", VStr "s-1");
              ("date", VStr "2025-03-04"); ("status", VStr "Present");
              ("scanned_by", VStr "gate-1")]];
          Store.objects := []; Store.calls := [] |}
     = (json 200 (VObj [("ok", VBool true);
                        ("message", VStr "Already recorded")]),
        Store.log (date_check Sample.remote (VStr "s-1"))
          {| Store.students := [];
             Store.attendance :=
               [[("id", VStr "a-1"); ("student_id", VStr "s-1");
                 ("date", VStr "2025-03-04"); ("status", VStr "Present");
                 ("scanned_by", VStr "gate-1")]];
             Store.objects := []; Store.calls := [] |})
  /\ exists st',
       IndexJs.post_api_attendance Sample.cfg Sample.remote
         (Sample.check_in (VStr "4711")) Sample.recorded_today
       = (json 200
            (VObj [("ok", VBool true);
                   ("attendance",
                    VObj (Store.new_row Sample.remote Store.Attendance
                            [("student_id", VStr "s-1");
                             ("lecturer", VStr "Dr. Okoro");
                             ("course", VStr "CS101")]))]), st')
       /\ Store.attendance st'
          = (Store.attendance Sample.recorded_today
             ++ [Store.new_row Sample.remote Store.Attendance
                   [("student_id", VStr "s-1");
                    ("lecturer", VStr "Dr. Okoro");
                    ("course", VStr "CS101")]])%list.
Proof.
  split; [ | split].
  - apply (proj1 duplicate_is_not_an_error Sample.cfg Sample.remote
             (Sample.check_in (VStr "4711")) Sample.recorded_today
             [("id", VStr "a-1"); ("student_id", VStr "s-1");
              ("lecturer", VStr "Dr. Okoro"); ("course", VStr "CS101");
              ("created_at", VStr "2025-03-04T08:00:00.000Z")]).
    + reflexivity.
    + reflexivity.
    + reflexivity.
    + simpl. left. reflexivity.
    + split; [reflexivity | ].
      exists "2025-03-04T08:00:00.000Z". split; reflexivity.
  - apply (proj1 (proj2 duplicate_is_not_an_error)) with
      (rw := [("id", VStr "a-1"); ("student_id", VStr "s-1");
              ("date", VStr "2025-03-04"); ("status", VStr "Present");
              ("scanned_by", VStr "gate-1")]).
    + reflexivity.
    + reflexivity.
    + reflexivity.
    + simpl. left. reflexivity.
    + reflexivity.
    + reflexivity.
  - apply (proj2 (proj2 duplicate_is_not_an_error) Sample.cfg Sample.remote
             (Sample.check_in (VStr "4711")) Sample.recorded_today);
      reflexivity.
Defined.

(** C1, as stated, fails on src/index.js: the student already has a row
    of the same day, the pin is accepted, and the request is answered
    [{ok:true, attendance}] while a second row is stored.  The CommonJS
    revision reports the duplicate as [ok:true]. *)
Lemma duplicate_counterexample :
  let '(res, st') :=
    IndexJs.post_api_attendance Sample.cfg Sample.remote
      (Sample.check_in (VStr "4711")) Sample.recorded_today in
  status res = 200
  /\ (exists data,
         body res = Json (VObj [("ok", VBool true); ("attendance", data)]))
  /\ List.length (Store.attendance Sample.recorded_today) = 1%nat
  /\ List.length (Store.attendance st') = 2%nat.
Proof.
  cbv. repeat split. eexists. reflexivity.
Qed.

End Duplicates.

(** ** GET /api/attendance/mark *)

Module Scanner.
Import JS Http Props Facts.

Lemma nonempty_truthy (s : string) : s <> "" -> falsy (VStr s) = false.
Proof.
  intros H. unfold falsy. simpl.
  destruct (String.eqb_spec s ""); [contradiction | reflexivity].
Qed.

Lemma same_pin_passes (p : string) :
  p <> "" ->
  (falsy (VStr p) || strict_ne (VStr p) (VStr p))%bool = false
  /\ (falsy (VStr p) || falsy (VStr p) || strict_ne (VStr p) (VStr p))%bool
     = false.
Proof.
  intros H. unfold strict_ne. simpl strict_eq.
  rewrite (nonempty_truthy p H), String.eqb_refl. split; reflexivity.
Qed.

(** C6, as the code has it.  With a student identifier and a pin equal to
    ADMIN_PIN, GET /api/attendance/mark makes the calls, in the order and
    with the outcome, of the same revision's POST /api/attendance for the
    body [{student_id, lecturer:"external-scanner", course:"Unknown",
    admin_pin}]: in part_001 the same-day query and then the insert, in
    src/index.js the insert alone (that revision checks for no duplicate
    in either endpoint).  The only row it can add has lecturer
    "external-scanner", and every answer is a page sent as text, never
    JSON. *)
Theorem scanner_marks_like_post
    (cfg : config) (r : Store.remote) (sid p : string) (st : Store.t) :
  sid <> "" -> p <> "" -> ADMIN_PIN cfg = VStr p ->
  let q := {| q_student_id := Some sid; q_pin := Some p |} in
  (snd (Part001.get_api_attendance_mark cfg r q st)
     = snd (Part001.post_api_attendance cfg r (as_post sid p) st)
   /\ is_page (fst (Part001.get_api_attendance_mark cfg r q st))
   /\ (Store.attendance (snd (Part001.get_api_attendance_mark cfg r q st))
         = Store.attendance st
       \/ Store.attendance (snd (Part001.get_api_attendance_mark cfg r q st))
         = (Store.attendance st ++ [scanner_row r sid])%list))
  /\ (snd (IndexJs.get_api_attendance_mark cfg r q st)
        = snd (IndexJs.post_api_attendance cfg r (as_post sid p) st)
      /\ is_page (fst (IndexJs.get_api_attendance_mark cfg r q st))
      /\ (Store.attendance (snd (IndexJs.get_api_attendance_mark cfg r q st))
            = Store.attendance st
          \/ Store.attendance
               (snd (IndexJs.get_api_attendance_mark cfg r q st))
            = (Store.attendance st ++ [scanner_row r sid])%list))
  /\ obj_get "lecturer" (scanner_row r sid) = VStr "external-scanner".
Proof.
  intros Hsid Hp Hcfg q. subst q.
  destruct (same_pin_passes p Hp) as [Hget Hpost].
  pose proof (nonempty_truthy sid Hsid) as Hid.
  split; [ | split].
  - unfold Part001.get_api_attendance_mark, Part001.post_api_attendance,
      is_page.
    cbn [q_student_id q_pin student_id admin_pin lecturer course as_post
         default_to of_env].
    rewrite Hcfg, Hid, Hget, Hpost.
    unfold Store.select, Store.insert.
    destruct (Store.error_of r (Store.TableSelect _ _ _ _)).
    + simpl. repeat split; eauto.
    + destruct (0 <? _)%nat.
      * simpl. repeat split; eauto.
      * destruct (Store.error_of r (Store.TableInsert _ _)).
        -- simpl. repeat split; eauto.
        -- simpl. repeat split; eauto.
  - unfold IndexJs.get_api_attendance_mark, IndexJs.post_api_attendance,
      is_page.
    cbn [q_student_id q_pin student_id admin_pin lecturer course as_post
         default_to of_env].
    rewrite Hcfg, Hid, Hget, Hpost.
    unfold Store.insert.
    destruct (Store.error_of r (Store.TableInsert _ _)).
    + simpl. repeat split; eauto.
    + simpl. repeat split; eauto.
  - reflexivity.
Qed.

Lemma scanner_marks_like_post_witness :
  let q := {| q_student_id := Some "s-1"; q_pin := Some "4711" |} in
  (snd (Part001.get_api_attendance_mark Sample.cfg Sample.remote q
          Sample.recorded_today)
     = snd (Part001.post_api_attendance Sample.cfg Sample.remote
              (as_post "s-1" "4711") Sample.recorded_today)
   /\ is_page (fst (Part001.get_api_attendance_mark Sample.cfg Sample.remote
                      q Sample.recorded_today))
   /\ (Store.attendance
         (snd (Part001.get_api_attendance_mark Sample.cfg Sample.remote q
                 Sample.recorded_today))
         = Store.attendance Sample.recorded_today
       \/ Store.attendance
            (snd (Part001.get_api_attendance_mark Sample.cfg Sample.remote q
                    Sample.recorded_today))
         = (Store.attendance Sample.recorded_today
            ++ [scanner_row Sample.remote "s-1"])%list))
  /\ (snd (IndexJs.get_api_attendance_mark Sample.cfg Sample.remote q
             Sample.recorded_today)
        = snd (IndexJs.post_api_attendance Sample.cfg Sample.remote
                 (as_post "s-1" "4711") Sample.recorded_today)
      /\ is_page (fst (IndexJs.get_api_attendance_mark Sample.cfg
                         Sample.remote q Sample.recorded_today))
      /\ (Store.attendance
            (snd (IndexJs.get_api_attendance_mark Sample.cfg Sample.remote q
                    Sample.recorded_today))
            = Store.attendance Sample.recorded_today
          \/ Store.attendance
               (snd (IndexJs.get_api_attendance_mark Sample.cfg Sample.remote
                       q Sample.recorded_today))
            = (Store.attendance Sample.recorded_today
               ++ [scanner_row Sample.remote "s-1"])%list))
  /\ obj_get "lecturer" (scanner_row Sample.remote "s-1")
     = VStr "external-scanner".
Proof.
  apply (scanner_marks_like_post Sample.cfg Sample.remote "s-1" "4711"
           Sample.recorded_today).
  - discriminate.
  - discriminate.
  - reflexivity.
Defined.

(** C6, as stated, fails on src/index.js: the student already has a row of
    the same day, the pin matches, and GET /api/attendance/mark makes one
    call, the insert, stores a second row and answers "Attendance
    recorded"; no duplicate check precedes the insert. *)
Lemma scanner_counterexample :
  let '(res, st') :=
    IndexJs.get_api_attendance_mark Sample.cfg Sample.remote
      {| q_student_id := Some "s-1"; q_pin := Some "4711" |}
      Sample.recorded_today in
  res = send 200 (recorded_page "s-1" (Store.now_locale Sample.remote))
  /\ Store.made Sample.recorded_today st'
     = [Store.TableInsert Store.Attendance
          [("student_id", VStr "s-1"); ("lecturer", VStr "external-scanner");
           ("course", VStr "Unknown")]]
  /\ List.length (Store.attendance Sample.recorded_today) = 1%nat
  /\ List.length (Store.attendance st') = 2%nat.
Proof. cbv. repeat split. Qed.

End Scanner.

(** ** POST /api/student *)

Module Registration.
Import JS Http Props Facts.

Lemma obj_get_set_same (k : string) (v : value) (o : list (string * value)) :
  obj_get k (obj_set k v o) = v.
Proof.
  induction o as [ | [k' v'] o IHo]; simpl.
  - now rewrite String.eqb_refl.
  - destruct (String.eqb_spec k k') as [-> | Hne]; simpl.
    + now rewrite String.eqb_refl.
    + destruct (String.eqb_spec k k'); [contradiction | exact IHo].
Qed.

Lemma obj_get_set_other (k k' : string) (v : value)
    (o : list (string * value)) :
  k <> k' -> obj_get k (obj_set k' v o) = obj_get k o.
Proof.
  intros Hne. induction o as [ | [k0 v0] o IHo]; simpl.
  - destruct (String.eqb_spec k k'); [contradiction | reflexivity].
  - destruct (String.eqb_spec k' k0) as [-> | Hk0]; simpl.
    + destruct (String.eqb_spec k k0); [contradiction | reflexivity].
    + destruct (String.eqb_spec k k0); [reflexivity | exact IHo].
Qed.

Lemma complete_passes (req : student_form) :
  complete req = true ->
  (falsy (name req) || falsy (username req) || falsy (email req)
   || falsy (matric_number req))%bool = false.
Proof.
  unfold complete, falsy.
  destruct (truthy (name req)), (truthy (username req)),
    (truthy (email req)), (truthy (matric_number req));
    simpl; congruence.
Qed.

Lemma incomplete_stops (req : student_form) :
  falsy (name req) = true \/ falsy (username req) = true
  \/ falsy (email req) = true \/ falsy (matric_number req) = true ->
  (falsy (name req) || falsy (username req) || falsy (email req)
   || falsy (matric_number req))%bool = true.
Proof.
  intros [-> | [-> | [-> | ->]]]; simpl;
    rewrite ?Bool.orb_true_r; reflexivity.
Qed.

(** Settle the outcome of the next remote call from a hypothesis on the
    services, or split on it. *)
Ltac answered H :=
  match goal with
  | |- context [Store.error_of ?r ?c] =>
      rewrite (H c eq_refl)
  end.

Ltac refused H :=
  match goal with
  | |- context [Store.error_of ?r ?c] =>
      let m := fresh "message" in
      let E := fresh "E" in
      destruct (H c eq_refl) as [m E]; rewrite E
  end.

Ltac either_way :=
  match goal with
  | |- context [Store.error_of ?r ?c] =>
      destruct (Store.error_of r c)
  end.

Lemma student_of_ok (code : Z) (ok student : value) :
  student_of (json code (VObj [("ok", ok); ("student", student)])) = student.
Proof. reflexivity. Qed.

Ltac student_id_of_answer :=
  cbn [fst]; rewrite student_of_ok; cbn [get];
  rewrite !obj_get_set_other by discriminate; reflexivity.

Ltac run_student handler :=
  unfold handler, Store.insert, Store.upload, Store.toBuffer, Store.update.

(** C3, as the code has it.  A registration whose four required fields
    are present and not empty is answered 200 with [ok:true] and a student
    record whose [id] is the identifier the store gave the new row,
    provided the store accepts the insert and the QR code can be made (and,
    in src/index.js, uploaded); when the store rejects the insert the
    answer is 500 with the store's message and no student table row is
    added.  A registration that lacks one of the four fields is answered
    400 "Missing required fields" without any call to the store. *)
Theorem registration_outcomes :
  (forall cfg r req st,
      complete req = true ->
      answers r is_student_insert ->
      answers r is_qr_encode ->
      (answers r is_qr_upload ->
       let res := fst (IndexJs.post_api_student cfg r req st) in
       status res = 200
       /\ (exists student,
              body res = Json (VObj [("ok", VBool true);
                                     ("student", student)]))
       /\ get "id" (student_of res) = VStr (Store.new_id r))
      /\ (let res := fst (Part000.post_api_student cfg r req st) in
          status res = 200
          /\ (exists student,
                 body res = Json (VObj [("ok", VBool true);
                                        ("student", student)]))
          /\ get "id" (student_of res) = VStr (Store.new_id r)))
  /\ (forall cfg r req st message,
         complete req = true ->
         Store.error_of r
           (Store.TableInsert Store.Students
              [("name", name req); ("username", username req);
               ("email", email req);
               ("matric_number", matric_number req)]) = Some message ->
         (fst (IndexJs.post_api_student cfg r req st) = failure 500 message
          /\ Store.students (snd (IndexJs.post_api_student cfg r req st))
             = Store.students st)
         /\ (fst (Part000.post_api_student cfg r req st)
               = failure 500 message
             /\ Store.students (snd (Part000.post_api_student cfg r req st))
                = Store.students st))
  /\ (forall cfg r req st,
         falsy (name req) = true \/ falsy (username req) = true
         \/ falsy (email req) = true \/ falsy (matric_number req) = true ->
         IndexJs.post_api_student cfg r req st
           = (failure 400 "Missing required fields", st)
         /\ Part000.post_api_student cfg r req st
           = (failure 400 "Missing required fields", st)).
Proof.
  split; [ | split].
  - intros cfg r req st Hreq Hins Henc.
    apply complete_passes in Hreq.
    split.
    + intros Hup res. subst res.
      run_student IndexJs.post_api_student.
      rewrite Hreq. answered Hins. cbn iota beta.
      destruct (photo req) as [f | ].
      * either_way; cbn iota beta; answered Henc; cbn iota beta;
          answered Hup; cbn iota beta; either_way;
          (split; [reflexivity | split; [eexists; reflexivity | ] ]);
          student_id_of_answer.
      * answered Henc; cbn iota beta;
          answered Hup; cbn iota beta; either_way;
          (split; [reflexivity | split; [eexists; reflexivity | ] ]);
          student_id_of_answer.
    + intros res. subst res.
      run_student Part000.post_api_student.
      rewrite Hreq. answered Hins. cbn iota beta.
      destruct (photo req) as [f | ].
      * either_way; cbn iota beta; answered Henc; cbn iota beta;
          either_way; cbn iota beta; either_way;
          (split; [reflexivity | split; [eexists; reflexivity | ] ]);
          student_id_of_answer.
      * answered Henc; cbn iota beta;
          either_way; cbn iota beta; either_way;
          (split; [reflexivity | split; [eexists; reflexivity | ] ]);
          student_id_of_answer.
  - intros cfg r req st message Hreq Hins.
    apply complete_passes in Hreq.
    run_student IndexJs.post_api_student.
    run_student Part000.post_api_student.
    rewrite Hreq, Hins. repeat split.
  - intros cfg r req st Hreq.
    apply incomplete_stops in Hreq.
    unfold IndexJs.post_api_student, Part000.post_api_student.
    rewrite Hreq. split; reflexivity.
Qed.

Lemma registration_outcomes_witness :
  (let res := fst (IndexJs.post_api_student Sample.cfg Sample.remote
                     Sample.amy Store.empty) in
   status res = 200
   /\ (exists student,
          body res = Json (VObj [("ok", VBool true); ("student", student)]))
   /\ get "id" (student_of res) = VStr "7f3a")
  /\ (fst (Part000.post_api_student Sample.cfg
             (Sample.failing is_student_insert "row violates policy")
             Sample.amy Store.empty)
        = failure 500 "row violates policy"
      /\ Store.students
           (snd (Part000.post_api_student Sample.cfg
                   (Sample.failing is_student_insert "row violates policy")
                   Sample.amy Store.empty)) = [])
  /\ IndexJs.post_api_student Sample.cfg Sample.remote
       {| name := VStr "Amy Lin"; username := VStr "amyl";
          email := VUndef; matric_number := VStr "M123"; photo := None |}
       Store.empty
     = (failure 400 "Missing required fields", Store.empty).
Proof.
  split; [ | split].
  - apply (proj1 (proj1 registration_outcomes Sample.cfg Sample.remote
                    Sample.amy Store.empty eq_refl
                    (fun c _ => eq_refl) (fun c _ => eq_refl))).
    intros c _. reflexivity.
  - apply (proj2 (proj1 (proj2 registration_outcomes) Sample.cfg
                    (Sample.failing is_student_insert "row violates policy")
                    Sample.amy Store.empty "row violates policy"
                    eq_refl eq_refl)).
  - refine (proj1 (proj2 (proj2 registration_outcomes) Sample.cfg
                     Sample.remote
                     {| name := VStr "Amy Lin"; username := VStr "amyl";
                        email := VUndef; matric_number := VStr "M123";
                        photo := None |} Store.empty _)).
    right. right. left. reflexivity.
Defined.

(** C3, as stated, fails when the store rejects the insert: all four
    fields are present, the answer is 500 with the store's message and
    carries no student record. *)
Lemma registration_counterexample :
  let '(res, st') :=
    IndexJs.post_api_student Sample.cfg
      (Sample.failing is_student_insert "row violates policy")
      Sample.amy Store.empty in
  complete Sample.amy = true
  /\ res = failure 500 "row violates policy"
  /\ student_of res = VUndef
  /\ Store.students st' = [].
Proof. cbv. repeat split. Qed.

(** C5, as the code has it.  In src/index.js a photo upload that fails
    leaves the registration successful with [photo_url] null, and a QR
    upload that fails ends it with 500 "Failed to upload QR code".  In
    part_002 a failed photo upload is treated the same way, and a failed
    QR upload is not looked at either: the registration is answered 200
    with [ok:true]. *)
Theorem upload_failure_policies :
  (forall cfg r req st,
      complete req = true ->
      answers r is_student_insert ->
      answers r is_qr_encode ->
      (answers r is_qr_upload ->
       refuses r is_photo_upload ->
       let res := fst (IndexJs.post_api_student cfg r req st) in
       status res = 200
       /\ (exists student,
              body res = Json (VObj [("ok", VBool true);
                                     ("student", student)]))
       /\ get "photo_url" (student_of res) = VNull)
      /\ (refuses r is_qr_upload ->
          fst (IndexJs.post_api_student cfg r req st)
          = failure 500 "Failed to upload QR code"))
  /\ (forall cfg r req st,
         complete req = true ->
         answers r is_student_insert ->
         answers r is_qr_encode ->
         (refuses r is_photo_upload ->
          let res := fst (Part002.post_api_student cfg r req st) in
          status res = 200
          /\ (exists student,
                 body res = Json (VObj [("ok", VBool true);
                                        ("student", student)]))
          /\ get "photo_url" (student_of res) = VNull)
         /\ (refuses r is_qr_upload ->
             let res := fst (Part002.post_api_student cfg r req st) in
             status res = 200
             /\ exists student,
                 body res = Json (VObj [("ok", VBool true);
                                        ("student", student)]))).
Proof.
  split.
  - intros cfg r req st Hreq Hins Henc.
    apply complete_passes in Hreq.
    split.
    + intros Hup Hphoto res. subst res.
      run_student IndexJs.post_api_student.
      rewrite Hreq. answered Hins. cbn iota beta.
      destruct (photo req) as [f | ].
      * refused Hphoto. cbn iota beta. answered Henc. cbn iota beta.
        answered Hup. cbn iota beta. either_way;
          (split; [reflexivity | split; [eexists; reflexivity | ] ]);
          cbn [fst]; rewrite student_of_ok; cbn [get];
          rewrite obj_get_set_other, obj_get_set_other, obj_get_set_same
            by discriminate; reflexivity.
      * answered Henc. cbn iota beta.
        answered Hup. cbn iota beta. either_way;
          (split; [reflexivity | split; [eexists; reflexivity | ] ]);
          cbn [fst]; rewrite student_of_ok; cbn [get];
          rewrite obj_get_set_other, obj_get_set_other, obj_get_set_same
            by discriminate; reflexivity.
    + intros Hup.
      run_student IndexJs.post_api_student.
      rewrite Hreq. answered Hins. cbn iota beta.
      destruct (photo req) as [f | ].
      * either_way; cbn iota beta; answered Henc; cbn iota beta;
          refused Hup; reflexivity.
      * answered Henc. cbn iota beta. refused Hup. reflexivity.
  - intros cfg r req st Hreq Hins Henc.
    apply complete_passes in Hreq.
    split.
    + intros Hphoto res. subst res.
      run_student Part002.post_api_student.
      rewrite Hreq. answered Hins. cbn iota beta.
      destruct (photo req) as [f | ].
      * refused Hphoto. cbn iota beta. answered Henc. cbn iota beta.
        either_way; cbn iota beta; either_way;
          (split; [reflexivity | split; [eexists; reflexivity | ] ]);
          cbn [fst]; rewrite student_of_ok; cbn [get];
          rewrite obj_get_set_other, obj_get_set_same
            by discriminate; reflexivity.
      * answered Henc. cbn iota beta.
        either_way; cbn iota beta; either_way;
          (split; [reflexivity | split; [eexists; reflexivity | ] ]);
          cbn [fst]; rewrite student_of_ok; cbn [get];
          rewrite obj_get_set_other, obj_get_set_same
            by discriminate; reflexivity.
    + intros Hup res. subst res.
      run_student Part002.post_api_student.
      rewrite Hreq. answered Hins. cbn iota beta.
      destruct (photo req) as [f | ].
      * either_way; cbn iota beta; answered Henc; cbn iota beta;
          refused Hup; cbn iota beta; either_way;
          (split; [reflexivity | eexists; reflexivity]).
      * answered Henc. cbn iota beta. refused Hup. cbn iota beta.
        either_way; (split; [reflexivity | eexists; reflexivity]).
Qed.

Lemma upload_failure_policies_witness :
  (let res := fst (IndexJs.post_api_student Sample.cfg
                     (Sample.failing is_photo_upload "bucket not found")
                     Sample.amy_with_photo Store.empty) in
   status res = 200
   /\ (exists student,
          body res = Json (VObj [("ok", VBool true); ("student", student)]))
   /\ get "photo_url" (student_of res) = VNull)
  /\ fst (IndexJs.post_api_student Sample.cfg
            (Sample.failing is_qr_upload "bucket not found")
            Sample.amy_with_photo Store.empty)
     = failure 500 "Failed to upload QR code"
  /\ (let res := fst (Part002.post_api_student Sample.cfg
                        (Sample.failing is_photo_upload "bucket not found")
                        Sample.amy_with_photo Store.empty) in
      status res = 200
      /\ (exists student,
             body res = Json (VObj [("ok", VBool true);
                                    ("student", student)]))
      /\ get "photo_url" (student_of res) = VNull)
  /\ (let res := fst (Part002.post_api_student Sample.cfg
                        (Sample.failing is_qr_upload "bucket not found")
                        Sample.amy_with_photo Store.empty) in
      status res = 200
      /\ exists student,
          body res = Json (VObj [("ok", VBool true); ("student", student)])).
Proof.
  assert (Hins : forall p,
             (forall c, is_student_insert c = true -> p c = false) ->
             answers (Sample.failing p "bucket not found") is_student_insert).
  { intros p Hp c Hc. simpl. rewrite (Hp c Hc). reflexivity. }
  assert (Henc : forall p,
             (forall c, is_qr_encode c = true -> p c = false) ->
             answers (Sample.failing p "bucket not found") is_qr_encode).
  { intros p Hp c Hc. simpl. rewrite (Hp c Hc). reflexivity. }
  assert (Hno : forall p,
             refuses (Sample.failing p "bucket not found") p).
  { intros p c Hc. simpl. rewrite Hc. eexists. reflexivity. }
  assert (Hother : answers (Sample.failing is_photo_upload "bucket not found")
                     is_qr_upload).
  { intros c Hc. destruct c; try discriminate Hc. simpl in *.
    apply String.eqb_eq in Hc. subst bucket. reflexivity. }
  split; [ | split; [ | split] ].
  - apply (proj1 (proj1 upload_failure_policies Sample.cfg
                    (Sample.failing is_photo_upload "bucket not found")
                    Sample.amy_with_photo Store.empty eq_refl
                    (Hins is_photo_upload (fun c H => ltac:(now destruct c)))
                    (Henc is_photo_upload (fun c H => ltac:(now destruct c))))
             Hother (Hno is_photo_upload)).
  - apply (proj2 (proj1 upload_failure_policies Sample.cfg
                    (Sample.failing is_qr_upload "bucket not found")
                    Sample.amy_with_photo Store.empty eq_refl
                    (Hins is_qr_upload (fun c H => ltac:(now destruct c)))
                    (Henc is_qr_upload (fun c H => ltac:(now destruct c))))
             (Hno is_qr_upload)).
  - apply (proj1 (proj2 upload_failure_policies Sample.cfg
                    (Sample.failing is_photo_upload "bucket not found")
                    Sample.amy_with_photo Store.empty eq_refl
                    (Hins is_photo_upload (fun c H => ltac:(now destruct c)))
                    (Henc is_photo_upload (fun c H => ltac:(now destruct c))))
             (Hno is_photo_upload)).
  - apply (proj2 (proj2 upload_failure_policies Sample.cfg
                    (Sample.failing is_qr_upload "bucket not found")
                    Sample.amy_with_photo Store.empty eq_refl
                    (Hins is_qr_upload (fun c H => ltac:(now destruct c)))
                    (Henc is_qr_upload (fun c H => ltac:(now destruct c))))
             (Hno is_qr_upload)).
Defined.

(** C5, as stated, fails on part_002: the QR upload fails and the
    registration is still answered 200 with [ok:true] and a QR URL. *)
Lemma upload_failure_counterexample :
  let '(res, st') :=
    Part002.post_api_student Sample.cfg
      (Sample.failing is_qr_upload "bucket not found")
      Sample.amy_with_photo Store.empty in
  status res = 200
  /\ get "qr_code_url" (student_of res)
     = VStr "https://db.example.org/storage/v1/object/public/qr-codes/qr_7f3a.png"
  /\ Store.objects st'
     = [{| Store.o_bucket := "student-photos";
           Store.o_path := "photo_7f3a.png";
           Store.o_content := Store.FileBuffer "PNG";
           Store.o_contentType := VStr "image/png" |}].
Proof. cbv. repeat split. Qed.

Lemma append_empty_r (s : string) : (s ++ "")%string = s.
Proof. induction s as [ | c s IHs]; simpl; [ | rewrite IHs]; reflexivity. Qed.

Lemma append_assoc (a b c : string) :
  ((a ++ b) ++ c)%string = (a ++ b ++ c)%string.
Proof. induction a as [ | x a IHa]; simpl; [ | rewrite IHa]; reflexivity. Qed.

(** [JSON.stringify({ id })] for a string [id] *)
Lemma stringify_id (id : string) :
  stringify (VObj [("id", VStr id)])
  = ("{" ++ json_quote "id" ++ ":" ++ json_quote id ++ "}")%string.
Proof.
  cbn [stringify]. rewrite append_empty_r.
  change (json_quote "id") with (String "034" ("id" ++ dquote))%string.
  simpl. reflexivity.
Qed.

Ltac calls_made :=
  unfold Store.made;
  cbn [snd Store.calls Store.log Store.with_rows];
  rewrite <- ?app_assoc;
  rewrite skipn_app, skipn_all, Nat.sub_diag;
  cbn [skipn app].

(** part_000 encodes the deep link with the identifier as it is; for an
    identifier made of unreserved characters (a UUID, a number) that is the
    text of src/index.js. *)
Lemma encodeURIComponent_unreserved (s : string) :
  forallb uri_unreserved (list_ascii_of_string s) = true ->
  encodeURIComponent s = s.
Proof.
  induction s as [ | c s IHs]; simpl; [reflexivity | ].
  intros H. apply Bool.andb_true_iff in H. destruct H as [Hc Hs].
  rewrite Hc, (IHs Hs). reflexivity.
Qed.

Lemma part000_scan_target cfg r req st :
  status (fst (Part000.post_api_student cfg r req st)) = 200 ->
  encoded (Store.made st (snd (Part000.post_api_student cfg r req st)))
  = [(FRONTEND_URL cfg ++ "/scan?id=" ++ Store.new_id r)%string].
Proof.
  run_student Part000.post_api_student.
  destruct (falsy (name req) || _ || _ || _)%bool; [discriminate | ].
  either_way; cbn iota beta; [discriminate | ].
  destruct (photo req) as [f | ];
    repeat (either_way; cbn iota beta; try discriminate);
    intros _; calls_made; reflexivity.
Qed.

End Registration.

(** ** Startup *)

Module Startup.
Import JS Http Props Facts.

Lemma falsy_of_env (o : option string) :
  falsy (of_env o) = true <-> absent o.
Proof.
  unfold absent, falsy. destruct o as [s | ]; simpl.
  - destruct (String.eqb_spec s "") as [-> | Hne]; simpl; split.
    + now right.
    + reflexivity.
    + discriminate.
    + intros [H | [= H]]; [discriminate | contradiction].
  - split; [now left | reflexivity].
Qed.

Lemma falsy_frontend (o : option string) :
  falsy (VStr (strip_trailing_slash
                 (to_string (or_else (of_env o) (VStr "")))))
  = true <-> frontend_absent o.
Proof.
  unfold frontend_absent, absent, falsy, or_else.
  destruct o as [s | ]; simpl.
  - destruct (String.eqb_spec s "") as [-> | Hne]; simpl.
    + split; [intros _; left; now right | reflexivity].
    + rewrite Bool.negb_involutive, String.eqb_eq,
        strip_trailing_slash_empty.
      split.
      * intros [-> | ->]; [contradiction | now right].
      * intros [[H | [= H]] | [= H]];
          [discriminate | contradiction | now right].
  - split; [intros _; left; now left | reflexivity].
Qed.

(** C4, as stated, fails on src/index.js: with ADMIN_PIN absent and the
    three other values set the process does not exit; it listens and
    serves requests (refusing every check-in, see C9). *)
Lemma startup_counterexample :
  env_ADMIN_PIN Sample.env_no_pin = None
  /\ IndexJs.startup Sample.createClient Sample.env_no_pin
     = Listening {| SUPABASE_URL := "https://db.example.org";
                    SUPABASE_KEY := "service-key";
                    FRONTEND_URL := "https://app.example.org";
                    ADMIN_PIN := VUndef |}
  /\ serve IndexJs.post_api_attendance
       (IndexJs.startup Sample.createClient Sample.env_no_pin)
       Sample.remote (Sample.check_in (VStr "4711")) Store.empty
     = Some (failure 403 "Forbidden: invalid admin pin", Store.empty).
Proof. repeat split. Qed.

End Startup.

(** ** Check-ins: when a row is added and when it is not *)

Module CheckIn.
Import JS Http Props Facts Attendance Duplicates.

Lemma value_eqb_eq : forall a b : value, value_eqb a b = true -> a = b.
Proof.
  fix IH 1.
  intros [ | | x | x | x | xs | xs] [ | | y | y | y | ys | ys];
    simpl; try discriminate; try reflexivity.
  - intros H. apply Bool.eqb_prop in H. now subst.
  - intros H. apply Z.eqb_eq in H. now subst.
  - intros H. apply String.eqb_eq in H. now subst.
  - intros H. f_equal. revert ys H.
    induction xs as [ | x xs IHxs]; intros [ | y ys];
      try discriminate; [reflexivity | ].
    intros H. apply Bool.andb_true_iff in H. destruct H as [Hx Hxs].
    f_equal; [apply (IH x y Hx) | apply (IHxs ys Hxs)].
  - intros H. f_equal. revert ys H.
    induction xs as [ | [k x] xs IHxs]; intros [ | [k' y] ys];
      try discriminate; [reflexivity | ].
    intros H. apply Bool.andb_true_iff in H. destruct H as [H Hxs].
    apply Bool.andb_true_iff in H. destruct H as [Hk Hx].
    apply String.eqb_eq in Hk. subst k'.
    f_equal; [f_equal; apply (IH x y Hx) | apply (IHxs ys Hxs)].
Qed.

Lemma filter_none {A : Type} (f : A -> bool) (l : list A) :
  (forall x, In x l -> f x = false) -> List.filter f l = [].
Proof.
  induction l as [ | a l IHl]; simpl; [reflexivity | ].
  intros H. rewrite (H a (or_introl eq_refl)). apply IHl.
  intros x Hx. apply H. now right.
Qed.

Lemma not_true_false (b : bool) : b <> true -> b = false.
Proof. destruct b; [contradiction | reflexivity]. Qed.

Lemma value_leb_str (s : string) (v : value) :
  Store.value_leb (VStr s) v = true ->
  exists ts, v = VStr ts /\ (s <=? ts)%string = true.
Proof. destruct v; simpl; try discriminate. eauto. Qed.

Lemma value_leb_str_l (s : string) (v : value) :
  Store.value_leb v (VStr s) = true ->
  exists ts, v = VStr ts /\ (ts <=? s)%string = true.
Proof. destruct v; simpl; try discriminate. eauto. Qed.

(** The filters of part_001's query pick exactly the blocking rows. *)
Lemma today_filters_blocks (r : Store.remote) (sid : value) (rw : Store.row) :
  Store.matches_all
    [Store.Eq "student_id" sid;
     Store.Gte "created_at" (VStr (Part001.today r))] rw = true
  <-> blocks r sid rw.
Proof.
  unfold blocks. simpl. rewrite Bool.andb_true_r, Bool.andb_true_iff.
  split.
  - intros [Hsid Hts]. split; [now apply value_eqb_eq | ].
    now apply value_leb_str.
  - intros [Hsid [ts [Hts Hle]]]. rewrite Hsid, Hts, value_eqb_refl.
    split; [reflexivity | exact Hle].
Qed.

Lemma today_select_blocked (r : Store.remote) (sid : value) (st : Store.t)
    (rw : Store.row) :
  Store.error_of r (today_check r sid) = None ->
  In rw (Store.attendance st) -> blocks r sid rw ->
  exists found,
    Store.select r Store.Attendance "*"
      [Store.Eq "student_id" sid;
       Store.Gte "created_at" (VStr (Part001.today r))] (Some 1%nat) st
    = (Store.Data [found], Store.log (today_check r sid) st).
Proof.
  intros Hok Hin Hb. apply today_filters_blocks in Hb.
  unfold Store.select. fold (today_check r sid). rewrite Hok.
  destruct (filter_finds _ rw _ Hin Hb) as [y [l' Hfound]].
  simpl Store.rows_of. rewrite Hfound. exists y. reflexivity.
Qed.

Lemma today_select_free (r : Store.remote) (sid : value) (st : Store.t) :
  Store.error_of r (today_check r sid) = None ->
  (forall rw, In rw (Store.attendance st) -> ~ blocks r sid rw) ->
  Store.select r Store.Attendance "*"
    [Store.Eq "student_id" sid;
     Store.Gte "created_at" (VStr (Part001.today r))] (Some 1%nat) st
  = (Store.Data [], Store.log (today_check r sid) st).
Proof.
  intros Hok Hfree.
  unfold Store.select. fold (today_check r sid). rewrite Hok.
  simpl Store.rows_of. rewrite filter_none; [reflexivity | ].
  intros rw Hin. apply not_true_false. intros Hm.
  apply today_filters_blocks in Hm. exact (Hfree rw Hin Hm).
Qed.

Lemma part001_blocked cfg r req st rw :
  truthy (student_id req) = true ->
  accepts (ADMIN_PIN cfg) (admin_pin req) = true ->
  Store.error_of r (today_check r (student_id req)) = None ->
  In rw (Store.attendance st) -> blocks r (student_id req) rw ->
  Part001.post_api_attendance cfg r req st
  = (failure 200 "Attendance already taken today",
     Store.log (today_check r (student_id req)) st).
Proof.
  intros Hid Hpin Hok Hin Hb.
  apply truthy_falsy in Hid. apply accepts_gate in Hpin.
  unfold Part001.post_api_attendance. rewrite Hid, Hpin.
  destruct (today_select_blocked r _ st rw Hok Hin Hb) as [found ->].
  reflexivity.
Qed.

Lemma part001_free cfg r req st :
  truthy (student_id req) = true ->
  accepts (ADMIN_PIN cfg) (admin_pin req) = true ->
  Store.error_of r (today_check r (student_id req)) = None ->
  Store.error_of r (Store.TableInsert Store.Attendance (check_in_fields req))
  = None ->
  (forall rw, In rw (Store.attendance st) -> ~ blocks r (student_id req) rw) ->
  let rw := Store.new_row r Store.Attendance (check_in_fields req) in
  Part001.post_api_attendance cfg r req st
  = (json 200 (VObj [("ok", VBool true); ("attendance", VObj rw)]),
     Store.log (Store.TableInsert Store.Attendance (check_in_fields req))
       (Store.with_rows Store.Attendance (Store.attendance st ++ [rw])%list
          (Store.log (today_check r (student_id req)) st))).
Proof.
  intros Hid Hpin Hok Hins Hfree rw.
  apply truthy_falsy in Hid. apply accepts_gate in Hpin.
  unfold Part001.post_api_attendance. rewrite Hid, Hpin.
  rewrite (today_select_free r _ st Hok Hfree). cbn iota beta.
  cbn [List.length Nat.ltb Nat.leb].
  unfold Store.insert. fold (check_in_fields req). rewrite Hins.
  reflexivity.
Qed.

(** X1. part_001, POST /api/attendance with an accepted pin, when the
    existence query and the insert succeed: the request is answered
    "Attendance already taken today" without an insert exactly when the
    table holds a row of the student whose [created_at] is not before
    today's date (the query has no upper bound, so a row stamped on a later
    day blocks too); otherwise the row is appended and returned. *)
Theorem part001_check_in_decided
    (cfg : config) (r : Store.remote) (req : attendance_body) (st : Store.t) :
  truthy (student_id req) = true ->
  accepts (ADMIN_PIN cfg) (admin_pin req) = true ->
  Store.error_of r (today_check r (student_id req)) = None ->
  Store.error_of r (Store.TableInsert Store.Attendance (check_in_fields req))
  = None ->
  let res := fst (Part001.post_api_attendance cfg r req st) in
  let st' := snd (Part001.post_api_attendance cfg r req st) in
  let rw := Store.new_row r Store.Attendance (check_in_fields req) in
  ((exists old, In old (Store.attendance st)
                /\ blocks r (student_id req) old) ->
   res = failure 200 "Attendance already taken today"
   /\ Store.attendance st' = Store.attendance st
   /\ Store.made st st' = [today_check r (student_id req)])
  /\ ((forall old, In old (Store.attendance st) ->
                   ~ blocks r (student_id req) old) ->
      res = json 200 (VObj [("ok", VBool true); ("attendance", VObj rw)])
      /\ Store.attendance st' = (Store.attendance st ++ [rw])%list
      /\ obj_get "created_at" rw = VStr (Store.db_now r)).
Proof.
  intros Hid Hpin Hok Hins res st' rw. subst res st'. split.
  - intros [old [Hin Hb]].
    rewrite (part001_blocked cfg r req st old Hid Hpin Hok Hin Hb).
    repeat split. apply made_app. reflexivity.
  - intros Hfree.
    rewrite (part001_free cfg r req st Hid Hpin Hok Hins Hfree).
    repeat split.
    unfold rw, Store.new_row, check_in_fields. cbn [map Store.defaults app].
    unfold Store.to_column. cbn [snd fst].
    destruct (student_id req), (default_to (lecturer req) (VStr "Unknown")),
      (default_to (course req) (VStr "Unknown")); reflexivity.
Qed.

Lemma part001_check_in_decided_witness :
  (fst (Part001.post_api_attendance Sample.cfg Sample.remote
          (Sample.check_in (VStr "4711")) Sample.recorded_today)
     = failure 200 "Attendance already taken today"
   /\ Store.attendance
        (snd (Part001.post_api_attendance Sample.cfg Sample.remote
                (Sample.check_in (VStr "4711")) Sample.recorded_today))
      = Store.attendance Sample.recorded_today
   /\ Store.made Sample.recorded_today
        (snd (Part001.post_api_attendance Sample.cfg Sample.remote
                (Sample.check_in (VStr "4711")) Sample.recorded_today))
      = [today_check Sample.remote (VStr "s-1")])
  /\ (fst (Part001.post_api_attendance Sample.cfg Sample.remote
             (Sample.check_in (VStr "4711")) Store.empty)
        = json 200
            (VObj [("ok", VBool true);
                   ("attendance",
                    VObj (Store.new_row Sample.remote Store.Attendance
                            (check_in_fields
                               (Sample.check_in (VStr "4711")))))])
      /\ Store.attendance
           (snd (Part001.post_api_attendance Sample.cfg Sample.remote
                   (Sample.check_in (VStr "4711")) Store.empty))
         = [Store.new_row Sample.remote Store.Attendance
              (check_in_fields (Sample.check_in (VStr "4711")))]
      /\ obj_get "created_at"
           (Store.new_row Sample.remote Store.Attendance
              (check_in_fields (Sample.check_in (VStr "4711"))))
         = VStr "2025-03-04T09:15:00.000Z").
Proof.
  split.
  - apply (proj1 (part001_check_in_decided Sample.cfg Sample.remote
                    (Sample.check_in (VStr "4711")) Sample.recorded_today
                    eq_refl eq_refl eq_refl eq_refl)).
    eexists. split; [left; reflexivity | ].
    split; [reflexivity | ].
    eexists. split; reflexivity.
  - apply (proj2 (part001_check_in_decided Sample.cfg Sample.remote
                    (Sample.check_in (VStr "4711")) Store.empty
                    eq_refl eq_refl eq_refl eq_refl)).
    intros old [].
Defined.

Lemma to_column_truthy (k : string) (v : value) :
  truthy v = true -> Store.to_column (k, v) = (k, v).
Proof. destruct v; try reflexivity. discriminate. Qed.

Lemma to_column_key (kv : string * value) :
  fst (Store.to_column kv) = fst kv.
Proof. destruct kv as [k []]; reflexivity. Qed.

Lemma obj_get_cons_other (k : string) (kv : string * value)
    (o : list (string * value)) :
  (k =? fst kv)%string = false -> obj_get k (kv :: o) = obj_get k o.
Proof. destruct kv as [k' v]. simpl. now intros ->. Qed.

Lemma check_in_row_student (r : Store.remote) (req : attendance_body) :
  truthy (student_id req) = true ->
  obj_get "student_id" (Store.new_row r Store.Attendance (check_in_fields req))
  = student_id req.
Proof.
  intros Hid. unfold Store.new_row, check_in_fields. cbn [map app].
  rewrite (to_column_truthy _ _ Hid). reflexivity.
Qed.

Lemma check_in_row_created (r : Store.remote) (req : attendance_body) :
  obj_get "created_at" (Store.new_row r Store.Attendance (check_in_fields req))
  = VStr (Store.db_now r).
Proof.
  unfold Store.new_row, check_in_fields. cbn [map app Store.defaults].
  rewrite !obj_get_cons_other
    by (rewrite ?to_column_key; reflexivity).
  reflexivity.
Qed.

(** X2. part_001: after a first accepted check-in of a student with no
    blocking row, a second accepted check-in of the same student is
    answered "Attendance already taken today" and the table keeps exactly
    the one new row, provided the store stamped that row not before the
    date the second request computes as today. *)
Theorem part001_second_check_in
    (cfg : config) (r1 r2 : Store.remote) (req : attendance_body)
    (st : Store.t) :
  truthy (student_id req) = true ->
  accepts (ADMIN_PIN cfg) (admin_pin req) = true ->
  all_answer r1 ->
  Store.error_of r2 (today_check r2 (student_id req)) = None ->
  (forall old, In old (Store.attendance st) ->
               ~ blocks r1 (student_id req) old) ->
  (Part001.today r2 <=? Store.db_now r1)%string = true ->
  let rw := Store.new_row r1 Store.Attendance (check_in_fields req) in
  let st1 := snd (Part001.post_api_attendance cfg r1 req st) in
  fst (Part001.post_api_attendance cfg r1 req st)
    = json 200 (VObj [("ok", VBool true); ("attendance", VObj rw)])
  /\ fst (Part001.post_api_attendance cfg r2 req st1)
     = failure 200 "Attendance already taken today"
  /\ Store.attendance (snd (Part001.post_api_attendance cfg r2 req st1))
     = (Store.attendance st ++ [rw])%list.
Proof.
  intros Hid Hpin Hall Hok2 Hfree Hday rw st1. subst st1.
  rewrite (part001_free cfg r1 req st Hid Hpin (Hall _) (Hall _) Hfree).
  cbn [fst snd]. fold rw.
  split; [reflexivity | ].
  rewrite (part001_blocked cfg r2 req _ rw Hid Hpin Hok2).
  - split; reflexivity.
  - cbn [Store.attendance Store.log Store.with_rows].
    apply in_or_app. right. now left.
  - split.
    + apply check_in_row_student. exact Hid.
    + exists (Store.db_now r1). split; [apply check_in_row_created | exact Hday].
Qed.

Lemma part001_second_check_in_witness :
  let req := Sample.check_in (VStr "4711") in
  let rw := Store.new_row Sample.remote Store.Attendance (check_in_fields req) in
  let st1 := snd (Part001.post_api_attendance Sample.cfg Sample.remote req
                    Store.empty) in
  fst (Part001.post_api_attendance Sample.cfg Sample.remote req Store.empty)
    = json 200 (VObj [("ok", VBool true); ("attendance", VObj rw)])
  /\ fst (Part001.post_api_attendance Sample.cfg Sample.remote req st1)
     = failure 200 "Attendance already taken today"
  /\ Store.attendance
       (snd (Part001.post_api_attendance Sample.cfg Sample.remote req st1))
     = [rw].
Proof.
  apply (part001_second_check_in Sample.cfg Sample.remote Sample.remote
           (Sample.check_in (VStr "4711")) Store.empty).
  - reflexivity.
  - reflexivity.
  - intros c. reflexivity.
  - reflexivity.
  - intros old [].
  - reflexivity.
Defined.

(** The filters of part_000's query pick exactly the rows of the same
    student, course and lecturer inside the day's window. *)
Lemma course_filters_blocks (r : Store.remote) (req : attendance_body)
    (rw : Store.row) :
  Store.matches_all
    [Store.Eq "student_id" (student_id req);
     Store.Eq "course" (course req);
     Store.Eq "lecturer" (lecturer req);
     Store.Gte "created_at" (VStr (Store.start_of_day_iso r));
     Store.Lte "created_at" (VStr (Store.end_of_day_iso r))] rw = true
  <-> blocks_course r req rw.
Proof.
  unfold blocks_course. simpl.
  rewrite Bool.andb_true_r, !Bool.andb_true_iff.
  split.
  - intros [Hs [Hc [Hl [Hge Hle]]]].
    apply value_eqb_eq in Hs, Hc, Hl.
    repeat (split; [assumption | ]).
    destruct (value_leb_str _ _ Hge) as [ts [Hts Hlo]].
    exists ts. rewrite Hts in Hle. simpl in Hle. auto.
  - intros [Hs [Hc [Hl [ts [Hts [Hlo Hhi]]]]]].
    rewrite Hs, Hc, Hl, Hts, !value_eqb_refl. simpl. auto.
Qed.

(** X3. part_000, POST /api/attendance with the three fields present and
    the pin accepted, when the existence query and the insert succeed: the
    request is answered "Attendance already taken for this course today"
    exactly when a row of the same student, course and lecturer lies
    between the start and the end of the local day; a row of the student
    for another course or lecturer, or outside the window, does not stop
    the insert. *)
Theorem part000_check_in_decided
    (cfg : config) (r : Store.remote) (req : attendance_body) (st : Store.t) :
  truthy (student_id req) = true ->
  truthy (lecturer req) = true ->
  truthy (course req) = true ->
  strict_eq (admin_pin req) (ADMIN_PIN cfg) = true ->
  Store.error_of r (course_check r req) = None ->
  Store.error_of r
    (Store.TableInsert Store.Attendance
       [("student_id", student_id req); ("lecturer", lecturer req);
        ("course", course req)]) = None ->
  let res := fst (Part000.post_api_attendance cfg r req st) in
  let st' := snd (Part000.post_api_attendance cfg r req st) in
  let rw := Store.new_row r Store.Attendance
              [("student_id", student_id req); ("lecturer", lecturer req);
               ("course", course req)] in
  ((exists old, In old (Store.attendance st) /\ blocks_course r req old) ->
   res = failure 200 "Attendance already taken for this course today"
   /\ Store.attendance st' = Store.attendance st)
  /\ ((forall old, In old (Store.attendance st) ->
                   ~ blocks_course r req old) ->
      res = json 200 (VObj [("ok", VBool true); ("attendance", VObj rw)])
      /\ Store.attendance st' = (Store.attendance st ++ [rw])%list).
Proof.
  intros Hid Hlec Hcourse Hpin Hok Hins res st' rw. subst res st'.
  apply truthy_falsy in Hid, Hlec, Hcourse.
  unfold Part000.post_api_attendance, strict_ne.
  rewrite Hid, Hlec, Hcourse, Hpin. cbn [orb negb].
  unfold Store.select. fold (course_check r req). rewrite Hok.
  simpl Store.rows_of. split.
  - intros [old [Hin Hb]]. apply course_filters_blocks in Hb.
    destruct (filter_finds _ old _ Hin Hb) as [y [l' ->]].
    split; reflexivity.
  - intros Hfree. rewrite filter_none.
    + cbn [Store.take firstn List.length Nat.ltb Nat.leb].
      unfold Store.insert. rewrite Hins. split; reflexivity.
    + intros old Hin. apply not_true_false. intros Hm.
      apply course_filters_blocks in Hm. exact (Hfree old Hin Hm).
Qed.

Lemma part000_check_in_decided_witness :
  let other_course :=
    {| student_id := VStr "s-1"; lecturer := VStr "Dr. Okoro";
       course := VStr "CS102"; admin_pin := VStr "4711" |} in
  fst (Part000.post_api_attendance Sample.cfg Sample.remote
         (Sample.check_in (VStr "4711")) Sample.recorded_today)
    = failure 200 "Attendance already taken for this course today"
  /\ Store.attendance
       (snd (Part000.post_api_attendance Sample.cfg Sample.remote
               other_course Sample.recorded_today))
     = (Store.attendance Sample.recorded_today
        ++ [Store.new_row Sample.remote Store.Attendance
              [("student_id", VStr "s-1"); ("lecturer", VStr "Dr. Okoro");
               ("course", VStr "CS102")]])%list.
Proof.
  intros other_course. split.
  - apply (proj1 (part000_check_in_decided Sample.cfg Sample.remote
                    (Sample.check_in (VStr "4711")) Sample.recorded_today
                    eq_refl eq_refl eq_refl eq_refl eq_refl eq_refl)).
    eexists. split; [left; reflexivity | ].
    repeat (split; [reflexivity | ]).
    eexists. repeat split.
  - apply (proj2 (part000_check_in_decided Sample.cfg Sample.remote
                    other_course Sample.recorded_today
                    eq_refl eq_refl eq_refl eq_refl eq_refl eq_refl)).
    intros old [<- | []] [_ [Hcourse _]]. discriminate Hcourse.
Defined.

Lemma strict_eq_str (v : value) (p : string) :
  strict_eq v (VStr p) = true -> v = VStr p.
Proof.
  destruct v; simpl; try discriminate.
  intros H. apply String.eqb_eq in H. now subst.
Qed.

(** X4. part_000 compares [admin_pin] with ADMIN_PIN and nothing else, but
    its startup check makes that safe: whenever the server listens,
    ADMIN_PIN is a non-empty text, so a check-in whose [admin_pin] is
    absent or is anything but that text is answered 403 "Invalid admin
    PIN" and the store is untouched. *)
Theorem part000_pin_is_set
    (createClient : client_library) (e : environment) (cfg : config) :
  Part000.startup createClient e = Listening cfg ->
  exists p,
    p <> "" /\ env_ADMIN_PIN e = Some p /\ ADMIN_PIN cfg = VStr p
    /\ forall r req st,
        truthy (student_id req) = true ->
        truthy (lecturer req) = true ->
        truthy (course req) = true ->
        admin_pin req <> VStr p ->
        Part000.post_api_attendance cfg r req st
        = (failure 403 "Invalid admin PIN", st).
Proof.
  unfold Part000.startup.
  destruct (falsy (of_env (env_SUPABASE_URL e))); [discriminate | ].
  destruct (falsy (of_env (env_SUPABASE_KEY e))); [discriminate | ].
  destruct (falsy (VStr _)); [discriminate | ].
  destruct (env_ADMIN_PIN e) as [p | ]; [ | discriminate].
  cbn [orb of_env]. unfold falsy. simpl truthy.
  destruct (String.eqb_spec p "") as [-> | Hp]; [discriminate | ].
  cbn [negb]. destruct (createClient _ _); [discriminate | ].
  intros [= <-].
  exists p. repeat split; try assumption.
  intros r req st Hid Hlec Hcourse Hne.
  apply truthy_falsy in Hid, Hlec, Hcourse.
  unfold Part000.post_api_attendance. rewrite Hid, Hlec, Hcourse.
  cbn [orb ADMIN_PIN]. unfold strict_ne.
  destruct (strict_eq (admin_pin req) (VStr p)) eqn:Heq; [ | reflexivity].
  apply strict_eq_str in Heq. contradiction.
Qed.

Lemma part000_pin_is_set_witness :
  exists p,
    p <> "" /\ env_ADMIN_PIN Sample.env = Some p
    /\ ADMIN_PIN Sample.cfg = VStr p
    /\ forall r req st,
        truthy (student_id req) = true ->
        truthy (lecturer req) = true ->
        truthy (course req) = true ->
        admin_pin req <> VStr p ->
        Part000.post_api_attendance Sample.cfg r req st
        = (failure 403 "Invalid admin PIN", st).
Proof.
  apply (part000_pin_is_set Sample.createClient Sample.env Sample.cfg).
  reflexivity.
Defined.

Lemma strict_eq_eq (a b : value) : strict_eq a b = true -> a = b.
Proof.
  destruct a, b; simpl; try discriminate; try reflexivity; intros H.
  - apply Bool.eqb_prop in H. now subst.
  - apply Z.eqb_eq in H. now subst.
  - apply String.eqb_eq in H. now subst.
Qed.

Lemma falsy_query (o : option string) :
  falsy (of_env o) = true <-> o = None \/ o = Some "".
Proof.
  unfold falsy. destruct o as [s | ]; simpl.
  - destruct (String.eqb_spec s "") as [-> | Hne]; simpl; split;
      try (intros; now right); try reflexivity; try discriminate.
    intros [H | [= H]]; [discriminate | contradiction].
  - split; [now left | reflexivity].
Qed.

Lemma present_query (o : option string) :
  falsy (of_env o) = false -> exists s, o = Some s /\ s <> "".
Proof.
  unfold falsy. destruct o as [s | ]; simpl; [ | discriminate].
  destruct (String.eqb_spec s "") as [-> | Hne]; [discriminate | ].
  intros _. exists s. auto.
Qed.

(** The two early returns of the endpoint, on the tests as the handler
    makes them. *)
Lemma mark_rejected
    (cfg : config) (r : Store.remote) (q : mark_query) (st : Store.t) :
  (falsy (of_env (q_student_id q)) = true ->
   IndexJs.get_api_attendance_mark cfg r q st
     = (send 400 "<p>Missing student_id in query</p>", st)
   /\ Part001.get_api_attendance_mark cfg r q st
     = (send 400 "<p>Missing student_id in query</p>", st))
  /\ (falsy (of_env (q_student_id q)) = false ->
      (falsy (of_env (q_pin q))
       || strict_ne (of_env (q_pin q)) (ADMIN_PIN cfg))%bool = true ->
      IndexJs.get_api_attendance_mark cfg r q st
        = (send 200 (confirm_form (to_string (of_env (q_student_id q)))), st)
      /\ Part001.get_api_attendance_mark cfg r q st
        = (send 200 (confirm_form (to_string (of_env (q_student_id q)))),
           st)).
Proof.
  unfold IndexJs.get_api_attendance_mark, Part001.get_api_attendance_mark.
  split.
  - intros ->. split; reflexivity.
  - intros -> ->. split; reflexivity.
Qed.

(** X5. GET /api/attendance/mark (src/index.js and part_001): without a
    student identifier the answer is the 400 page; with one, but with a
    pin that is absent, empty or different from ADMIN_PIN, the answer is
    the confirmation form for that identifier.  In both cases no call is
    made to the store. *)
Theorem mark_without_pin
    (cfg : config) (r : Store.remote) (q : mark_query) (st : Store.t) :
  ((q_student_id q = None \/ q_student_id q = Some "") ->
   IndexJs.get_api_attendance_mark cfg r q st
     = (send 400 "<p>Missing student_id in query</p>", st)
   /\ Part001.get_api_attendance_mark cfg r q st
     = (send 400 "<p>Missing student_id in query</p>", st))
  /\ (forall sid,
         q_student_id q = Some sid -> sid <> "" ->
         (q_pin q = None \/ q_pin q = Some ""
          \/ of_env (q_pin q) <> ADMIN_PIN cfg) ->
         IndexJs.get_api_attendance_mark cfg r q st
           = (send 200 (confirm_form sid), st)
         /\ Part001.get_api_attendance_mark cfg r q st
           = (send 200 (confirm_form sid), st)).
Proof.
  destruct (mark_rejected cfg r q st) as [Hmissing Hform].
  split.
  - intros H. apply Hmissing. now apply falsy_query.
  - intros sid Hsid Hne Hpin.
    replace sid with (to_string (of_env (q_student_id q)))
      by (rewrite Hsid; reflexivity).
    apply Hform.
    + rewrite Hsid. exact (Scanner.nonempty_truthy sid Hne).
    + destruct Hpin as [H | [H | H]].
      * rewrite (proj2 (falsy_query _) (or_introl H)). reflexivity.
      * rewrite (proj2 (falsy_query _) (or_intror H)). reflexivity.
      * unfold strict_ne.
        destruct (strict_eq (of_env (q_pin q)) (ADMIN_PIN cfg)) eqn:Heq.
        -- apply strict_eq_eq in Heq. contradiction.
        -- apply Bool.orb_true_r.
Qed.

Lemma mark_without_pin_witness :
  (IndexJs.get_api_attendance_mark Sample.cfg Sample.remote
     {| q_student_id := None; q_pin := Some "4711" |} Sample.recorded_today
   = (send 400 "<p>Missing student_id in query</p>", Sample.recorded_today)
   /\ Part001.get_api_attendance_mark Sample.cfg Sample.remote
        {| q_student_id := None; q_pin := Some "4711" |}
        Sample.recorded_today
      = (send 400 "<p>Missing student_id in query</p>",
         Sample.recorded_today))
  /\ (IndexJs.get_api_attendance_mark Sample.cfg Sample.remote
        {| q_student_id := Some "s-2"; q_pin := Some "0000" |}
        Sample.recorded_today
      = (send 200 (confirm_form "s-2"), Sample.recorded_today)
      /\ Part001.get_api_attendance_mark Sample.cfg Sample.remote
           {| q_student_id := Some "s-2"; q_pin := Some "0000" |}
           Sample.recorded_today
         = (send 200 (confirm_form "s-2"), Sample.recorded_today)).
Proof.
  split.
  - apply (proj1 (mark_without_pin Sample.cfg Sample.remote
                    {| q_student_id := None; q_pin := Some "4711" |}
                    Sample.recorded_today)).
    left. reflexivity.
  - apply (proj2 (mark_without_pin Sample.cfg Sample.remote
                    {| q_student_id := Some "s-2"; q_pin := Some "0000" |}
                    Sample.recorded_today) "s-2").
    + reflexivity.
    + discriminate.
    + right. right. discriminate.
Defined.

(** X6. GET /api/attendance/mark reaches the store only for a non-empty
    pin that is the configured ADMIN_PIN: whenever the handler leaves the
    store other than it found it, the query carried a student identifier
    and a pin [p], and ADMIN_PIN is that text.  In particular nothing can
    be recorded through this endpoint while ADMIN_PIN is unset or
    empty. *)
Theorem mark_touches_store_only_with_pin
    (cfg : config) (r : Store.remote) (q : mark_query) (st : Store.t) :
  snd (IndexJs.get_api_attendance_mark cfg r q st) <> st
  \/ snd (Part001.get_api_attendance_mark cfg r q st) <> st ->
  (exists sid p,
      q_student_id q = Some sid /\ sid <> ""
      /\ q_pin q = Some p /\ p <> "" /\ ADMIN_PIN cfg = VStr p)
  /\ truthy (ADMIN_PIN cfg) = true.
Proof.
  intros H.
  destruct (mark_rejected cfg r q st) as [Hmissing Hform].
  assert (Hq : exists sid p,
             q_student_id q = Some sid /\ sid <> ""
             /\ q_pin q = Some p /\ p <> "" /\ ADMIN_PIN cfg = VStr p).
  { destruct (falsy (of_env (q_student_id q))) eqn:Hsid.
    { exfalso. destruct (Hmissing eq_refl) as [H1 H2].
      rewrite H1, H2 in H. destruct H as [H | H]; now apply H. }
    destruct (falsy (of_env (q_pin q))
              || strict_ne (of_env (q_pin q)) (ADMIN_PIN cfg))%bool
      eqn:Hgate.
    { exfalso. destruct (Hform eq_refl eq_refl) as [H1 H2].
      rewrite H1, H2 in H. destruct H as [H | H]; now apply H. }
    apply Bool.orb_false_iff in Hgate. destruct Hgate as [Hpin Heq].
    destruct (present_query _ Hsid) as [sid [Hs Hne]].
    destruct (present_query _ Hpin) as [p [Hp Hpne]].
    exists sid, p. repeat (split; [assumption | ]).
    unfold strict_ne in Heq. apply Bool.negb_false_iff in Heq.
    apply strict_eq_eq in Heq. rewrite Hp in Heq. now rewrite <- Heq. }
  split; [exact Hq | ].
  destruct Hq as [sid [p [_ [_ [_ [Hp ->]]]]]]. simpl.
  destruct (String.eqb_spec p ""); [contradiction | reflexivity].
Qed.

Lemma mark_touches_store_only_with_pin_witness :
  (exists sid p,
      Some "s-1" = Some sid /\ sid <> ""
      /\ Some "4711" = Some p /\ p <> "" /\ ADMIN_PIN Sample.cfg = VStr p)
  /\ truthy (ADMIN_PIN Sample.cfg) = true.
Proof.
  apply (mark_touches_store_only_with_pin Sample.cfg Sample.remote
           {| q_student_id := Some "s-1"; q_pin := Some "4711" |}
           Store.empty).
  left. discriminate.
Defined.

Lemma unchanged_appends (st : Store.t) : appends_at_most_one st st.
Proof.
  repeat split. exists []. rewrite app_nil_r. split; [reflexivity | auto].
Qed.

Ltac effect_done :=
  cbn [snd]; unfold appends_at_most_one;
  cbn [Store.students Store.objects Store.attendance Store.log
       Store.with_rows Store.rows_of];
  split; [reflexivity | split; [reflexivity | ] ];
  first [ exists []; rewrite app_nil_r; split; [reflexivity | auto]
        | eexists [_]; split; [reflexivity | auto] ].

Ltac attendance_effect :=
  unfold Store.select, Store.insert;
  repeat (match goal with
          | |- context [match Store.error_of ?r ?c with _ => _ end] =>
              destruct (Store.error_of r c)
          | |- context [if ?b then _ else _] => destruct b
          end; cbn iota beta);
  effect_done.

(** X7. No attendance endpoint of any revision deletes or rewrites
    anything: whatever the request and whatever the services answer, the
    student table and the buckets are left as they were and the attendance
    table is the old one followed by at most one new row. *)
Theorem attendance_endpoints_append_only
    (cfg : config) (r : Store.remote) (st : Store.t) :
  (forall req,
      appends_at_most_one st (snd (IndexJs.post_api_attendance cfg r req st))
      /\ appends_at_most_one st
           (snd (Part000.post_api_attendance cfg r req st))
      /\ appends_at_most_one st
           (snd (Part001.post_api_attendance cfg r req st))
      /\ appends_at_most_one st (snd (Part002.post_api_attendance r req st)))
  /\ (forall q,
         appends_at_most_one st
           (snd (IndexJs.get_api_attendance_mark cfg r q st))
         /\ appends_at_most_one st
              (snd (Part001.get_api_attendance_mark cfg r q st)))
  /\ (forall secret req,
         appends_at_most_one st
           (snd (Part001Cjs.post_api_attendance secret r req st))).
Proof.
  split; [ | split].
  - intros req. split; [ | split; [ | split] ].
    + unfold IndexJs.post_api_attendance. attendance_effect.
    + unfold Part000.post_api_attendance. attendance_effect.
    + unfold Part001.post_api_attendance. attendance_effect.
    + unfold Part002.post_api_attendance. attendance_effect.
  - intros q. split.
    + unfold IndexJs.get_api_attendance_mark. attendance_effect.
    + unfold Part001.get_api_attendance_mark. attendance_effect.
  - intros secret req.
    unfold Part001Cjs.post_api_attendance, Part001Cjs.record_attendance.
    destruct (Part001Cjs.requireAdmin secret req);
      [apply unchanged_appends | ].
    attendance_effect.
Qed.

End CheckIn.

(** ** POST /api/attendance: lecturer and course *)

Module Defaults.
Import JS Http Props Facts Attendance CheckIn.

Lemma check_in_row_lecturer (r : Store.remote) (req : attendance_body) :
  lecturer req = VUndef ->
  obj_get "lecturer" (Store.new_row r Store.Attendance (check_in_fields req))
  = VStr "Unknown".
Proof.
  intros H. unfold Store.new_row, check_in_fields. rewrite H.
  cbn [map app default_to].
  rewrite !obj_get_cons_other
    by (rewrite ?to_column_key; reflexivity).
  reflexivity.
Qed.

Lemma check_in_row_course (r : Store.remote) (req : attendance_body) :
  course req = VUndef ->
  obj_get "course" (Store.new_row r Store.Attendance (check_in_fields req))
  = VStr "Unknown".
Proof.
  intros H. unfold Store.new_row, check_in_fields. rewrite H.
  cbn [map app default_to].
  rewrite !obj_get_cons_other
    by (rewrite ?to_column_key; reflexivity).
  reflexivity.
Qed.

(** C7, as the code has it.  In src/index.js, part_001 and part_002 a
    request without [lecturer] (or without [course]) is handled exactly as
    one that carries "Unknown" there; and whenever such a request gets
    through (a student identifier, in src/index.js and part_001 the right
    pin, in part_001 no row of the student from today, the store accepting
    the calls) the answer is 200 with the one row appended to the table,
    and that row has "Unknown" in each of the two fields the request
    lacks.  In part_000 both fields are required: a request in which
    either is absent or empty (or otherwise falsy) is answered 400
    "Missing required fields" and the store stays as it was. *)
Theorem lecturer_and_course_default :
  (forall cfg r req st,
      IndexJs.post_api_attendance cfg r (with_lecturer VUndef req) st
        = IndexJs.post_api_attendance cfg r
            (with_lecturer (VStr "Unknown") req) st
      /\ IndexJs.post_api_attendance cfg r (with_course VUndef req) st
        = IndexJs.post_api_attendance cfg r
            (with_course (VStr "Unknown") req) st
      /\ Part001.post_api_attendance cfg r (with_lecturer VUndef req) st
        = Part001.post_api_attendance cfg r
            (with_lecturer (VStr "Unknown") req) st
      /\ Part001.post_api_attendance cfg r (with_course VUndef req) st
        = Part001.post_api_attendance cfg r
            (with_course (VStr "Unknown") req) st
      /\ Part002.post_api_attendance r (with_lecturer VUndef req) st
        = Part002.post_api_attendance r
            (with_lecturer (VStr "Unknown") req) st
      /\ Part002.post_api_attendance r (with_course VUndef req) st
        = Part002.post_api_attendance r
            (with_course (VStr "Unknown") req) st)
  /\ (forall cfg r req st,
         truthy (student_id req) = true ->
         Store.error_of r
           (Store.TableInsert Store.Attendance (check_in_fields req)) = None ->
         let rw := Store.new_row r Store.Attendance (check_in_fields req) in
         let recorded :=
           json 200 (VObj [("ok", VBool true); ("attendance", VObj rw)]) in
         (lecturer req = VUndef -> obj_get "lecturer" rw = VStr "Unknown")
         /\ (course req = VUndef -> obj_get "course" rw = VStr "Unknown")
         /\ (accepts (ADMIN_PIN cfg) (admin_pin req) = true ->
             fst (IndexJs.post_api_attendance cfg r req st) = recorded
             /\ Store.attendance
                  (snd (IndexJs.post_api_attendance cfg r req st))
                = (Store.attendance st ++ [rw])%list)
         /\ (accepts (ADMIN_PIN cfg) (admin_pin req) = true ->
             Store.error_of r (today_check r (student_id req)) = None ->
             (forall old, In old (Store.attendance st) ->
                          ~ blocks r (student_id req) old) ->
             fst (Part001.post_api_attendance cfg r req st) = recorded
             /\ Store.attendance
                  (snd (Part001.post_api_attendance cfg r req st))
                = (Store.attendance st ++ [rw])%list)
         /\ fst (Part002.post_api_attendance r req st) = recorded
         /\ Store.attendance (snd (Part002.post_api_attendance r req st))
            = (Store.attendance st ++ [rw])%list)
  /\ (forall cfg r req st,
         falsy (lecturer req) = true \/ falsy (course req) = true ->
         Part000.post_api_attendance cfg r req st
           = (failure 400 "Missing required fields", st)).
Proof.
  split; [ | split].
  - intros cfg r req st. repeat split; reflexivity.
  - intros cfg r req st Hid Hins rw recorded.
    pose proof (truthy_falsy _ Hid) as Hfid.
    split; [apply check_in_row_lecturer | ].
    split; [apply check_in_row_course | ].
    split; [ | split].
    + intros Hpin. apply accepts_gate in Hpin.
      unfold IndexJs.post_api_attendance, Store.insert.
      fold (check_in_fields req). rewrite Hfid, Hpin, Hins.
      split; reflexivity.
    + intros Hpin Hok Hfree.
      rewrite (part001_free cfg r req st Hid Hpin Hok Hins Hfree).
      split; reflexivity.
    + unfold Part002.post_api_attendance, Store.insert.
      fold (check_in_fields req). rewrite Hfid, Hins.
      split; reflexivity.
  - intros cfg r req st H.
    unfold Part000.post_api_attendance.
    destruct H as [-> | ->]; rewrite ?Bool.orb_true_r; reflexivity.
Qed.

Lemma lecturer_and_course_default_witness :
  (let req := {| student_id := VStr "s-2"; lecturer := VUndef;
                 course := VStr "CS101"; admin_pin := VStr "4711" |} in
   let rw := [("id", VStr "7f3a"); ("student_id", VStr "s-2");
              ("lecturer", VStr "Unknown"); ("course", VStr "CS101");
              ("created_at", VStr "2025-03-04T09:15:00.000Z")] in
   let recorded :=
     json 200 (VObj [("ok", VBool true); ("attendance", VObj rw)]) in
   let rows := (Store.attendance Sample.recorded_today ++ [rw])%list in
   obj_get "lecturer" rw = VStr "Unknown"
   /\ (fst (IndexJs.post_api_attendance Sample.cfg Sample.remote req
              Sample.recorded_today) = recorded
       /\ Store.attendance
            (snd (IndexJs.post_api_attendance Sample.cfg Sample.remote req
                    Sample.recorded_today)) = rows)
   /\ (fst (Part001.post_api_attendance Sample.cfg Sample.remote req
              Sample.recorded_today) = recorded
       /\ Store.attendance
            (snd (Part001.post_api_attendance Sample.cfg Sample.remote req
                    Sample.recorded_today)) = rows)
   /\ fst (Part002.post_api_attendance Sample.remote req
             Sample.recorded_today) = recorded
   /\ Store.attendance
        (snd (Part002.post_api_attendance Sample.remote req
                Sample.recorded_today)) = rows)
  /\ Part000.post_api_attendance Sample.cfg Sample.remote
       {| student_id := VStr "s-1"; lecturer := VStr "";
          course := VStr "CS101"; admin_pin := VStr "4711" |} Store.empty
     = (failure 400 "Missing required fields", Store.empty).
Proof.
  split.
  - pose proof (proj1 (proj2 lecturer_and_course_default)
                  Sample.cfg Sample.remote
                  {| student_id := VStr "s-2"; lecturer := VUndef;
                     course := VStr "CS101"; admin_pin := VStr "4711" |}
                  Sample.recorded_today eq_refl eq_refl) as H.
    cbv zeta in H. destruct H as [Hl [_ [Hi [Hp H2]]]].
    split; [exact (Hl eq_refl) | ].
    split; [exact (Hi eq_refl) | ].
    split; [ | exact H2].
    apply (Hp eq_refl eq_refl).
    intros old [<- | []] [H _]. discriminate H.
  - apply (proj2 (proj2 lecturer_and_course_default)).
    left. reflexivity.
Defined.

End Defaults.

(** ** The CommonJS revision: credentials and check-ins *)

Module Cjs.
Import JS Http Props Facts CheckIn.

Lemma admin_secret_truthy (env_secret : option string) :
  exists s, s <> "" /\ Part001Cjs.ADMIN_SECRET env_secret = VStr s.
Proof.
  unfold Part001Cjs.ADMIN_SECRET, or_else.
  destruct env_secret as [s | ]; simpl.
  - destruct (String.eqb_spec s "") as [-> | Hne]; simpl.
    + eexists. split; [ | reflexivity]. discriminate.
    + exists s. auto.
  - eexists. split; [ | reflexivity]. discriminate.
Qed.

Lemma header_decides (h : string) (req : Part001Cjs.request) :
  Part001Cjs.x_admin_secret req = Some h -> h <> "" ->
  supplied_secret req = VStr h.
Proof.
  intros Hh Hne. unfold supplied_secret, or_else. rewrite Hh. simpl.
  destruct (String.eqb_spec h ""); [contradiction | ]. simpl.
  destruct (String.eqb_spec h ""); [contradiction | reflexivity].
Qed.

Lemma no_credentials (req : Part001Cjs.request) :
  (Part001Cjs.x_admin_secret req = None
   \/ Part001Cjs.x_admin_secret req = Some "") ->
  truthy (Part001Cjs.admin_secret req) = false ->
  supplied_secret req = VStr "".
Proof.
  intros Hh Hb. unfold supplied_secret, or_else.
  destruct Hh as [-> | ->]; simpl; rewrite Hb; reflexivity.
Qed.

(** X8. requireAdmin of the CommonJS revision: a non-empty
    [x-admin-secret] header alone decides (the body's [admin_secret] is
    then not consulted); a request with neither header nor body secret is
    answered 401 whatever ADMIN_SECRET is set to, because an unset or
    empty ADMIN_SECRET is replaced by the built-in text; and with
    ADMIN_SECRET unset, that built-in text in the header is accepted. *)
Theorem cjs_credentials :
  (forall secret req h,
      Part001Cjs.x_admin_secret req = Some h -> h <> "" ->
      Part001Cjs.requireAdmin secret req
      = if strict_eq (VStr h) secret then None
        else Some (failure 401 "Unauthorized"))
  /\ (forall env_secret r req st,
         (Part001Cjs.x_admin_secret req = None
          \/ Part001Cjs.x_admin_secret req = Some "") ->
         truthy (Part001Cjs.admin_secret req) = false ->
         Part001Cjs.post_api_attendance
           (Part001Cjs.ADMIN_SECRET env_secret) r req st
         = (failure 401 "Unauthorized", st))
  /\ (forall req,
         Part001Cjs.x_admin_secret req = Some "myattendancesecret2025" ->
         Part001Cjs.requireAdmin (Part001Cjs.ADMIN_SECRET None) req = None
         /\ Part001Cjs.requireAdmin (Part001Cjs.ADMIN_SECRET (Some "")) req
            = None).
Proof.
  split; [ | split].
  - intros secret req h Hh Hne.
    unfold Part001Cjs.requireAdmin. fold (supplied_secret req).
    rewrite (header_decides h req Hh Hne). unfold strict_ne.
    destruct (strict_eq (VStr h) secret); reflexivity.
  - intros env_secret r req st Hh Hb.
    unfold Part001Cjs.post_api_attendance, Part001Cjs.requireAdmin.
    fold (supplied_secret req). rewrite (no_credentials req Hh Hb).
    destruct (admin_secret_truthy env_secret) as [s [Hs ->]].
    unfold strict_ne. simpl.
    destruct s as [ | c s]; [contradiction | reflexivity].
  - intros req Hh.
    unfold Part001Cjs.requireAdmin. fold (supplied_secret req).
    rewrite (header_decides _ req Hh) by discriminate.
    split; reflexivity.
Qed.

Lemma cjs_credentials_witness :
  let req body_secret header :=
    {| Part001Cjs.x_admin_secret := header;
       Part001Cjs.admin_secret := body_secret;
       Part001Cjs.student_id := VStr "s-1";
       Part001Cjs.scanned_by := VStr "gate-1" |} in
  Part001Cjs.requireAdmin (VStr "right")
    (req (VStr "right") (Some "wrong"))
    = Some (failure 401 "Unauthorized")
  /\ Part001Cjs.post_api_attendance
       (Part001Cjs.ADMIN_SECRET (Some "")) Sample.remote
       (req VUndef None) Store.empty
     = (failure 401 "Unauthorized", Store.empty)
  /\ Part001Cjs.requireAdmin (Part001Cjs.ADMIN_SECRET None)
       (req VUndef (Some "myattendancesecret2025")) = None.
Proof.
  intros req. split; [ | split].
  - apply (proj1 cjs_credentials (VStr "right")
             (req (VStr "right") (Some "wrong")) "wrong").
    + reflexivity.
    + discriminate.
  - apply (proj1 (proj2 cjs_credentials)).
    + left. reflexivity.
    + reflexivity.
  - apply (proj2 (proj2 cjs_credentials)
             (req VUndef (Some "myattendancesecret2025"))).
    reflexivity.
Defined.

Lemma cjs_passes secret r req st :
  strict_eq (supplied_secret req) secret = true ->
  Part001Cjs.post_api_attendance secret r req st
  = Part001Cjs.record_attendance r req st.
Proof.
  intros H. unfold Part001Cjs.post_api_attendance, Part001Cjs.requireAdmin.
  fold (supplied_secret req). unfold strict_ne. rewrite H. reflexivity.
Qed.

(** X9. In the CommonJS revision the credential is tested before the
    request body is validated: a request without [student_id] is answered
    401 when its secret is wrong and 400 "Missing student_id" only when
    its secret is right; in both cases no call is made to the store. *)
Theorem cjs_secret_before_student_id
    (secret : value) (r : Store.remote) (req : Part001Cjs.request)
    (st : Store.t) :
  truthy (Part001Cjs.student_id req) = false ->
  (strict_eq (supplied_secret req) secret = false ->
   Part001Cjs.post_api_attendance secret r req st
   = (failure 401 "Unauthorized", st))
  /\ (strict_eq (supplied_secret req) secret = true ->
      Part001Cjs.post_api_attendance secret r req st
      = (failure 400 "Missing student_id", st)).
Proof.
  intros Hid. split; intros Hs.
  - unfold Part001Cjs.post_api_attendance, Part001Cjs.requireAdmin.
    fold (supplied_secret req). unfold strict_ne. rewrite Hs. reflexivity.
  - rewrite (cjs_passes secret r req st Hs).
    unfold Part001Cjs.record_attendance.
    rewrite (falsy_truthy _ Hid). reflexivity.
Qed.

Lemma cjs_secret_before_student_id_witness :
  let req header :=
    {| Part001Cjs.x_admin_secret := Some header;
       Part001Cjs.admin_secret := VUndef;
       Part001Cjs.student_id := VUndef;
       Part001Cjs.scanned_by := VStr "gate-1" |} in
  Part001Cjs.post_api_attendance (VStr "right") Sample.remote
    (req "wrong") Store.empty = (failure 401 "Unauthorized", Store.empty)
  /\ Part001Cjs.post_api_attendance (VStr "right") Sample.remote
       (req "right") Store.empty
     = (failure 400 "Missing student_id", Store.empty).
Proof.
  intros req. split.
  - apply (proj1 (cjs_secret_before_student_id (VStr "right") Sample.remote
                    (req "wrong") Store.empty eq_refl)).
    reflexivity.
  - apply (proj2 (cjs_secret_before_student_id (VStr "right") Sample.remote
                    (req "right") Store.empty eq_refl)).
    reflexivity.
Defined.

Lemma date_filters_recorded (r : Store.remote) (sid : value)
    (rw : Store.row) :
  Store.matches_all
    [Store.Eq "student_id" sid;
     Store.Eq "date" (VStr (Part001Cjs.today r))] rw = true
  <-> recorded_date r sid rw.
Proof.
  unfold recorded_date. simpl.
  rewrite Bool.andb_true_r, Bool.andb_true_iff. split.
  - intros [H1 H2]. split; now apply value_eqb_eq.
  - intros [-> ->]. rewrite !value_eqb_refl. auto.
Qed.

Lemma cjs_recorded r req st rw :
  truthy (Part001Cjs.student_id req) = true ->
  Store.error_of r (date_check r (Part001Cjs.student_id req)) = None ->
  In rw (Store.attendance st) ->
  recorded_date r (Part001Cjs.student_id req) rw ->
  Part001Cjs.record_attendance r req st
  = (json 200 (VObj [("ok", VBool true);
                     ("message", VStr "Already recorded")]),
     Store.log (date_check r (Part001Cjs.student_id req)) st).
Proof.
  intros Hid Hok Hin Hrec. apply date_filters_recorded in Hrec.
  unfold Part001Cjs.record_attendance, Store.select.
  rewrite (truthy_falsy _ Hid).
  fold (date_check r (Part001Cjs.student_id req)). rewrite Hok.
  destruct (Duplicates.filter_finds _ rw _ Hin Hrec) as [y [l' Hfound]].
  simpl Store.rows_of. rewrite Hfound. reflexivity.
Qed.

Lemma cjs_inserts r req st :
  truthy (Part001Cjs.student_id req) = true ->
  (Store.error_of r (date_check r (Part001Cjs.student_id req)) <> None
   \/ forall old, In old (Store.attendance st) ->
                  ~ recorded_date r (Part001Cjs.student_id req) old) ->
  Store.error_of r (Store.TableInsert Store.Attendance (present_fields r req))
  = None ->
  let rw := Store.new_row r Store.Attendance (present_fields r req) in
  Part001Cjs.record_attendance r req st
  = (json 200 (VObj [("ok", VBool true); ("data", VObj rw)]),
     Store.log (Store.TableInsert Store.Attendance (present_fields r req))
       (Store.with_rows Store.Attendance (Store.attendance st ++ [rw])%list
          (Store.log (date_check r (Part001Cjs.student_id req)) st))).
Proof.
  intros Hid Hcheck Hins rw.
  unfold Part001Cjs.record_attendance, Store.select.
  rewrite (truthy_falsy _ Hid).
  fold (date_check r (Part001Cjs.student_id req)).
  destruct (Store.error_of r (date_check r (Part001Cjs.student_id req)))
    as [m | ] eqn:Hsel.
  - cbn iota beta. unfold Store.insert. fold (present_fields r req).
    rewrite Hins. reflexivity.
  - destruct Hcheck as [Habs | Hfree]; [contradiction | ].
    simpl Store.rows_of. rewrite filter_none.
    + cbn iota beta. cbn [Store.take firstn List.length Nat.eqb negb].
      unfold Store.insert. fold (present_fields r req).
      rewrite Hins. reflexivity.
    + intros old Hin. apply not_true_false. intros Hm.
      apply date_filters_recorded in Hm. exact (Hfree old Hin Hm).
Qed.

(** X10. In the CommonJS revision a failed existence query is not an
    error: the handler goes on as if no row had been found and, when the
    insert succeeds, answers [{ok:true, data}] and appends the row, even
    if the student already has a row dated today. *)
Theorem cjs_failed_check_is_ignored
    (secret : value) (r : Store.remote) (req : Part001Cjs.request)
    (st : Store.t) (message : string) :
  strict_eq (supplied_secret req) secret = true ->
  truthy (Part001Cjs.student_id req) = true ->
  Store.error_of r (date_check r (Part001Cjs.student_id req))
  = Some message ->
  Store.error_of r (Store.TableInsert Store.Attendance (present_fields r req))
  = None ->
  let rw := Store.new_row r Store.Attendance (present_fields r req) in
  fst (Part001Cjs.post_api_attendance secret r req st)
  = json 200 (VObj [("ok", VBool true); ("data", VObj rw)])
  /\ Store.attendance (snd (Part001Cjs.post_api_attendance secret r req st))
     = (Store.attendance st ++ [rw])%list.
Proof.
  intros Hs Hid Hsel Hins rw.
  rewrite (cjs_passes secret r req st Hs).
  rewrite (cjs_inserts r req st Hid); [ | | exact Hins].
  - split; reflexivity.
  - left. rewrite Hsel. discriminate.
Qed.

Lemma cjs_failed_check_is_ignored_witness :
  let r := Sample.failing
             (fun c => match c with
                       | Store.TableSelect _ _ _ _ => true
                       | _ => false
                       end) "connection reset" in
  let req := {| Part001Cjs.x_admin_secret := Some "right";
                Part001Cjs.admin_secret := VUndef;
                Part001Cjs.student_id := VStr "s-1";
                Part001Cjs.scanned_by := VStr "gate-1" |} in
  let st := {| Store.students := [];
               Store.attendance :=
                 [[("id", VStr "a-1"); ("student_id", VStr "s-1");
                   ("date", VStr "2025-03-04"); ("status", VStr "Present");
                   ("scanned_by", VStr "gate-1")]];
               Store.objects := []; Store.calls := [] |} in
  let rw := Store.new_row r Store.Attendance (present_fields r req) in
  fst (Part001Cjs.post_api_attendance (VStr "right") r req st)
  = json 200 (VObj [("ok", VBool true); ("data", VObj rw)])
  /\ Store.attendance (snd (Part001Cjs.post_api_attendance (VStr "right")
                              r req st))
     = (Store.attendance st ++ [rw])%list.
Proof.
  intros r req st.
  apply (cjs_failed_check_is_ignored (VStr "right") r req st
           "connection reset").
  - reflexivity.
  - reflexivity.
  - reflexivity.
  - reflexivity.
Defined.

Lemma present_row_student (r : Store.remote) (req : Part001Cjs.request) :
  truthy (Part001Cjs.student_id req) = true ->
  obj_get "student_id" (Store.new_row r Store.Attendance (present_fields r req))
  = Part001Cjs.student_id req.
Proof.
  intros Hid. unfold Store.new_row, present_fields. cbn [map app].
  rewrite (to_column_truthy _ _ Hid). reflexivity.
Qed.

Lemma present_row_date (r : Store.remote) (req : Part001Cjs.request) :
  obj_get "date" (Store.new_row r Store.Attendance (present_fields r req))
  = VStr (Part001Cjs.today r)
  /\ obj_get "status" (Store.new_row r Store.Attendance (present_fields r req))
     = VStr "Present".
Proof.
  unfold Store.new_row, present_fields. cbn [map app].
  split.
  - rewrite !obj_get_cons_other
      by (rewrite ?to_column_key; reflexivity).
    reflexivity.
  - rewrite !obj_get_cons_other
      by (rewrite ?to_column_key; reflexivity).
    reflexivity.
Qed.

(** X11. The CommonJS revision finds its own rows again: a first accepted
    check-in of a student without a row dated today stores a row with
    [date] today and [status] "Present", and a second accepted check-in
    made while the server computes the same date is answered
    [{ok:true, message:"Already recorded"}] and stores nothing more. *)
Theorem cjs_second_check_in
    (secret : value) (r1 r2 : Store.remote) (req : Part001Cjs.request)
    (st : Store.t) :
  strict_eq (supplied_secret req) secret = true ->
  truthy (Part001Cjs.student_id req) = true ->
  all_answer r1 ->
  Store.error_of r2 (date_check r2 (Part001Cjs.student_id req)) = None ->
  (forall old, In old (Store.attendance st) ->
               ~ recorded_date r1 (Part001Cjs.student_id req) old) ->
  Part001Cjs.today r2 = Part001Cjs.today r1 ->
  let rw := Store.new_row r1 Store.Attendance (present_fields r1 req) in
  let st1 := snd (Part001Cjs.post_api_attendance secret r1 req st) in
  fst (Part001Cjs.post_api_attendance secret r1 req st)
    = json 200 (VObj [("ok", VBool true); ("data", VObj rw)])
  /\ obj_get "date" rw = VStr (Part001Cjs.today r1)
  /\ obj_get "status" rw = VStr "Present"
  /\ fst (Part001Cjs.post_api_attendance secret r2 req st1)
     = json 200 (VObj [("ok", VBool true);
                       ("message", VStr "Already recorded")])
  /\ Store.attendance (snd (Part001Cjs.post_api_attendance secret r2 req st1))
     = (Store.attendance st ++ [rw])%list.
Proof.
  intros Hs Hid Hall Hok2 Hfree Hday rw st1. subst st1.
  rewrite !(cjs_passes secret _ req _ Hs).
  rewrite (cjs_inserts r1 req st Hid (or_intror Hfree) (Hall _)).
  cbn [fst snd]. fold rw.
  destruct (present_row_date r1 req) as [Hdate Hstatus].
  split; [reflexivity | ].
  split; [exact Hdate | ].
  split; [exact Hstatus | ].
  rewrite (cjs_recorded r2 req _ rw Hid Hok2).
  - split; reflexivity.
  - cbn [Store.attendance Store.log Store.with_rows].
    apply in_or_app. right. now left.
  - split; [now apply present_row_student | ].
    rewrite Hday. exact Hdate.
Qed.

Lemma cjs_second_check_in_witness :
  let req := {| Part001Cjs.x_admin_secret := Some "right";
                Part001Cjs.admin_secret := VUndef;
                Part001Cjs.student_id := VStr "s-1";
                Part001Cjs.scanned_by := VStr "gate-1" |} in
  let rw := Store.new_row Sample.remote Store.Attendance
              (present_fields Sample.remote req) in
  let st1 := snd (Part001Cjs.post_api_attendance (VStr "right")
                    Sample.remote req Store.empty) in
  fst (Part001Cjs.post_api_attendance (VStr "right") Sample.remote req
         Store.empty)
    = json 200 (VObj [("ok", VBool true); ("data", VObj rw)])
  /\ obj_get "date" rw = VStr "2025-03-04"
  /\ obj_get "status" rw = VStr "Present"
  /\ fst (Part001Cjs.post_api_attendance (VStr "right") Sample.remote req
            st1)
     = json 200 (VObj [("ok", VBool true);
                       ("message", VStr "Already recorded")])
  /\ Store.attendance (snd (Part001Cjs.post_api_attendance (VStr "right")
                              Sample.remote req st1))
     = [rw].
Proof.
  intros req.
  apply (cjs_second_check_in (VStr "right") Sample.remote Sample.remote req
           Store.empty).
  - reflexivity.
  - reflexivity.
  - intros c. reflexivity.
  - reflexivity.
  - intros old [].
  - reflexivity.
Defined.

End Cjs.

(** ** Registration: what is stored and what is answered *)

Module Enrolment.
Import JS Http Props Facts Registration CheckIn.

Lemma id_filter (id : value) (rw : Store.row) :
  Store.matches_all [Store.Eq "id" id] rw = value_eqb (obj_get "id" rw) id.
Proof. simpl. apply Bool.andb_true_r. Qed.

Lemma id_filter_fresh (id : value) (rows : list Store.row) :
  (forall old, In old rows -> obj_get "id" old <> id) ->
  forall old, In old rows -> Store.matches_all [Store.Eq "id" id] old = false.
Proof.
  intros Hfresh old Hin. rewrite id_filter. apply not_true_false.
  intros H. apply value_eqb_eq in H. exact (Hfresh old Hin H).
Qed.

Lemma update_leaves_others (id : value) (f : Store.row -> Store.row)
    (rows : list Store.row) :
  (forall old, In old rows -> obj_get "id" old <> id) ->
  map (fun rw => if Store.matches_all [Store.Eq "id" id] rw then f rw else rw)
      rows = rows.
Proof.
  intros Hfresh. induction rows as [ | rw rows IH]; [reflexivity | ].
  cbn [map]. rewrite (id_filter_fresh id _ Hfresh rw (or_introl eq_refl)).
  rewrite IH; [reflexivity | ].
  intros old Hin. apply Hfresh. now right.
Qed.

Lemma new_student_id (r : Store.remote) (fields : Store.row) :
  obj_get "id" (Store.new_row r Store.Students fields) = VStr (Store.new_id r).
Proof. reflexivity. Qed.

Lemma getFileUrl_column (k : string) cfg bucket path :
  Store.to_column (k, getFileUrl cfg bucket path)
  = (k, getFileUrl cfg bucket path).
Proof.
  unfold getFileUrl, or_else. destruct (truthy _); reflexivity.
Qed.

(** The student row as POST /api/student of src/index.js leaves it when
    every call succeeds. *)
Lemma index_registers cfg r req st :
  complete req = true -> all_answer r ->
  (forall old, In old (Store.students st) ->
               obj_get "id" old <> VStr (Store.new_id r)) ->
  let id := Store.new_id r in
  let photo_url :=
    match photo req with
    | Some _ => getFileUrl cfg PHOTO_BUCKET ("photo_" ++ id ++ ".png")
    | None => VNull
    end in
  let qr_code_url := getFileUrl cfg QR_BUCKET ("qr_" ++ id ++ ".png") in
  let stored :=
    obj_set "qr_code_url" qr_code_url
      (obj_set "photo_url" photo_url
         (Store.new_row r Store.Students (student_fields req))) in
  let scanUrl := (FRONTEND_URL cfg ++ "/scan?id=" ++ encodeURIComponent id)%string in
  fst (IndexJs.post_api_student cfg r req st)
  = json 200 (VObj [("ok", VBool true);
                    ("student", VObj (obj_set "scanUrl" (VStr scanUrl) stored))])
  /\ Store.students (snd (IndexJs.post_api_student cfg r req st))
     = (Store.students st ++ [stored])%list
  /\ Store.attendance (snd (IndexJs.post_api_student cfg r req st))
     = Store.attendance st.
Proof.
  intros Hreq Hall Hfresh id photo_url qr_code_url stored scanUrl.
  apply complete_passes in Hreq.
  run_student IndexJs.post_api_student.
  rewrite Hreq. fold (student_fields req).
  rewrite (Hall (Store.TableInsert _ _)). cbn iota beta.
  rewrite new_student_id. cbn [to_string]. fold id.
  destruct (photo req) as [f | ].
  - rewrite (Hall (Store.StorageUpload _ _ _ _)). cbn iota beta.
    rewrite (Hall (Store.QRCodeToBuffer _ _)). cbn iota beta.
    rewrite (Hall (Store.StorageUpload _ _ _ _)). cbn iota beta.
    rewrite (Hall (Store.TableUpdate _ _ _)).
    cbn [fst snd Store.students Store.attendance Store.log Store.with_rows
         Store.rows_of].
    split; [reflexivity | ]. split; [ | reflexivity].
    rewrite map_app, (update_leaves_others _ _ _ Hfresh).
    cbn [map]. rewrite id_filter, new_student_id, value_eqb_refl.
    rewrite ?getFileUrl_column. reflexivity.
  - rewrite (Hall (Store.QRCodeToBuffer _ _)). cbn iota beta.
    rewrite (Hall (Store.StorageUpload _ _ _ _)). cbn iota beta.
    rewrite (Hall (Store.TableUpdate _ _ _)).
    cbn [fst snd Store.students Store.attendance Store.log Store.with_rows
         Store.rows_of].
    split; [reflexivity | ]. split; [ | reflexivity].
    rewrite map_app, (update_leaves_others _ _ _ Hfresh).
    cbn [map]. rewrite id_filter, new_student_id, value_eqb_refl.
    rewrite ?getFileUrl_column. reflexivity.
Qed.

Lemma getFileUrl_text cfg bucket path :
  getFileUrl cfg bucket path
  = VStr (Store.getPublicUrl (SUPABASE_URL cfg) bucket path).
Proof.
  unfold getFileUrl, or_else, Store.getPublicUrl. simpl.
  destruct (SUPABASE_URL cfg); reflexivity.
Qed.

Lemma get_student_found cfg r id st old stored :
  Store.error_of r
    (Store.TableSelect Store.Students "*" [Store.Eq "id" (VStr id)] None)
  = None ->
  Store.students st = (old ++ [stored])%list ->
  (forall rw, In rw old -> obj_get "id" rw <> VStr id) ->
  obj_get "id" stored = VStr id ->
  fst (IndexJs.get_api_student cfg r id st)
  = json 200 (VObj [("ok", VBool true); ("student", VObj stored)]).
Proof.
  intros Hok Hrows Hfresh Hid.
  unfold IndexJs.get_api_student, Store.select_single, Store.select.
  rewrite Hok. cbn [Store.rows_of]. rewrite Hrows, filter_app.
  rewrite (filter_none _ _ (id_filter_fresh _ _ Hfresh)).
  cbn [List.filter app]. rewrite id_filter, Hid, value_eqb_refl.
  reflexivity.
Qed.

(** X12. src/index.js, register then look up: when every call of the
    registration succeeds and the identifier the store gives the new row
    is not yet in the table, GET /api/student/:id for that identifier
    answers 200 with the stored row, and the registration's answer is that
    same row with [scanUrl] added; the row carries the identifier and the
    QR code URL [qr_<id>.png] of the QR bucket. *)
Theorem register_then_get
    (cfg : config) (r r' : Store.remote) (req : student_form) (st : Store.t) :
  complete req = true ->
  all_answer r ->
  Store.error_of r'
    (Store.TableSelect Store.Students "*"
       [Store.Eq "id" (VStr (Store.new_id r))] None) = None ->
  (forall old, In old (Store.students st) ->
               obj_get "id" old <> VStr (Store.new_id r)) ->
  let res := fst (IndexJs.post_api_student cfg r req st) in
  let st1 := snd (IndexJs.post_api_student cfg r req st) in
  exists stored,
    fst (IndexJs.get_api_student cfg r' (Store.new_id r) st1)
    = json 200 (VObj [("ok", VBool true); ("student", VObj stored)])
    /\ student_of res
       = VObj (obj_set "scanUrl"
                 (VStr (FRONTEND_URL cfg ++ "/scan?id="
                        ++ encodeURIComponent (Store.new_id r)))
                 stored)
    /\ obj_get "id" stored = VStr (Store.new_id r)
    /\ obj_get "qr_code_url" stored
       = VStr (Store.getPublicUrl (SUPABASE_URL cfg) QR_BUCKET
                 ("qr_" ++ Store.new_id r ++ ".png")).
Proof.
  intros Hreq Hall Hsel Hfresh res st1. subst res st1.
  destruct (index_registers cfg r req st Hreq Hall Hfresh)
    as [Hres [Hrows _]].
  eexists. split; [ | split; [ | split] ].
  - apply (get_student_found cfg r' _ _ _ _ Hsel Hrows Hfresh).
    rewrite !obj_get_set_other by discriminate. reflexivity.
  - rewrite Hres. reflexivity.
  - rewrite !obj_get_set_other by discriminate. reflexivity.
  - rewrite obj_get_set_same. apply getFileUrl_text.
Qed.

Lemma register_then_get_witness :
  let res := fst (IndexJs.post_api_student Sample.cfg Sample.remote
                    Sample.amy_with_photo Store.empty) in
  let st1 := snd (IndexJs.post_api_student Sample.cfg Sample.remote
                    Sample.amy_with_photo Store.empty) in
  exists stored,
    fst (IndexJs.get_api_student Sample.cfg Sample.remote "7f3a" st1)
    = json 200 (VObj [("ok", VBool true); ("student", VObj stored)])
    /\ student_of res
       = VObj (obj_set "scanUrl"
                 (VStr "https://app.example.org/scan?id=7f3a") stored)
    /\ obj_get "id" stored = VStr "7f3a"
    /\ obj_get "qr_code_url" stored
       = VStr "https://db.example.org/storage/v1/object/public/qr-codes/qr_7f3a.png".
Proof.
  apply (register_then_get Sample.cfg Sample.remote Sample.remote
           Sample.amy_with_photo Store.empty).
  - reflexivity.
  - intros c. reflexivity.
  - reflexivity.
  - intros old [].
Defined.

(** X13. GET /api/student/:id (src/index.js, part_000, part_002) answers
    404 "Student not found" both when no row has the identifier and when
    the store fails to answer the query: a store failure is not reported
    as a server error.  The lookup changes no table and no bucket. *)
Theorem get_student_not_found
    (cfg : config) (r : Store.remote) (id : string) (st : Store.t) :
  (Store.error_of r
     (Store.TableSelect Store.Students "*" [Store.Eq "id" (VStr id)] None)
   <> None
   \/ forall rw, In rw (Store.students st) -> obj_get "id" rw <> VStr id) ->
  let st' :=
    Store.log
      (Store.TableSelect Store.Students "*" [Store.Eq "id" (VStr id)] None)
      st in
  IndexJs.get_api_student cfg r id st
    = (failure 404 "Student not found", st')
  /\ Part000.get_api_student cfg r id st
    = (failure 404 "Student not found", st')
  /\ Part002.get_api_student cfg r id st
    = (failure 404 "Student not found", st')
  /\ Store.students st' = Store.students st
  /\ Store.attendance st' = Store.attendance st
  /\ Store.objects st' = Store.objects st.
Proof.
  intros H st'. subst st'.
  unfold IndexJs.get_api_student, Part000.get_api_student,
    Part002.get_api_student, Store.select_single, Store.select.
  destruct (Store.error_of r _) as [m | ].
  - repeat split.
  - destruct H as [H | Hfresh]; [contradiction | ].
    cbn [Store.rows_of].
    rewrite (filter_none _ _ (id_filter_fresh _ _ Hfresh)).
    repeat split.
Qed.

Lemma get_student_not_found_witness :
  IndexJs.get_api_student Sample.cfg
    (Sample.failing (fun _ => true) "connection reset") "7f3a"
    (snd (IndexJs.post_api_student Sample.cfg Sample.remote Sample.amy
            Store.empty))
  = (failure 404 "Student not found",
     Store.log
       (Store.TableSelect Store.Students "*" [Store.Eq "id" (VStr "7f3a")]
          None)
       (snd (IndexJs.post_api_student Sample.cfg Sample.remote Sample.amy
               Store.empty)))
  /\ Part002.get_api_student Sample.cfg Sample.remote "nobody" Store.empty
     = (failure 404 "Student not found",
        Store.log
          (Store.TableSelect Store.Students "*"
             [Store.Eq "id" (VStr "nobody")] None) Store.empty).
Proof.
  split.
  - apply (get_student_not_found Sample.cfg
             (Sample.failing (fun _ => true) "connection reset") "7f3a").
    left. discriminate.
  - apply (get_student_not_found Sample.cfg Sample.remote "nobody"
             Store.empty).
    right. intros rw [].
Defined.

(** X14. src/index.js, the photo: a registration without a file makes no
    upload to the photo bucket, whatever else happens, and if it succeeds
    its [photo_url] is null; a registration with a file whose calls all
    succeed uploads the file's bytes under [photo_<id>.png] with the
    file's own content type and answers with the public URL of that
    object. *)
Theorem photo_is_optional
    (cfg : config) (r : Store.remote) (req : student_form) (st : Store.t) :
  let res := fst (IndexJs.post_api_student cfg r req st) in
  let st' := snd (IndexJs.post_api_student cfg r req st) in
  (photo req = None ->
   Forall (fun c => is_photo_upload c = false) (Store.made st st')
   /\ (status res = 200 -> get "photo_url" (student_of res) = VNull))
  /\ (forall f,
         photo req = Some f -> complete req = true -> all_answer r ->
         let path := ("photo_" ++ Store.new_id r ++ ".png")%string in
         get "photo_url" (student_of res)
         = VStr (Store.getPublicUrl (SUPABASE_URL cfg) PHOTO_BUCKET path)
         /\ In (Store.StorageUpload PHOTO_BUCKET path
                  (Store.FileBuffer (buffer f)) (VStr (mimetype f)))
               (Store.made st st')).
Proof.
  intros res st'. subst res st'. split.
  - intros Hphoto.
    run_student IndexJs.post_api_student. rewrite Hphoto.
    destruct (falsy (name req) || _ || _ || _)%bool.
    { split; [ | discriminate].
      unfold Store.made. cbn [snd]. rewrite skipn_all. constructor. }
    repeat (either_way; cbn iota beta);
      (split;
       [ calls_made; repeat constructor
       | try discriminate; intros _;
         cbn [fst]; rewrite student_of_ok; cbn [get];
         rewrite obj_get_set_other, obj_get_set_other, obj_get_set_same
           by discriminate; reflexivity ]).
  - intros f Hphoto Hreq Hall path.
    apply complete_passes in Hreq.
    run_student IndexJs.post_api_student.
    rewrite Hreq, Hphoto. fold (student_fields req).
    rewrite (Hall (Store.TableInsert _ _)). cbn iota beta.
    rewrite new_student_id. cbn [to_string]. fold path.
    rewrite (Hall (Store.StorageUpload _ _ _ _)). cbn iota beta.
    rewrite (Hall (Store.QRCodeToBuffer _ _)). cbn iota beta.
    rewrite (Hall (Store.StorageUpload _ _ _ _)). cbn iota beta.
    rewrite (Hall (Store.TableUpdate _ _ _)).
    split.
    + cbn [fst]. rewrite student_of_ok. cbn [get].
      rewrite obj_get_set_other, obj_get_set_other, obj_get_set_same
        by discriminate.
      apply getFileUrl_text.
    + calls_made. right. left. reflexivity.
Qed.

Lemma photo_is_optional_witness :
  (Forall (fun c => is_photo_upload c = false)
     (Store.made Store.empty
        (snd (IndexJs.post_api_student Sample.cfg Sample.remote Sample.amy
                Store.empty)))
   /\ (status (fst (IndexJs.post_api_student Sample.cfg Sample.remote
                      Sample.amy Store.empty)) = 200 ->
       get "photo_url"
         (student_of (fst (IndexJs.post_api_student Sample.cfg Sample.remote
                             Sample.amy Store.empty))) = VNull))
  /\ (get "photo_url"
        (student_of (fst (IndexJs.post_api_student Sample.cfg Sample.remote
                            Sample.amy_with_photo Store.empty)))
      = VStr "https://db.example.org/storage/v1/object/public/student-photos/photo_7f3a.png"
      /\ In (Store.StorageUpload PHOTO_BUCKET "photo_7f3a.png"
               (Store.FileBuffer "PNG") (VStr "image/png"))
            (Store.made Store.empty
               (snd (IndexJs.post_api_student Sample.cfg Sample.remote
                       Sample.amy_with_photo Store.empty)))).
Proof.
  split.
  - apply (proj1 (photo_is_optional Sample.cfg Sample.remote Sample.amy
                    Store.empty)).
    reflexivity.
  - apply (proj2 (photo_is_optional Sample.cfg Sample.remote
                    Sample.amy_with_photo Store.empty)
             {| buffer := "PNG"; mimetype := "image/png" |}).
    + reflexivity.
    + reflexivity.
    + intros c. reflexivity.
Defined.

(** X15. part_000 looks at the result of neither upload: a complete
    registration whose insert and QR encoding succeed is answered 200 with
    both URLs set even if the photo upload and the QR upload both failed;
    [photo_url] is the public URL of [photo_<id>.png] whenever a file was
    sent, uploaded or not. *)
Theorem part000_ignores_uploads
    (cfg : config) (r : Store.remote) (req : student_form) (st : Store.t) :
  complete req = true ->
  answers r is_student_insert ->
  answers r is_qr_encode ->
  let res := fst (Part000.post_api_student cfg r req st) in
  status res = 200
  /\ get "qr_code_url" (student_of res)
     = VStr (Store.getPublicUrl (SUPABASE_URL cfg) QR_BUCKET
               ("qr_" ++ Store.new_id r ++ ".png"))
  /\ (photo req <> None ->
      get "photo_url" (student_of res)
      = VStr (Store.getPublicUrl (SUPABASE_URL cfg) PHOTO_BUCKET
                ("photo_" ++ Store.new_id r ++ ".png"))).
Proof.
  intros Hreq Hins Henc res. subst res.
  apply complete_passes in Hreq.
  run_student Part000.post_api_student.
  rewrite Hreq. answered Hins. cbn iota beta.
  rewrite new_student_id. cbn [to_string].
  destruct (photo req) as [f | ].
  - either_way; cbn iota beta; answered Henc; cbn iota beta;
      either_way; cbn iota beta; either_way;
      (split; [reflexivity | ]);
      cbn [fst]; rewrite student_of_ok; cbn [get];
      (split;
       [ rewrite obj_get_set_same; apply getFileUrl_text
       | intros _;
         rewrite obj_get_set_other, obj_get_set_same by discriminate;
         apply getFileUrl_text ]).
  - answered Henc; cbn iota beta;
      either_way; cbn iota beta; either_way;
      (split; [reflexivity | ]);
      cbn [fst]; rewrite student_of_ok; cbn [get];
      (split;
       [ rewrite obj_get_set_same; apply getFileUrl_text
       | intros Habs; now contradiction Habs ]).
Qed.

Lemma part000_ignores_uploads_witness :
  let res := fst (Part000.post_api_student Sample.cfg
                    (Sample.failing is_upload "bucket not found")
                    Sample.amy_with_photo Store.empty) in
  status res = 200
  /\ get "qr_code_url" (student_of res)
     = VStr "https://db.example.org/storage/v1/object/public/qr-codes/qr_7f3a.png"
  /\ (photo Sample.amy_with_photo <> None ->
      get "photo_url" (student_of res)
      = VStr "https://db.example.org/storage/v1/object/public/student-photos/photo_7f3a.png").
Proof.
  apply (part000_ignores_uploads Sample.cfg
           (Sample.failing is_upload "bucket not found")
           Sample.amy_with_photo Store.empty).
  - reflexivity.
  - intros c Hc. destruct c; try discriminate Hc; reflexivity.
  - intros c Hc. destruct c; try discriminate Hc; reflexivity.
Defined.

(** X16. src/index.js does not undo the insert: when the student row was
    inserted and then the QR code cannot be made or cannot be uploaded,
    the registration is answered 500 and the new row stays in the table,
    with null photo and QR code URLs. *)
Theorem failed_qr_leaves_the_row
    (cfg : config) (r : Store.remote) (req : student_form) (st : Store.t) :
  complete req = true ->
  answers r is_student_insert ->
  refuses r is_qr_encode \/ (answers r is_qr_encode /\ refuses r is_qr_upload) ->
  let rw := Store.new_row r Store.Students (student_fields req) in
  status (fst (IndexJs.post_api_student cfg r req st)) = 500
  /\ Store.students (snd (IndexJs.post_api_student cfg r req st))
     = (Store.students st ++ [rw])%list
  /\ obj_get "photo_url" rw = VNull
  /\ obj_get "qr_code_url" rw = VNull.
Proof.
  intros Hreq Hins Hqr rw.
  assert (Hnull : obj_get "photo_url" rw = VNull
                  /\ obj_get "qr_code_url" rw = VNull).
  { unfold rw, Store.new_row, student_fields.
    cbn [map app Store.defaults].
    split; rewrite !obj_get_cons_other
      by (rewrite ?to_column_key; reflexivity); reflexivity. }
  apply complete_passes in Hreq.
  run_student IndexJs.post_api_student.
  rewrite Hreq. fold (student_fields req). answered Hins. cbn iota beta.
  fold rw.
  destruct Hqr as [Henc | [Henc Hup]].
  - destruct (photo req) as [f | ].
    + either_way; cbn iota beta; refused Henc;
        (split; [reflexivity | split; [reflexivity | exact Hnull] ]).
    + refused Henc.
      split; [reflexivity | split; [reflexivity | exact Hnull] ].
  - destruct (photo req) as [f | ].
    + either_way; cbn iota beta; answered Henc; cbn iota beta;
        refused Hup;
        (split; [reflexivity | split; [reflexivity | exact Hnull] ]).
    + answered Henc. cbn iota beta. refused Hup.
      split; [reflexivity | split; [reflexivity | exact Hnull] ].
Qed.

Lemma failed_qr_leaves_the_row_witness :
  let r := Sample.failing is_qr_encode "The amount of data is too big" in
  let rw := Store.new_row r Store.Students (student_fields Sample.amy) in
  status (fst (IndexJs.post_api_student Sample.cfg r Sample.amy Store.empty))
  = 500
  /\ Store.students
       (snd (IndexJs.post_api_student Sample.cfg r Sample.amy Store.empty))
     = [rw]
  /\ obj_get "photo_url" rw = VNull
  /\ obj_get "qr_code_url" rw = VNull.
Proof.
  intros r.
  apply (failed_qr_leaves_the_row Sample.cfg r Sample.amy Store.empty).
  - reflexivity.
  - intros c Hc. destruct c; try discriminate Hc; reflexivity.
  - left. intros c Hc. destruct c; try discriminate Hc.
    eexists. reflexivity.
Defined.

(** X17. src/index.js does not look at the result of the final update:
    when it fails, the registration is still answered 200 with the QR code
    URL, while the row in the table keeps null URLs, so the answer and
    the stored record disagree. *)
Theorem failed_update_is_not_noticed
    (cfg : config) (r : Store.remote) (req : student_form) (st : Store.t) :
  complete req = true ->
  answers r is_student_insert ->
  answers r is_qr_encode ->
  answers r is_qr_upload ->
  refuses r is_update ->
  let res := fst (IndexJs.post_api_student cfg r req st) in
  let rw := Store.new_row r Store.Students (student_fields req) in
  status res = 200
  /\ get "qr_code_url" (student_of res)
     = VStr (Store.getPublicUrl (SUPABASE_URL cfg) QR_BUCKET
               ("qr_" ++ Store.new_id r ++ ".png"))
  /\ Store.students (snd (IndexJs.post_api_student cfg r req st))
     = (Store.students st ++ [rw])%list
  /\ obj_get "qr_code_url" rw = VNull.
Proof.
  intros Hreq Hins Henc Hup Hupd res rw. subst res.
  assert (Hnull : obj_get "qr_code_url" rw = VNull).
  { unfold rw, Store.new_row, student_fields.
    cbn [map app Store.defaults].
    rewrite !obj_get_cons_other
      by (rewrite ?to_column_key; reflexivity); reflexivity. }
  apply complete_passes in Hreq.
  run_student IndexJs.post_api_student.
  rewrite Hreq. fold (student_fields req). answered Hins. cbn iota beta.
  fold rw. replace (obj_get "id" rw) with (VStr (Store.new_id r))
    by reflexivity.
  cbn [to_string].
  destruct (photo req) as [f | ].
  - either_way; cbn iota beta; answered Henc; cbn iota beta;
      answered Hup; cbn iota beta; refused Hupd;
      (split; [reflexivity | ]);
      (split;
       [ cbn [fst]; rewrite student_of_ok; cbn [get];
         rewrite obj_get_set_other, obj_get_set_same by discriminate;
         apply getFileUrl_text
       | split; [reflexivity | exact Hnull] ]).
  - answered Henc; cbn iota beta;
      answered Hup; cbn iota beta; refused Hupd;
      (split; [reflexivity | ]);
      (split;
       [ cbn [fst]; rewrite student_of_ok; cbn [get];
         rewrite obj_get_set_other, obj_get_set_same by discriminate;
         apply getFileUrl_text
       | split; [reflexivity | exact Hnull] ]).
Qed.

Lemma failed_update_is_not_noticed_witness :
  let r := Sample.failing is_update "permission denied" in
  let res := fst (IndexJs.post_api_student Sample.cfg r Sample.amy
                    Store.empty) in
  let rw := Store.new_row r Store.Students (student_fields Sample.amy) in
  status res = 200
  /\ get "qr_code_url" (student_of res)
     = VStr "https://db.example.org/storage/v1/object/public/qr-codes/qr_7f3a.png"
  /\ Store.students
       (snd (IndexJs.post_api_student Sample.cfg r Sample.amy Store.empty))
     = [rw]
  /\ obj_get "qr_code_url" rw = VNull.
Proof.
  intros r.
  apply (failed_update_is_not_noticed Sample.cfg r Sample.amy Store.empty).
  - reflexivity.
  - intros c Hc. destruct c; try discriminate Hc; reflexivity.
  - intros c Hc. destruct c; try discriminate Hc; reflexivity.
  - intros c Hc. destruct c; try discriminate Hc; reflexivity.
  - intros c Hc. destruct c; try discriminate Hc. eexists. reflexivity.
Defined.

Lemma part002_registers cfg r req st :
  complete req = true -> all_answer r ->
  (forall old, In old (Store.students st) ->
               obj_get "id" old <> VStr (Store.new_id r)) ->
  let id := Store.new_id r in
  let photo_url :=
    match photo req with
    | Some _ => getFileUrl cfg PHOTO_BUCKET ("photo_" ++ id ++ ".png")
    | None => VNull
    end in
  let qr_code_url := getFileUrl cfg QR_BUCKET ("qr_" ++ id ++ ".png") in
  let stored :=
    obj_set "qr_code_url" qr_code_url
      (obj_set "photo_url" photo_url
         (Store.new_row r Store.Students (student_fields req))) in
  fst (Part002.post_api_student cfg r req st)
  = json 200 (VObj [("ok", VBool true); ("student", VObj stored)])
  /\ Store.students (snd (Part002.post_api_student cfg r req st))
     = (Store.students st ++ [stored])%list.
Proof.
  intros Hreq Hall Hfresh id photo_url qr_code_url stored.
  apply complete_passes in Hreq.
  run_student Part002.post_api_student.
  rewrite Hreq. fold (student_fields req).
  rewrite (Hall (Store.TableInsert _ _)). cbn iota beta.
  rewrite new_student_id. cbn [to_string]. fold id.
  destruct (photo req) as [f | ].
  - rewrite (Hall (Store.StorageUpload _ _ _ _)). cbn iota beta.
    rewrite (Hall (Store.QRCodeToBuffer _ _)). cbn iota beta.
    rewrite (Hall (Store.StorageUpload _ _ _ _)). cbn iota beta.
    rewrite (Hall (Store.TableUpdate _ _ _)).
    cbn [fst snd Store.students Store.log Store.with_rows Store.rows_of].
    split; [reflexivity | ].
    rewrite map_app, (update_leaves_others _ _ _ Hfresh).
    cbn [map]. rewrite id_filter, new_student_id, value_eqb_refl.
    rewrite ?getFileUrl_column. reflexivity.
  - rewrite (Hall (Store.QRCodeToBuffer _ _)). cbn iota beta.
    rewrite (Hall (Store.StorageUpload _ _ _ _)). cbn iota beta.
    rewrite (Hall (Store.TableUpdate _ _ _)).
    cbn [fst snd Store.students Store.log Store.with_rows Store.rows_of].
    split; [reflexivity | ].
    rewrite map_app, (update_leaves_others _ _ _ Hfresh).
    cbn [map]. rewrite id_filter, new_student_id, value_eqb_refl.
    rewrite ?getFileUrl_column. reflexivity.
Qed.

(** X18. part_002, register then list: GET /api/student answers with every
    row of the table in table order (500 with the store's message when
    the query fails) and changes nothing; after a registration whose calls
    all succeed, under a fresh identifier, the list is the old list
    followed by exactly the student record the registration returned. *)
Theorem register_then_list
    (cfg : config) (r r' : Store.remote) (req : student_form) (st : Store.t) :
  let listing := Store.TableSelect Store.Students "*" [] None in
  (Store.error_of r' listing = None ->
   Part002.get_api_students cfg r' st
   = (json 200 (VObj [("ok", VBool true);
                      ("students", VArr (map VObj (Store.students st)))]),
      Store.log listing st))
  /\ (forall message,
         Store.error_of r' listing = Some message ->
         Part002.get_api_students cfg r' st
         = (failure 500 message, Store.log listing st))
  /\ (complete req = true -> all_answer r ->
      (forall old, In old (Store.students st) ->
                   obj_get "id" old <> VStr (Store.new_id r)) ->
      Store.error_of r' listing = None ->
      fst (Part002.get_api_students cfg r'
             (snd (Part002.post_api_student cfg r req st)))
      = json 200
          (VObj [("ok", VBool true);
                 ("students",
                  VArr (map VObj (Store.students st)
                        ++ [student_of
                              (fst (Part002.post_api_student cfg r req
                                      st))]))])).
Proof.
  intros listing.
  assert (Hlist : forall st0,
             Store.error_of r' listing = None ->
             Part002.get_api_students cfg r' st0
             = (json 200
                  (VObj [("ok", VBool true);
                         ("students", VArr (map VObj (Store.students st0)))]),
                Store.log listing st0)).
  { intros st0 Hok. unfold Part002.get_api_students, Store.select.
    fold listing. rewrite Hok. cbn [Store.rows_of Store.take].
    assert (Hall : forall rows : list Store.row,
               List.filter (Store.matches_all []) rows = rows).
    { induction rows as [ | rw rows IH]; [reflexivity | ].
      cbn [List.filter Store.matches_all forallb]. now rewrite IH. }
    rewrite Hall. reflexivity. }
  split; [apply Hlist | split].
  - intros message Herr. unfold Part002.get_api_students, Store.select.
    fold listing. rewrite Herr. reflexivity.
  - intros Hreq Hall Hfresh Hok.
    destruct (part002_registers cfg r req st Hreq Hall Hfresh)
      as [Hres Hrows].
    rewrite (Hlist _ Hok). cbn [fst]. rewrite Hrows, Hres, map_app.
    reflexivity.
Qed.

Lemma register_then_list_witness :
  fst (Part002.get_api_students Sample.cfg
         (Sample.failing (fun _ => true) "connection reset") Store.empty)
  = failure 500 "connection reset"
  /\ fst (Part002.get_api_students Sample.cfg Sample.remote
            (snd (Part002.post_api_student Sample.cfg Sample.remote
                    Sample.amy Store.empty)))
     = json 200
         (VObj [("ok", VBool true);
                ("students",
                 VArr [student_of
                         (fst (Part002.post_api_student Sample.cfg
                                 Sample.remote Sample.amy Store.empty))])]).
Proof.
  split.
  - rewrite (proj1 (proj2 (register_then_list Sample.cfg Sample.remote
                             (Sample.failing (fun _ => true)
                                "connection reset")
                             Sample.amy Store.empty))
               "connection reset" eq_refl).
    reflexivity.
  - apply (proj2 (proj2 (register_then_list Sample.cfg Sample.remote
                           Sample.remote Sample.amy Store.empty))).
    + reflexivity.
    + intros c. reflexivity.
    + intros old [].
    + reflexivity.
Defined.

End Enrolment.

(** ** The CommonJS revision: POST /api/create-student *)

Module CreateStudent.
Import JS Http Props Facts Registration CheckIn Enrolment.

Lemma split_nonempty (sep : ascii) (s : string) : split sep s <> [].
Proof.
  destruct s as [ | c s]; simpl; [discriminate | ].
  destruct (Ascii.eqb c sep); [discriminate | ].
  destruct (split sep s); discriminate.
Qed.

(** No piece of a split contains the separator. *)
Lemma split_pieces (sep : ascii) (s : string) :
  Forall (fun piece => ~ In sep (list_ascii_of_string piece)) (split sep s).
Proof.
  induction s as [ | c s IH]; simpl.
  - constructor; [ | constructor]. intros [].
  - destruct (Ascii.eqb_spec c sep) as [-> | Hne].
    + constructor; [intros [] | exact IH].
    + destruct (split sep s) as [ | piece pieces];
        [constructor; [ | constructor]; simpl; intuition | ].
      inversion IH as [ | ? ? Hpiece Hrest]. subst.
      constructor; [ | exact Hrest].
      simpl. intros [H | H]; [now apply Hne | now apply Hpiece].
Qed.

(** Every character of a piece is a character of the text. *)
Lemma split_chars (sep : ascii) (s : string) :
  Forall (fun piece => forall c, In c (list_ascii_of_string piece) ->
                                 In c (list_ascii_of_string s))
         (split sep s).
Proof.
  induction s as [ | c s IH]; simpl.
  - constructor; [ | constructor]. intros c [].
  - destruct (Ascii.eqb c sep).
    + constructor; [intros x [] | ].
      eapply Forall_impl; [ | exact IH]. simpl. intros piece Hp x Hx.
      right. now apply Hp.
    + destruct (split sep s) as [ | piece pieces].
      * constructor; [ | constructor].
        simpl. intros x [Hx | []]. now left.
      * inversion IH as [ | ? ? Hpiece Hrest]. subst.
        constructor.
        -- simpl. intros x [Hx | Hx]; [now left | right; now apply Hpiece].
        -- eapply Forall_impl; [ | exact Hrest]. simpl.
           intros p Hp x Hx. right. now apply Hp.
Qed.

Lemma split_plain (sep : ascii) (s : string) :
  ~ In sep (list_ascii_of_string s) -> split sep s = [s].
Proof.
  induction s as [ | c s IH]; simpl; [reflexivity | ].
  intros H. destruct (Ascii.eqb_spec c sep) as [-> | Hne].
  - exfalso. apply H. now left.
  - rewrite IH; [reflexivity | ]. intros Hin. apply H. now right.
Qed.

Lemma split_at_sep (sep : ascii) (a b : string) :
  ~ In sep (list_ascii_of_string a) ->
  split sep (a ++ String sep b) = a :: split sep b.
Proof.
  induction a as [ | c a IH]; simpl; intros H.
  - rewrite Ascii.eqb_refl. reflexivity.
  - destruct (Ascii.eqb_spec c sep) as [-> | Hne].
    + exfalso. apply H. now left.
    + rewrite IH; [reflexivity | ]. intros Hin. apply H. now right.
Qed.

(** X19. The extension POST /api/create-student takes from the photo's
    media type never contains a slash or a plus sign, so the object path
    has no folder but the one the handler writes.  It is the subtype up
    to the first plus sign ([image/svg+xml] gives [svg]), and [jpg] when
    the media type has no slash or nothing after it. *)
Theorem photo_ext_of_media_type (mimetype : string) :
  (~ In "/"%char (list_ascii_of_string (Part001Cjs.photo_ext mimetype))
   /\ ~ In "+"%char (list_ascii_of_string (Part001Cjs.photo_ext mimetype)))
  /\ (~ In "/"%char (list_ascii_of_string mimetype) ->
      Part001Cjs.photo_ext mimetype = "jpg")
  /\ (forall type sub,
         mimetype = (type ++ "/" ++ sub)%string ->
         ~ In "/"%char (list_ascii_of_string type) ->
         ~ In "/"%char (list_ascii_of_string sub) ->
         (sub = "" -> Part001Cjs.photo_ext mimetype = "jpg")
         /\ (sub <> "" -> ~ In "+"%char (list_ascii_of_string sub) ->
             Part001Cjs.photo_ext mimetype = sub)
         /\ (forall ext suffix,
                sub = (ext ++ "+" ++ suffix)%string -> ext <> "" ->
                ~ In "+"%char (list_ascii_of_string ext) ->
                Part001Cjs.photo_ext mimetype = ext)).
Proof.
  split; [ | split].
  - unfold Part001Cjs.photo_ext.
    set (subtype := match nth_error (split "/" mimetype) 1 with
                    | Some s => if (s =? "")%string then "jpg" else s
                    | None => "jpg"
                    end).
    assert (Hsub : ~ In "/"%char (list_ascii_of_string subtype)).
    { unfold subtype.
      destruct (nth_error (split "/" mimetype) 1) as [s | ] eqn:Hnth.
      - destruct (s =? "")%string.
        + simpl. intuition discriminate.
        + apply nth_error_In in Hnth.
          pose proof (split_pieces "/" mimetype) as H.
          rewrite Forall_forall in H. now apply H.
      - simpl. intuition discriminate. }
    pose proof (split_pieces "+" subtype) as Hplus.
    pose proof (split_chars "+" subtype) as Hchars.
    destruct (split "+" subtype) as [ | piece pieces]; simpl.
    + split; intros [].
    + inversion Hplus; inversion Hchars; subst. split; [ | assumption].
      intros Hin. apply Hsub. auto.
  - intros Hno. unfold Part001Cjs.photo_ext.
    rewrite (split_plain "/" mimetype Hno). reflexivity.
  - intros type sub -> Htype Hsub.
    unfold Part001Cjs.photo_ext.
    change (type ++ "/" ++ sub)%string with (type ++ String "/" sub)%string.
    rewrite (split_at_sep "/" type sub Htype), (split_plain "/" sub Hsub).
    cbn [nth_error]. split; [ | split].
    + intros ->. reflexivity.
    + intros Hne Hplus.
      destruct (String.eqb_spec sub ""); [contradiction | ].
      rewrite (split_plain "+" sub Hplus). reflexivity.
    + intros ext suffix -> Hne Hplus.
      destruct (String.eqb_spec (ext ++ "+" ++ suffix)%string "") as [E | _].
      { destruct ext; [contradiction | discriminate E]. }
      change (ext ++ "+" ++ suffix)%string
        with (ext ++ String "+" suffix)%string.
      rewrite (split_at_sep "+" ext suffix Hplus). reflexivity.
Qed.

Lemma photo_ext_of_media_type_witness :
  Part001Cjs.photo_ext "octet-stream" = "jpg"
  /\ Part001Cjs.photo_ext ("image" ++ "/" ++ "png") = "png"
  /\ Part001Cjs.photo_ext ("image" ++ "/" ++ "svg" ++ "+" ++ "xml") = "svg".
Proof.
  split; [ | split].
  - apply (proj1 (proj2 (photo_ext_of_media_type "octet-stream"))).
    simpl. intuition discriminate.
  - refine (proj1 (proj2 (proj2 (proj2 (photo_ext_of_media_type
                                          ("image" ++ "/" ++ "png")))
                            "image" "png" eq_refl _ _)) _ _).
    + simpl. intuition discriminate.
    + simpl. intuition discriminate.
    + discriminate.
    + simpl. intuition discriminate.
  - refine (proj2 (proj2 (proj2 (proj2 (photo_ext_of_media_type
                                          ("image" ++ "/" ++ "svg+xml")))
                            "image" "svg+xml" eq_refl _ _))
              "svg" "xml" eq_refl _ _).
    + simpl. intuition discriminate.
    + simpl. intuition discriminate.
    + discriminate.
    + simpl. intuition discriminate.
Defined.

Lemma create_passes (req : Part001Cjs.create_form) :
  truthy (Part001Cjs.name req) = true ->
  truthy (Part001Cjs.username req) = true ->
  truthy (Part001Cjs.matric_number req) = true ->
  truthy (Part001Cjs.email req) = true ->
  (falsy (Part001Cjs.name req) || falsy (Part001Cjs.username req)
   || falsy (Part001Cjs.matric_number req)
   || falsy (Part001Cjs.email req))%bool = false.
Proof. unfold falsy. now intros -> -> -> ->. Qed.

Ltac run_create :=
  unfold Part001Cjs.create_student, Part001Cjs.uploadToStorage,
    Part001Cjs.fetch, Store.insert, Store.upload, Store.update.

(** X21. POST /api/create-student, when every call succeeds: exactly one
    URL is fetched, the QR service's address with [data=] the
    percent-encoding of [attendance://<id>]; whatever body comes back is
    what is uploaded as [qr-codes/<id>.png] with type image/png (the
    response is not inspected); and the answer carries the public URL of
    that object as [qr_code_url]. *)
Theorem create_student_qr
    (supabase_url : string) (r : Store.remote)
    (req : Part001Cjs.create_form) (st : Store.t) :
  truthy (Part001Cjs.name req) = true ->
  truthy (Part001Cjs.username req) = true ->
  truthy (Part001Cjs.matric_number req) = true ->
  truthy (Part001Cjs.email req) = true ->
  all_answer r ->
  let res := fst (Part001Cjs.create_student supabase_url r req st) in
  let st' := snd (Part001Cjs.create_student supabase_url r req st) in
  let id := Store.new_id r in
  let path := ("qr-codes/" ++ id ++ ".png")%string in
  status res = 200
  /\ List.filter is_fetch (Store.made st st')
     = [Store.Fetch
          ("https://api.qrserver.com/v1/create-qr-code/?size=400x400&data="
           ++ "attendance%3A%2F%2F" ++ encodeURIComponent id)]
  /\ List.filter is_qr_upload (Store.made st st')
     = [Store.StorageUpload "qr-codes" path
          (Store.FileBuffer (Store.fetched r)) (VStr "image/png")]
  /\ get "qr_code_url" (student_of res)
     = VStr (Store.getPublicUrl supabase_url "qr-codes" path).
Proof.
  intros Hn Hu Hm He Hall res st' id path. subst res st'.
  pose proof (create_passes req Hn Hu Hm He) as Hgate.
  run_create. rewrite Hgate. fold (create_fields req).
  rewrite (Hall (Store.TableInsert _ _)). cbn iota beta.
  rewrite new_student_id. cbn [to_string]. fold id. fold path.
  destruct (Part001Cjs.photo req) as [f | ].
  - rewrite (Hall (Store.StorageUpload _ _ _ _)). cbn iota beta.
    rewrite (Hall (Store.TableUpdate _ _ _)).
    rewrite (Hall (Store.Fetch _)). cbn iota beta.
    rewrite (Hall (Store.StorageUpload _ _ _ _)). cbn iota beta.
    rewrite (Hall (Store.TableUpdate _ _ _)).
    split; [reflexivity | ].
    split; [calls_made; reflexivity | ].
    split; [calls_made; reflexivity | ].
    cbn [fst]. rewrite student_of_ok. cbn [get].
    rewrite obj_get_set_same. reflexivity.
  - rewrite (Hall (Store.Fetch _)). cbn iota beta.
    rewrite (Hall (Store.StorageUpload _ _ _ _)). cbn iota beta.
    rewrite (Hall (Store.TableUpdate _ _ _)).
    split; [reflexivity | ].
    split; [calls_made; reflexivity | ].
    split; [calls_made; reflexivity | ].
    cbn [fst]. rewrite student_of_ok. cbn [get].
    rewrite obj_get_set_same. reflexivity.
Qed.

Lemma create_student_qr_witness :
  let req :=
    {| Part001Cjs.name := VStr "Amy Lin"; Part001Cjs.username := VStr "amyl";
       Part001Cjs.matric_number := VStr "M123";
       Part001Cjs.email := VStr "a@x.edu"; Part001Cjs.photo := None |} in
  let res := fst (Part001Cjs.create_student "https://db.example.org"
                    Sample.remote req Store.empty) in
  let st' := snd (Part001Cjs.create_student "https://db.example.org"
                    Sample.remote req Store.empty) in
  status res = 200
  /\ List.filter is_fetch (Store.made Store.empty st')
     = [Store.Fetch
          ("https://api.qrserver.com/v1/create-qr-code/?size=400x400&data="
           ++ "attendance%3A%2F%2F" ++ encodeURIComponent "7f3a")]
  /\ List.filter is_qr_upload (Store.made Store.empty st')
     = [Store.StorageUpload "qr-codes" "qr-codes/7f3a.png"
          (Store.FileBuffer (Store.fetched Sample.remote)) (VStr "image/png")]
  /\ get "qr_code_url" (student_of res)
     = VStr (Store.getPublicUrl "https://db.example.org" "qr-codes"
               "qr-codes/7f3a.png").
Proof.
  intros req.
  apply (create_student_qr "https://db.example.org" Sample.remote req
           Store.empty); try reflexivity.
  intros c. reflexivity.
Defined.





End CreateStudent.

(** ** What the QR code holds can be read back *)

Module Encoding.
Import JS Http Props Facts Registration.

Lemma percent_decode_plain (c : ascii) (rest : string) :
  Ascii.eqb c "%" = false ->
  percent_decode (String c rest) = String c (percent_decode rest).
Proof.
  intros Hc. destruct rest as [ | h [ | l rest']]; simpl; rewrite ?Hc;
    reflexivity.
Qed.

Lemma percent_decode_byte (c : ascii) (rest : string) :
  percent_decode (percent_byte c ++ rest) = String c (percent_decode rest).
Proof.
  destruct c as [[] [] [] [] [] [] [] []]; reflexivity.
Qed.

Lemma unreserved_not_percent (c : ascii) :
  uri_unreserved c = true -> Ascii.eqb c "%" = false.
Proof.
  destruct (Ascii.eqb_spec c "%") as [-> | ]; [discriminate | reflexivity].
Qed.

Lemma percent_round_trip (s : string) :
  percent_decode (encodeURIComponent s) = s.
Proof.
  induction s as [ | c s IH]; [reflexivity | ].
  cbn [encodeURIComponent].
  destruct (uri_unreserved c) eqn:Hc.
  - rewrite (percent_decode_plain c _ (unreserved_not_percent c Hc)), IH.
    reflexivity.
  - rewrite percent_decode_byte, IH. reflexivity.
Qed.

Lemma append_cancel_l (a b c : string) :
  (a ++ b)%string = (a ++ c)%string -> b = c.
Proof.
  induction a as [ | x a IH]; simpl; intros H; [exact H | ].
  injection H as H. exact (IH H).
Qed.

(** X22. The deep link src/index.js puts in the QR code gives the student
    identifier back: percent-decoding the [id] parameter returns the
    identifier byte for byte, hence two students never share a scan target
    under one frontend base. *)
Theorem scan_target_identifies_student (frontend : string) (id : string) :
  percent_decode (encodeURIComponent id) = id
  /\ (forall other,
         (frontend ++ "/scan?id=" ++ encodeURIComponent id)%string
         = (frontend ++ "/scan?id=" ++ encodeURIComponent other)%string ->
         id = other).
Proof.
  split; [apply percent_round_trip | ].
  intros other H.
  apply append_cancel_l in H. apply (append_cancel_l "/scan?id=") in H.
  rewrite <- (percent_round_trip id), <- (percent_round_trip other).
  now rewrite H.
Qed.

Lemma hex_digit_upper_unreserved (n : nat) :
  uri_unreserved (hex_digit_upper n) = true.
Proof.
  do 16 (destruct n as [ | n]; [reflexivity | ]). reflexivity.
Qed.

(** X23. The encoded identifier cannot break out of its query parameter:
    every character of [encodeURIComponent(id)] is an unreserved character
    or a percent sign, so the scan target's [id] value contains no
    ampersand, equals sign, hash, question mark, slash, space or quote. *)
Theorem encoded_id_is_url_safe (id : string) :
  (forall c, In c (list_ascii_of_string (encodeURIComponent id)) ->
             uri_unreserved c = true \/ c = "%"%char)
  /\ Forall (fun c => ~ In c (list_ascii_of_string (encodeURIComponent id)))
       ["&"; "="; "#"; "?"; "/"; " "; "034"; "<"; ">"]%char.
Proof.
  assert (Hsafe : forall c,
             In c (list_ascii_of_string (encodeURIComponent id)) ->
             uri_unreserved c = true \/ c = "%"%char).
  { induction id as [ | x id IH]; [intros c [] | ].
    cbn [encodeURIComponent]. destruct (uri_unreserved x) eqn:Hx.
    - intros c [<- | Hin]; [now left | now apply IH].
    - unfold percent_byte. cbn [append list_ascii_of_string].
      intros c [<- | [<- | [<- | Hin]]].
      + now right.
      + left. apply hex_digit_upper_unreserved.
      + left. apply hex_digit_upper_unreserved.
      + now apply IH. }
  split; [exact Hsafe | ].
  repeat constructor; intros Hin; destruct (Hsafe _ Hin) as [H | H];
    discriminate H.
Qed.

Lemma json_read_char (c : ascii) (u : string) :
  json_read (json_escape_char c ++ u) = read_more c (json_read u).
Proof.
  destruct c as [[] [] [] [] [] [] [] []]; reflexivity.
Qed.

Lemma json_read_escaped (s t : string) :
  json_read (json_escape s ++ dquote ++ t) = Some (s, t).
Proof.
  induction s as [ | c s IH]; [reflexivity | ].
  cbn [json_escape]. rewrite Registration.append_assoc, json_read_char, IH.
  reflexivity.
Qed.

(** X24. The JSON text part_002 puts in the QR code gives the student
    identifier back: reading the string literal after [{"id":] undoes
    every escape and returns the identifier, hence two students never
    share a payload. *)
Theorem json_payload_identifies_student (id : string) :
  stringify (VObj [("id", VStr id)])
  = ("{" ++ dquote ++ "id" ++ dquote ++ ":" ++ dquote
     ++ json_escape id ++ dquote ++ "}")%string
  /\ json_read (json_escape id ++ dquote ++ "}") = Some (id, "}")
  /\ (forall other,
         stringify (VObj [("id", VStr id)])
         = stringify (VObj [("id", VStr other)]) ->
         id = other).
Proof.
  assert (Hshape : forall s,
             stringify (VObj [("id", VStr s)])
             = ("{" ++ dquote ++ "id" ++ dquote ++ ":" ++ dquote
                ++ json_escape s ++ dquote ++ "}")%string).
  { intros s. rewrite stringify_id. unfold json_quote.
    rewrite !Registration.append_assoc. reflexivity. }
  split; [apply Hshape | split; [apply json_read_escaped | ] ].
  intros other H. rewrite !Hshape in H.
  apply (append_cancel_l "{") in H. apply (append_cancel_l dquote) in H.
  apply (append_cancel_l "id") in H. apply (append_cancel_l dquote) in H.
  apply (append_cancel_l ":") in H. apply (append_cancel_l dquote) in H.
  pose proof (json_read_escaped id "}") as Hid.
  rewrite H, json_read_escaped in Hid. now injection Hid as ->.
Qed.

Lemma component_member (c : ascii) :
  existsb (Ascii.eqb c) component_characters = true ->
  In c component_characters.
Proof.
  intros Hb. apply existsb_exists in Hb. destruct Hb as [x [Hin Hx]].
  apply Ascii.eqb_eq in Hx. now subst x.
Qed.

Lemma unreserved_component (c : ascii) :
  uri_unreserved c = true -> In c component_characters.
Proof.
  intros H. apply component_member. revert H.
  destruct c as [[] [] [] [] [] [] [] []];
    vm_compute; intros H; first [reflexivity | discriminate H].
Qed.

Lemma encoded_component (id : string) (c : ascii) :
  In c (list_ascii_of_string (encodeURIComponent id)) ->
  In c component_characters.
Proof.
  induction id as [ | x id IH]; [intros [] | ].
  cbn [encodeURIComponent]. destruct (uri_unreserved x) eqn:Hx.
  - intros [<- | Hin]; [now apply unreserved_component | now apply IH].
  - unfold percent_byte. cbn [append list_ascii_of_string].
    intros [<- | [<- | [<- | Hin]]].
    + apply component_member. reflexivity.
    + apply unreserved_component, hex_digit_upper_unreserved.
    + apply unreserved_component, hex_digit_upper_unreserved.
    + now apply IH.
Qed.

Lemma json_escape_char_printable (c x : ascii) :
  In x (list_ascii_of_string (json_escape_char c)) ->
  (32 <= nat_of_ascii x)%nat.
Proof.
  assert (Hb : forallb (fun y => (32 <=? nat_of_ascii y)%nat)
                 (list_ascii_of_string (json_escape_char c)) = true).
  { destruct c as [[] [] [] [] [] [] [] []]; vm_compute; reflexivity. }
  intros Hin. rewrite forallb_forall in Hb.
  apply Nat.leb_le. exact (Hb x Hin).
Qed.

Lemma chars_append (a b : string) :
  list_ascii_of_string (a ++ b)
  = (list_ascii_of_string a ++ list_ascii_of_string b)%list.
Proof. induction a as [ | x a IH]; simpl; [ | rewrite IH]; reflexivity. Qed.

Lemma json_escape_printable (id : string) (x : ascii) :
  In x (list_ascii_of_string (json_escape id)) ->
  (32 <= nat_of_ascii x)%nat.
Proof.
  induction id as [ | c id IH]; [intros [] | ].
  cbn [json_escape]. rewrite chars_append. intros H.
  apply in_app_or in H. destruct H as [H | H].
  - exact (json_escape_char_printable c x H).
  - exact (IH H).
Qed.

Lemma payload_text (id : string) :
  stringify (VObj [("id", VStr id)])
  = ("{" ++ quote_mark ++ "id" ++ quote_mark ++ ":" ++ quote_mark
     ++ json_escape id ++ quote_mark ++ "}")%string.
Proof.
  rewrite stringify_id. unfold json_quote.
  rewrite !Registration.append_assoc. reflexivity.
Qed.

(** C8. Whenever POST /api/student answers 200, exactly one text was given
    to the QR encoder and the image sent to the QR bucket is the encoding
    of that text.  In src/index.js the text is the deep link
    [FRONTEND_URL/scan?id=] followed by the URL-encoded identifier of the
    new student (the answer repeats it as [scanUrl]): the [id] parameter
    percent-decodes to the identifier and is made of letters, digits, the
    marks [-_.!~*'()] and percent signs only, so it holds no ampersand,
    equals sign, hash, question mark, slash, space, quote or angle
    bracket.  In part_002 the text is the JSON text of the object whose
    only field [id] is that identifier: an opening brace, the quoted key
    [id], a colon, the identifier as a quoted JSON string, a closing
    brace, where the string holds no control character and reads back as
    the identifier. *)
Theorem qr_holds_scan_target :
  (forall cfg r req st,
      status (fst (IndexJs.post_api_student cfg r req st)) = 200 ->
      let res := fst (IndexJs.post_api_student cfg r req st) in
      let st' := snd (IndexJs.post_api_student cfg r req st) in
      let query := encodeURIComponent (Store.new_id r) in
      let target := (FRONTEND_URL cfg ++ "/scan?id=" ++ query)%string in
      percent_decode query = Store.new_id r
      /\ (forall c, In c (list_ascii_of_string query) ->
                    In c component_characters)
      /\ Forall (fun c => ~ In c (list_ascii_of_string query))
           ["&"; "="; "#"; "?"; "/"; " "; "034"; "<"; ">"]%char
      /\ get "id" (student_of res) = VStr (Store.new_id r)
      /\ encoded (Store.made st st') = [target]
      /\ qr_uploads (Store.made st st') = [Store.QrPng target Store.EcH]
      /\ get "scanUrl" (student_of res) = VStr target)
  /\ (forall cfg r req st,
         status (fst (Part002.post_api_student cfg r req st)) = 200 ->
         let res := fst (Part002.post_api_student cfg r req st) in
         let st' := snd (Part002.post_api_student cfg r req st) in
         let literal := json_escape (Store.new_id r) in
         let target :=
           ("{" ++ quote_mark ++ "id" ++ quote_mark ++ ":" ++ quote_mark
            ++ literal ++ quote_mark ++ "}")%string in
         json_read (literal ++ quote_mark ++ "}")
         = Some (Store.new_id r, "}")
         /\ (forall c, In c (list_ascii_of_string literal) ->
                       (32 <= nat_of_ascii c)%nat)
         /\ get "id" (student_of res) = VStr (Store.new_id r)
         /\ encoded (Store.made st st') = [target]
         /\ qr_uploads (Store.made st st')
            = [Store.QrPng target Store.EcDefault]).
Proof.
  split.
  - intros cfg r req st. cbv zeta. intros Hok.
    split; [apply percent_round_trip | ].
    split; [apply encoded_component | ].
    split.
    { repeat constructor; intros Hin; apply encoded_component in Hin;
        unfold component_characters in Hin;
        cbn [list_ascii_of_string] in Hin;
        repeat (destruct Hin as [Hin | Hin]; [discriminate Hin | ]);
        exact Hin. }
    revert Hok.
    run_student IndexJs.post_api_student.
    destruct (falsy (name req) || _ || _ || _)%bool; [discriminate | ].
    either_way; cbn iota beta; [discriminate | ].
    destruct (photo req) as [f | ];
      repeat (either_way; cbn iota beta; try discriminate);
      intros _;
      (split; [student_id_of_answer | ]);
      (split; [calls_made; reflexivity | ]);
      (split; [calls_made; reflexivity | ]);
      cbn [fst]; rewrite student_of_ok; cbn [get];
      rewrite obj_get_set_same; reflexivity.
  - intros cfg r req st. cbv zeta. intros Hok.
    split; [apply json_read_escaped | ].
    split; [apply json_escape_printable | ].
    revert Hok.
    rewrite <- payload_text.
    run_student Part002.post_api_student.
    destruct (falsy (name req) || _ || _ || _)%bool; [discriminate | ].
    either_way; cbn iota beta; [discriminate | ].
    destruct (photo req) as [f | ];
      repeat (either_way; cbn iota beta; try discriminate);
      intros _;
      (split; [student_id_of_answer | ]);
      (split; calls_made; reflexivity).
Qed.

Lemma qr_holds_scan_target_witness :
  (let r := Sample.remote_with_id "id 7/3&a" in
   let res := fst (IndexJs.post_api_student Sample.cfg r
                     Sample.amy_with_photo Store.empty) in
   let st' := snd (IndexJs.post_api_student Sample.cfg r
                     Sample.amy_with_photo Store.empty) in
   let query := "id%207%2F3%26a" in
   let target := "https://app.example.org/scan?id=id%207%2F3%26a" in
   percent_decode query = "id 7/3&a"
   /\ (forall c, In c (list_ascii_of_string query) ->
                 In c component_characters)
   /\ Forall (fun c => ~ In c (list_ascii_of_string query))
        ["&"; "="; "#"; "?"; "/"; " "; "034"; "<"; ">"]%char
   /\ get "id" (student_of res) = VStr "id 7/3&a"
   /\ encoded (Store.made Store.empty st') = [target]
   /\ qr_uploads (Store.made Store.empty st')
      = [Store.QrPng target Store.EcH]
   /\ get "scanUrl" (student_of res) = VStr target)
  /\ (let id := ("a" ++ quote_mark ++ "b\c" ++ String "010" "d")%string in
      let r := Sample.remote_with_id id in
      let res := fst (Part002.post_api_student Sample.cfg r
                        Sample.amy Store.empty) in
      let st' := snd (Part002.post_api_student Sample.cfg r
                        Sample.amy Store.empty) in
      let literal := ("a\" ++ quote_mark ++ "b\\c\nd")%string in
      let target :=
        ("{" ++ quote_mark ++ "id" ++ quote_mark ++ ":" ++ quote_mark
         ++ literal ++ quote_mark ++ "}")%string in
      json_read (literal ++ quote_mark ++ "}") = Some (id, "}")
      /\ (forall c, In c (list_ascii_of_string literal) ->
                    (32 <= nat_of_ascii c)%nat)
      /\ get "id" (student_of res) = VStr id
      /\ encoded (Store.made Store.empty st') = [target]
      /\ qr_uploads (Store.made Store.empty st')
         = [Store.QrPng target Store.EcDefault]).
Proof.
  split.
  - apply (proj1 qr_holds_scan_target Sample.cfg
             (Sample.remote_with_id "id 7/3&a")
             Sample.amy_with_photo Store.empty).
    reflexivity.
  - apply (proj2 qr_holds_scan_target Sample.cfg
             (Sample.remote_with_id
                ("a" ++ quote_mark ++ "b\c" ++ String "010" "d"))
             Sample.amy Store.empty).
    reflexivity.
Defined.

End Encoding.

(** ** Startup: the configuration checks and the client library *)

Module Boot.
Import JS Http Props Facts Startup.

Lemma strip_added_slash (b : string) :
  strip_trailing_slash (b ++ "/") = b.
Proof.
  induction b as [ | c b IH]; [reflexivity | ].
  cbn [append strip_trailing_slash].
  destruct (b ++ "/")%string eqn:E.
  - destruct b; discriminate E.
  - rewrite IH. reflexivity.
Qed.

Lemma strip_no_slash (b : string) (c : ascii) :
  c <> "/"%char -> strip_trailing_slash (b ++ String c "") = (b ++ String c "")%string.
Proof.
  intros Hc. induction b as [ | x b IH]; simpl.
  - destruct (Ascii.eqb_spec c "/"); [contradiction | reflexivity].
  - destruct (b ++ String c "")%string eqn:E.
    + destruct b; discriminate E.
    + rewrite IH. reflexivity.
Qed.

Lemma present_truthy (s : string) : s <> "" -> falsy (VStr s) = false.
Proof.
  intros H. unfold falsy. simpl.
  destruct (String.eqb_spec s ""); [contradiction | reflexivity].
Qed.

Lemma present_value (o : option string) (s : string) :
  o = Some s -> ~ absent o -> falsy (of_env o) = false /\ to_string (of_env o) = s.
Proof.
  intros -> Hpresent. split; [ | reflexivity].
  destruct (falsy (of_env (Some s))) eqn:H; [ | reflexivity].
  apply falsy_of_env in H. contradiction.
Qed.

Lemma present_frontend (o : option string) :
  ~ frontend_absent o ->
  falsy (VStr (strip_trailing_slash
                 (to_string (or_else (of_env o) (VStr ""))))) = false.
Proof.
  intros Hpresent.
  destruct (falsy (VStr _)) eqn:H; [ | reflexivity].
  apply falsy_frontend in H. contradiction.
Qed.

(** C4, as the code has it.  src/index.js exits with code 1 when
    SUPABASE_URL or SUPABASE_KEY is absent or FRONTEND_URL is absent (or a
    lone slash), whatever the client library would do; ADMIN_PIN is not
    among its checks: with the three other values present and accepted by
    the client library the server listens, with the pin the environment
    gives, undefined when there is none.  part_000 exits with code 1 when
    one of those three or ADMIN_PIN is absent.  A process that has exited
    serves no request.  The CommonJS revision replaces an absent
    ADMIN_SECRET by a built-in default instead of exiting. *)
Theorem startup_checks (createClient : client_library) (e : environment) :
  (absent (env_SUPABASE_URL e) \/ absent (env_SUPABASE_KEY e)
   \/ frontend_absent (env_FRONTEND_URL e) ->
   IndexJs.startup createClient e = Exited 1)
  /\ (forall url key,
         env_SUPABASE_URL e = Some url -> env_SUPABASE_KEY e = Some key ->
         ~ absent (env_SUPABASE_URL e) -> ~ absent (env_SUPABASE_KEY e) ->
         ~ frontend_absent (env_FRONTEND_URL e) ->
         createClient url key = None ->
         exists cfg, IndexJs.startup createClient e = Listening cfg
                     /\ ADMIN_PIN cfg = of_env (env_ADMIN_PIN e))
  /\ (absent (env_SUPABASE_URL e) \/ absent (env_SUPABASE_KEY e)
      \/ frontend_absent (env_FRONTEND_URL e)
      \/ absent (env_ADMIN_PIN e) ->
      Part000.startup createClient e = Exited 1)
  /\ (forall (Req : Type) handler code r (req : Req) st,
         serve handler (Exited code) r req st = None)
  /\ Part001Cjs.ADMIN_SECRET None = VStr "myattendancesecret2025"
  /\ Part001Cjs.ADMIN_SECRET (Some "") = VStr "myattendancesecret2025".
Proof.
  split; [ | split; [ | split; [ | split; [ | split] ] ] ];
    try reflexivity.
  - rewrite <- !falsy_of_env, <- falsy_frontend.
    unfold IndexJs.startup.
    intros [H | [H | H]]; rewrite H; rewrite ?Bool.orb_true_r;
      try reflexivity.
    destruct (_ || _)%bool; reflexivity.
  - intros url key Hurl Hkey Hu Hk Hf Hlib.
    destruct (present_value _ _ Hurl Hu) as [Hfu Hsu].
    destruct (present_value _ _ Hkey Hk) as [Hfk Hsk].
    unfold IndexJs.startup.
    rewrite Hfu, Hfk, (present_frontend _ Hf), Hsu, Hsk, Hlib.
    eexists. split; reflexivity.
  - rewrite <- !falsy_of_env, <- falsy_frontend.
    unfold Part000.startup.
    intros [H | [H | [H | H]]]; rewrite H; rewrite ?Bool.orb_true_r;
      reflexivity.
Qed.

Lemma startup_checks_witness :
  IndexJs.startup Sample.createClient
    {| env_SUPABASE_URL := Some "https://db.example.org";
       env_SUPABASE_KEY := None;
       env_FRONTEND_URL := Some "https://app.example.org/";
       env_ADMIN_PIN := Some "4711" |} = Exited 1
  /\ (exists cfg,
         IndexJs.startup Sample.createClient Sample.env_no_pin = Listening cfg
         /\ ADMIN_PIN cfg = VUndef)
  /\ Part000.startup Sample.createClient Sample.env_no_pin = Exited 1.
Proof.
  split; [ | split].
  - apply (proj1 (startup_checks Sample.createClient _)).
    right. left. left. reflexivity.
  - apply (proj1 (proj2 (startup_checks Sample.createClient
                           Sample.env_no_pin))
             "https://db.example.org" "service-key");
      try reflexivity.
    + intros [H | H]; discriminate H.
    + intros [H | H]; discriminate H.
    + intros [[H | H] | H]; discriminate H.
  - apply (proj1 (proj2 (proj2 (startup_checks Sample.createClient
                                  Sample.env_no_pin)))).
    right. right. right. left. reflexivity.
Defined.

(** X25. FRONTEND_URL with or without a trailing slash configures the same
    server: when the store URL and key are present and the client library
    accepts them, src/index.js listens with FRONTEND_URL less exactly one
    trailing slash, so a value [b/] is kept as [b] (whatever [b] ends
    with) and a value that does not end with a slash is kept as it is. *)
Theorem frontend_trailing_slash
    (createClient : client_library)
    (e : environment) (url key front : string) :
  env_SUPABASE_URL e = Some url -> url <> "" ->
  env_SUPABASE_KEY e = Some key -> key <> "" ->
  env_FRONTEND_URL e = Some front -> front <> "" -> front <> "/" ->
  createClient url key = None ->
  IndexJs.startup createClient e
  = Listening {| SUPABASE_URL := url; SUPABASE_KEY := key;
                 FRONTEND_URL := strip_trailing_slash front;
                 ADMIN_PIN := of_env (env_ADMIN_PIN e) |}
  /\ (forall b, front = (b ++ "/")%string -> strip_trailing_slash front = b)
  /\ (forall b c, front = (b ++ String c "")%string -> c <> "/"%char ->
                  strip_trailing_slash front = front).
Proof.
  intros Hurl Hu Hkey Hk Hfront Hf Hslash Hlib.
  split; [ | split].
  - unfold IndexJs.startup. rewrite Hurl, Hkey, Hfront. cbn [of_env].
    rewrite (present_truthy url Hu), (present_truthy key Hk).
    unfold or_else.
    assert (Ht : truthy (VStr front) = true).
    { pose proof (present_truthy front Hf) as H. unfold falsy in H.
      now destruct (truthy (VStr front)). }
    rewrite Ht. cbn [orb to_string].
    rewrite present_truthy, Hlib; [reflexivity | ].
    intros Habs. apply strip_trailing_slash_empty in Habs.
    destruct Habs; contradiction.
  - intros b ->. apply strip_added_slash.
  - intros b c -> Hc. now apply strip_no_slash.
Qed.

Lemma frontend_trailing_slash_witness :
  IndexJs.startup Sample.createClient Sample.env
  = Listening {| SUPABASE_URL := "https://db.example.org";
                 SUPABASE_KEY := "service-key";
                 FRONTEND_URL :=
                   strip_trailing_slash "https://app.example.org/";
                 ADMIN_PIN := VStr "4711" |}
  /\ (forall b, "https://app.example.org/" = (b ++ "/")%string ->
                strip_trailing_slash "https://app.example.org/" = b)
  /\ (forall b c, "https://app.example.org/" = (b ++ String c "")%string ->
                  c <> "/"%char ->
                  strip_trailing_slash "https://app.example.org/"
                  = "https://app.example.org/").
Proof.
  apply (frontend_trailing_slash Sample.createClient Sample.env
           "https://db.example.org" "service-key"
           "https://app.example.org/");
    try reflexivity; discriminate.
Defined.

Lemma rejects_present (createClient : client_library) (e : environment) :
  falsy (of_env (env_SUPABASE_URL e)) = false ->
  falsy (of_env (env_SUPABASE_KEY e)) = false ->
  (createClient (to_string (of_env (env_SUPABASE_URL e)))
     (to_string (of_env (env_SUPABASE_KEY e))) <> None
   <-> library_rejects createClient e).
Proof.
  intros Hu Hk. unfold library_rejects.
  destruct (env_SUPABASE_URL e) as [url | ]; [ | discriminate Hu].
  destruct (env_SUPABASE_KEY e) as [key | ]; [ | discriminate Hk].
  cbn [of_env to_string]. split.
  - intros H. exists url, key. auto.
  - intros [u [k [[= <-] [[= <-] H]]]]. exact H.
Qed.

(** X26. The startup of the two other revisions, up to [app.listen]:
    part_001 ends with code 1 exactly when the store URL, the key or the
    frontend URL is absent or the client library throws on the URL and
    key, and not for an absent ADMIN_PIN; part_002 ends with code 1
    exactly when the store URL or the key is absent or the client library
    throws on them, and its startup does not depend on FRONTEND_URL or
    ADMIN_PIN. *)
Theorem other_startup_checks
    (createClient : client_library) (e : environment) :
  (Part001.startup createClient e = Exited 1
   <-> absent (env_SUPABASE_URL e) \/ absent (env_SUPABASE_KEY e)
       \/ frontend_absent (env_FRONTEND_URL e)
       \/ library_rejects createClient e)
  /\ (Part002.startup createClient e = Exited 1
      <-> absent (env_SUPABASE_URL e) \/ absent (env_SUPABASE_KEY e)
          \/ library_rejects createClient e)
  /\ (forall front pin,
         Part002.startup createClient
           {| env_SUPABASE_URL := env_SUPABASE_URL e;
              env_SUPABASE_KEY := env_SUPABASE_KEY e;
              env_FRONTEND_URL := front; env_ADMIN_PIN := pin |}
         = Part002.startup createClient e).
Proof.
  rewrite <- !falsy_of_env, <- falsy_frontend.
  unfold Part001.startup, Part002.startup.
  cbn [env_SUPABASE_URL env_SUPABASE_KEY].
  destruct (falsy (of_env (env_SUPABASE_URL e))) eqn:Hu;
    [cbn [orb];
     split; [ | split; [ | reflexivity] ]; split; auto | ].
  destruct (falsy (of_env (env_SUPABASE_KEY e))) eqn:Hk;
    [cbn [orb];
     split; [ | split; [ | reflexivity] ]; split; auto | ].
  cbn [orb].
  pose proof (rejects_present createClient e Hu Hk) as Hrej.
  destruct (createClient _ _) as [message | ].
  - assert (Hr : library_rejects createClient e)
      by (apply Hrej; discriminate).
    split; [ | split; [ | reflexivity] ].
    + destruct (falsy (VStr _)); split; auto.
    + split; auto.
  - assert (Hr : ~ library_rejects createClient e).
    { intros H. apply Hrej in H. now apply H. }
    split; [ | split; [ | reflexivity] ].
    + destruct (falsy (VStr _)); split; auto;
        try discriminate; intuition discriminate.
    + split; [discriminate | intuition discriminate].
Qed.

End Boot.

(** ** Registration and the attendance table *)

Module Separation.
Import JS Http Props Facts Registration CheckIn.

Ltac every_outcome :=
  repeat (match goal with
          | |- context [match Store.error_of ?r ?c with _ => _ end] =>
              destruct (Store.error_of r c)
          | |- context [match photo ?req with _ => _ end] =>
              destruct (photo req)
          | |- context [match Part001Cjs.photo ?req with _ => _ end] =>
              destruct (Part001Cjs.photo req)
          end; cbn iota beta);
  reflexivity.

(** X27. No student endpoint of any revision touches the attendance table:
    registration (POST /api/student, POST /api/create-student) and the
    lookups leave every attendance row as it was, whatever the request and
    whatever the services answer. *)
Theorem student_endpoints_keep_attendance
    (cfg : config) (r : Store.remote) (st : Store.t) :
  (forall req,
      Store.attendance (snd (IndexJs.post_api_student cfg r req st))
      = Store.attendance st
      /\ Store.attendance (snd (Part000.post_api_student cfg r req st))
         = Store.attendance st
      /\ Store.attendance (snd (Part002.post_api_student cfg r req st))
         = Store.attendance st)
  /\ (forall url req,
         Store.attendance (snd (Part001Cjs.create_student url r req st))
         = Store.attendance st)
  /\ (forall id,
         Store.attendance (snd (IndexJs.get_api_student cfg r id st))
         = Store.attendance st)
  /\ Store.attendance (snd (Part002.get_api_students cfg r st))
     = Store.attendance st.
Proof.
  split; [ | split; [ | split] ].
  - intros req. split; [ | split].
    + run_student IndexJs.post_api_student.
      destruct (falsy (name req) || _ || _ || _)%bool; [reflexivity | ].
      every_outcome.
    + run_student Part000.post_api_student.
      destruct (falsy (name req) || _ || _ || _)%bool; [reflexivity | ].
      every_outcome.
    + run_student Part002.post_api_student.
      destruct (falsy (name req) || _ || _ || _)%bool; [reflexivity | ].
      every_outcome.
  - intros url req.
    unfold Part001Cjs.create_student, Part001Cjs.uploadToStorage,
      Part001Cjs.fetch, Store.insert, Store.upload, Store.update.
    destruct (falsy _ || _ || _ || _)%bool; [reflexivity | ].
    every_outcome.
  - intros id.
    unfold IndexJs.get_api_student, Store.select_single, Store.select.
    destruct (Store.error_of r _); [reflexivity | ].
    cbn [Store.single].
    destruct (List.filter _ _) as [ | rw [ | rw' rows]]; reflexivity.
  - unfold Part002.get_api_students, Store.select.
    destruct (Store.error_of r _); reflexivity.
Qed.

End Separation.
